(** * The Hack assembler of [hack-assemble.py], embedded and verified

    The development follows the source file top to bottom:

    - [Py]: the Python built-ins the script relies on ([str.split],
      [str.join], [str.find], slicing, [str.isdigit], [int], [format],
      [sorted], [del]);
    - the four class-level tables and the methods of [class Assembler], in
      the order [__init__] calls them;
    - the properties of each pass, then of the whole run.

    Conventions.  A Python [int] is a [Z].  A [str] is a [string] whose
    characters stand for the code points below 256 (Python 3 semantics of
    [split], [isdigit] and [int] restricted to them).  A [dict] is a [gmap].
    An exception is a value of [exn]; a method that can raise returns a
    [result].  The class attribute [predefined_symbols] and the instance
    attribute [variables] are dict objects that live in a store ([heap]) and
    are held by reference, so that the effect of [.copy()] is visible. *)

From Stdlib Require Import ZArith Ascii String Lia.
From stdpp Require Import gmap strings list sorting.

Local Open Scope Z_scope.

(** ** Exceptions *)

Inductive exn : Type :=
  | KeyError (key : option string)
  | ValueError (literal : string)
  | IndexError.

Inductive result (A : Type) : Type :=
  | Ok (a : A)
  | Raise (e : exn).
Arguments Ok {A} a.
Arguments Raise {A} e.

#[global] Instance result_ret : MRet result := λ A a, Ok a.
#[global] Instance result_bind : MBind result := λ A B k r,
  match r with
  | Ok a => k a
  | Raise e => Raise e
  end.

(** A [for] loop whose body may raise: the first exception ends the loop. *)
Fixpoint for_each {A S} (body : S → A → result S) (s : S) (l : list A)
  : result S :=
  match l with
  | [] => Ok s
  | a :: l' => s' ← body s a; for_each body s' l'
  end.

(** ** Python built-ins *)

Module Py.

(** Values stored in the symbol tables: [predefined_symbols] holds [str]
    values, [find_variables] and [find_labels] store [int]s. *)
Inductive val : Type :=
  | Str (s : string)
  | Int (n : Z).

(** [c.isspace()] for a code point below 256. *)
Definition isspace (c : ascii) : bool :=
  let n := nat_of_ascii c in
  ((9 <=? n) && (n <=? 13) || (28 <=? n) && (n <=? 32)
   || (n =? 133) || (n =? 160))%nat.

(** An ASCII decimal digit and its value. *)
Definition digit_value (c : ascii) : option Z :=
  let n := nat_of_ascii c in
  if ((48 <=? n) && (n <=? 57))%nat then Some (Z.of_nat n - 48) else None.

(** [c.isdigit()] for a code point below 256: the ASCII digits and the
    superscripts two, three and one. *)
Definition isdigit_char (c : ascii) : bool :=
  let n := nat_of_ascii c in
  ((48 <=? n) && (n <=? 57) || (n =? 178) || (n =? 179) || (n =? 185))%nat.

Fixpoint forallb_str (p : ascii → bool) (s : string) : bool :=
  match s with
  | EmptyString => true
  | String c s' => p c && forallb_str p s'
  end.

Fixpoint filter_str (p : ascii → bool) (s : string) : string :=
  match s with
  | EmptyString => EmptyString
  | String c s' => if p c then String c (filter_str p s') else filter_str p s'
  end.

Definition len (s : string) : Z := Z.of_nat (String.length s).

(** [s.isdigit()]: non-empty and every character a digit. *)
Definition isdigit (s : string) : bool :=
  match s with
  | EmptyString => false
  | _ => forallb_str isdigit_char s
  end.

(** [s.startswith(p)]. *)
Definition startswith (s p : string) : bool := String.prefix p s.

(** [s.find(sub)]: lowest index of an occurrence of [sub], or [-1]. *)
Fixpoint find (s sub : string) : Z :=
  if String.prefix sub s then 0
  else match s with
       | EmptyString => -1
       | String _ s' => let r := find s' sub in
                        if r =? -1 then -1 else r + 1
       end.

(** Slice bounds: a negative bound counts from the end, and the result is
    clamped to [0, len]. *)
Definition clamp (n : Z) (bound : option Z) (default : Z) : Z :=
  match bound with
  | None => default
  | Some i => let i := if i <? 0 then i + n else i in
              Z.min n (Z.max 0 i)
  end.

(** [s[lo:hi]], either bound possibly omitted. *)
Definition slice (s : string) (lo hi : option Z) : string :=
  let n := len s in
  let l := clamp n lo 0 in
  let h := clamp n hi n in
  String.substring (Z.to_nat l) (Z.to_nat (h - l)) s.

(** [s.split()]: the maximal runs of non-whitespace characters.  [cur] is
    the run being read, if any. *)
Fixpoint split_go (cur : option string) (s : string) : list string :=
  match s with
  | EmptyString => option_list cur
  | String c s' =>
      if isspace c then option_list cur ++ split_go None s'
      else split_go (Some (from_option (λ w, w +:+ String c "") (String c "") cur)) s'
  end.
Definition split (s : string) : list string := split_go None s.

(** [sep.join(l)]. *)
Fixpoint join (sep : string) (l : list string) : string :=
  match l with
  | [] => ""
  | [w] => w
  | w :: l' => w +:+ sep +:+ join sep l'
  end.

(** [s.strip()]: without the whitespace at both ends. *)
Fixpoint lstrip (s : string) : string :=
  match s with
  | EmptyString => EmptyString
  | String c s' => if isspace c then lstrip s' else s
  end.
Fixpoint rstrip (s : string) : string :=
  match s with
  | EmptyString => EmptyString
  | String c s' =>
      match rstrip s' with
      | EmptyString => if isspace c then EmptyString else String c EmptyString
      | r => String c r
      end
  end.
Definition strip (s : string) : string := rstrip (lstrip s).

(** The value of a decimal numeral as [int] accepts it: ASCII digits, most
    significant first, with single underscores between digits.
    [after_digit] tells whether the character before is a digit. *)
Fixpoint decimal_go (acc : Z) (after_digit : bool) (s : string) : option Z :=
  match s with
  | EmptyString => if after_digit then Some acc else None
  | String c s' =>
      if Ascii.eqb c "_" then
        if after_digit then decimal_go acc false s' else None
      else
        match digit_value c with
        | Some d => decimal_go (10 * acc + d) true s'
        | None => None
        end
  end.

(** [int(x)].  An [int] is returned as it is.  A [str] is read in base 10:
    whitespace around it is dropped, a sign may come first, and the rest is
    a decimal numeral; anything else raises [ValueError]. *)
Definition int (x : val) : result Z :=
  match x with
  | Int n => Ok n
  | Str s =>
      let t := strip s in
      let '(negative, numeral) :=
        match t with
        | String c t' =>
            if Ascii.eqb c "-" then (true, t')
            else if Ascii.eqb c "+" then (false, t')
            else (false, t)
        | EmptyString => (false, t)
        end in
      match decimal_go 0 false numeral with
      | Some n => Ok (if negative then - n else n)
      | None => Raise (ValueError s)
      end
  end.

(** Binary digits of a positive number, most significant first. *)
Fixpoint bin_pos (p : positive) : string :=
  match p with
  | xH => "1"
  | xO p' => bin_pos p' +:+ "0"
  | xI p' => bin_pos p' +:+ "1"
  end.

(** [format(n, "b")] for [n >= 0]. *)
Definition bin (n : Z) : string :=
  match n with
  | Zpos p => bin_pos p
  | _ => "0"
  end.

Fixpoint zeros (k : nat) : string :=
  match k with
  | O => ""
  | S k' => String "0" (zeros k')
  end.

(** [format(i, "#0<width>b")]: binary with the [0b] prefix, zero-filled
    between the prefix and the digits up to [width] characters, the sign
    first. *)
Definition format_alt0_b (i width : Z) : string :=
  let sign := if i <? 0 then "-" else "" in
  let digits := bin (Z.abs i) in
  let fill := width - len sign - 2 - len digits in
  sign +:+ "0b" +:+ zeros (Z.to_nat fill) +:+ digits.

(** [sorted(l, reverse=True)] on a list of indices. *)
Definition sorted_reverse (l : list nat) : list nat :=
  merge_sort (flip Nat.le) l.

(** [del l[i]]: raises [IndexError] out of range. *)
Definition del {A} (l : list A) (i : nat) : result (list A) :=
  if (i <? length l)%nat then Ok (delete i l) else Raise IndexError.

End Py.

(** ** The store of dict objects *)

(** A symbol table is a dict from names to values; the two tables that may
    alias ([Assembler.predefined_symbols] and [self.variables]) are objects of
    the store, named by their position in it. *)
Abbreviation dict := (gmap string Py.val).
Abbreviation loc := nat (only parsing).
Abbreviation heap := (list dict).

(** [k in d] for the dict at [l]. *)
Definition dict_contains (l : loc) (k : string) (h : heap) : bool :=
  match h !! l with
  | Some d => bool_decide (is_Some (d !! k))
  | None => false
  end.

(** [d[k]] for the dict at [l]. *)
Definition dict_get (l : loc) (k : string) (h : heap) : result Py.val :=
  match h !! l ≫= (.!! k) with
  | Some v => Ok v
  | None => Raise (KeyError (Some k))
  end.

(** [d[k] = v] for the dict at [l]: the object is updated in place. *)
Definition dict_set (l : loc) (k : string) (v : Py.val) (h : heap) : heap :=
  alter (<[k := v]>) l h.

(** [d.copy()] for the dict at [l]: a new object with the same bindings. *)
Definition dict_copy (l : loc) (h : heap) : heap * loc :=
  (h ++ [default ∅ (h !! l)], length h).

(** ** Class attributes *)

(** [t[k]] on one of the read-only encoding tables. *)
Definition table_get (t : gmap (option string) string) (k : option string)
  : result string :=
  match t !! k with
  | Some v => Ok v
  | None => Raise (KeyError k)
  end.

Definition comp_table : gmap (option string) string := list_to_map [
  (Some "0",   "0101010"); (Some "1",   "0111111"); (Some "-1",  "0111010");
  (Some "D",   "0001100"); (Some "A",   "0110000"); (Some "M",   "1110000");
  (Some "!D",  "0001101"); (Some "!A",  "0110001"); (Some "!M",  "1110001");
  (Some "-D",  "0001111"); (Some "-A",  "0110011"); (Some "-M",  "1110011");
  (Some "D+1", "0011111"); (Some "A+1", "0110111"); (Some "M+1", "1110111");
  (Some "D-1", "0001110"); (Some "A-1", "0110010"); (Some "M-1", "1110010");
  (Some "D+A", "0000010"); (Some "D+M", "1000010"); (Some "D-A", "0010011");
  (Some "D-M", "1010011"); (Some "A-D", "0000111"); (Some "M-D", "1000111");
  (Some "D&A", "0000000"); (Some "D&M", "1000000"); (Some "D|A", "0010101");
  (Some "D|M", "1010101"); (None,       "0000000") ].

Definition jump_table : gmap (option string) string := list_to_map [
  (None,       "000"); (Some "JGT", "001"); (Some "JEQ", "010");
  (Some "JGE", "011"); (Some "JLT", "100"); (Some "JNE", "101");
  (Some "JLE", "110"); (Some "JMP", "111") ].

Definition dest_table : gmap (option string) string := list_to_map [
  (None,       "000"); (Some "M",   "001"); (Some "D",   "010");
  (Some "MD",  "011"); (Some "A",   "100"); (Some "AM",  "101");
  (Some "AD",  "110"); (Some "ADM", "111") ].

Definition predefined_symbols_items : list (string * Py.val) := [
  ("R0",  Py.Str "0"); ("R1",  Py.Str "1"); ("R2",  Py.Str "2");
  ("R3",  Py.Str "3"); ("R4",  Py.Str "4"); ("R5",  Py.Str "5");
  ("R6",  Py.Str "6"); ("R7",  Py.Str "7"); ("R8",  Py.Str "8");
  ("R9",  Py.Str "9"); ("R10", Py.Str "10"); ("R11", Py.Str "11");
  ("R12", Py.Str "12"); ("R13", Py.Str "13"); ("R14", Py.Str "14");
  ("R15", Py.Str "15"); ("SCREEN", Py.Str "16384"); ("KBD", Py.Str "24576");
  ("SP", Py.Str "0"); ("LCL", Py.Str "1"); ("ARG", Py.Str "2");
  ("THIS", Py.Str "3"); ("THAT", Py.Str "4") ].

Definition predefined_symbols : dict := list_to_map predefined_symbols_items.

(** Where the class attribute [Assembler.predefined_symbols] lives, and the
    store as it is once the class body has been executed. *)
Definition predefined_symbols_loc : loc := 0%nat.
Definition initial_heap : heap := [predefined_symbols].

(** ** Instances *)

(** An element of [intermediary_code]: the dict with ["type": "A"] or the
    one with ["type": "C"]. *)
Inductive ins : Type :=
  | AIns (address : Z)
  | CIns (dest : option string) (comp : string) (jump : option string).

Record Assembler : Type := mkAssembler {
  assembly_code : list string;
  intermediary_code : list ins;
  machine_code : list string;
  labels : gmap string Z;
  variables : loc;
}.

Definition set_assembly_code (c : list string) (self : Assembler) :=
  mkAssembler c (intermediary_code self) (machine_code self)
              (labels self) (variables self).
Definition set_intermediary_code (c : list ins) (self : Assembler) :=
  mkAssembler (assembly_code self) c (machine_code self)
              (labels self) (variables self).
Definition set_machine_code (c : list string) (self : Assembler) :=
  mkAssembler (assembly_code self) (intermediary_code self) c
              (labels self) (variables self).
Definition set_labels (t : gmap string Z) (self : Assembler) :=
  mkAssembler (assembly_code self) (intermediary_code self)
              (machine_code self) t (variables self).

(** [enumerate(l)]. *)
Definition enumerate {A} (l : list A) : list (nat * A) :=
  zip (seq 0 (length l)) l.

(** *** [remove_unnecessary] *)

Definition remove_unnecessary_body (assembly : list string) (line : string)
  : list string :=
  let stripped := Py.join "" (Py.split line) in
  let comment_start := Py.find stripped "//" in
  let stripped :=
    if negb (comment_start =? -1)
    then Py.slice stripped (Some 0) (Some comment_start)
    else stripped in
  if negb (String.eqb stripped "") then assembly ++ [stripped] else assembly.

Definition remove_unnecessary (self : Assembler) : Assembler :=
  set_assembly_code (foldl remove_unnecessary_body [] (assembly_code self)) self.

(** *** [find_labels] *)

(** The loop state: [cur_instruction], [self.labels], [label_indexes]. *)
Definition find_labels_body (st : Z * gmap string Z * list nat)
    (item : nat * string) : Z * gmap string Z * list nat :=
  let '(cur_instruction, lbls, label_indexes) := st in
  let '(index, line) := item in
  if Py.startswith line "(" then
    let jmp_symbol := Py.slice line (Some 1) (Some (-1)) in
    (cur_instruction, <[jmp_symbol := cur_instruction]> lbls,
     label_indexes ++ [index])
  else (cur_instruction + 1, lbls, label_indexes).

Definition find_labels (self : Assembler) : result Assembler :=
  let '(_, lbls, label_indexes) :=
    foldl find_labels_body (0, labels self, []) (enumerate (assembly_code self)) in
  code ← for_each Py.del (assembly_code self) (Py.sorted_reverse label_indexes);
  Ok (set_assembly_code code (set_labels lbls self)).

(** *** [find_variables] *)

(** The loop state: the store (for [self.variables]) and [next_address]. *)
Definition find_variables_body (self : Assembler) (st : heap * Z)
    (line : string) : heap * Z :=
  let '(h, next_address) := st in
  if negb (Py.startswith line "@") then st
  else
    let symbol := Py.slice line (Some 1) None in
    if Py.isdigit symbol then st
    else if negb (dict_contains (variables self) symbol h)
            && negb (bool_decide (is_Some (labels self !! symbol)))
    then (dict_set (variables self) symbol (Py.Int next_address) h,
          next_address + 1)
    else st.

Definition find_variables (self : Assembler) (h : heap) : heap :=
  fst (foldl (find_variables_body self) (h, 16) (assembly_code self)).

(** *** [build_intermediary] *)

Definition build_intermediary_body (self : Assembler) (h : heap)
    (intermediary : list ins) (line : string) : result (list ins) :=
  if Py.startswith line "@" then
    let address := Py.slice line (Some 1) None in
    address ←
      (if dict_contains (variables self) address h
       then dict_get (variables self) address h
       else match labels self !! address with
            | Some n => Ok (Py.Int n)
            | None => Ok (Py.Str address)
            end);
    n ← Py.int address;
    Ok (intermediary ++ [AIns n])
  else
    let dest_idx := Py.find line "=" in
    let jump_idx := Py.find line ";" in
    if (dest_idx =? -1) && (jump_idx =? -1) then
      Ok (intermediary ++ [CIns None line None])
    else if negb (dest_idx =? -1) && (jump_idx =? -1) then
      Ok (intermediary ++
            [CIns (Some (Py.slice line (Some 0) (Some dest_idx)))
                  (Py.slice line (Some (dest_idx + 1)) None)
                  None])
    else if (dest_idx =? -1) && negb (jump_idx =? -1) then
      Ok (intermediary ++
            [CIns None
                  (Py.slice line (Some 0) (Some jump_idx))
                  (Some (Py.slice line (Some (jump_idx + 1)) None))])
    else if negb (dest_idx =? -1) && negb (jump_idx =? -1) then
      Ok (intermediary ++
            [CIns (Some (Py.slice line (Some 0) (Some dest_idx)))
                  (Py.slice line (Some (dest_idx + 1)) (Some jump_idx))
                  (Some (Py.slice line (Some (jump_idx + 1)) None))])
    else Ok intermediary.

Definition build_intermediary (self : Assembler) (h : heap)
  : result Assembler :=
  intermediary ← for_each (build_intermediary_body self h) [] (assembly_code self);
  Ok (set_intermediary_code intermediary self).

(** *** [get_binary_string] and [assemble] *)

(** The format string is ["#0" + str(n + 2) + "b"]: a width, for the
    [n + 2 >= 0] of the only call. *)
Definition get_binary_string (i n : Z) : string :=
  let s := Py.format_alt0_b i (n + 2) in
  Py.slice s (Some 2) None.

Definition assemble_body (assembled : list string) (i : ins)
  : result (list string) :=
  match i with
  | AIns address =>
      let line := "0" +:+ get_binary_string address 15 in
      Ok (assembled ++ [line])
  | CIns dest comp jump =>
      dest ← table_get dest_table dest;
      comp ← table_get comp_table (Some comp);
      jump ← table_get jump_table jump;
      let line := "111" +:+ comp +:+ dest +:+ jump in
      Ok (assembled ++ [line])
  end.

Definition assemble (self : Assembler) : result Assembler :=
  assembled ← for_each assemble_body [] (intermediary_code self);
  Ok (set_machine_code assembled self).

(** *** [get_machine_code], [__init__] and the script *)

Definition newline : string := String "010" "".

Definition get_machine_code (self : Assembler) : string :=
  Py.join newline (machine_code self).

(** The constructor.  The store is returned also when a pass raises: what
    was written to it before stays written. *)
Definition __init__ (code : list string) (h : heap) : heap * result Assembler :=
  let '(h, vars) := dict_copy predefined_symbols_loc h in
  let self := mkAssembler code [] [] ∅ vars in
  let self := remove_unnecessary self in
  match find_labels self with
  | Raise e => (h, Raise e)
  | Ok self =>
      let h := find_variables self h in
      (h, self ← build_intermediary self h; assemble self)
  end.

(** The two statements at the end of the file: the text handed to [print]
    for the lines read from standard input. *)
Definition main (stdin : list string) (h : heap) : heap * result string :=
  let '(h, r) := __init__ stdin h in
  (h, asm ← r; Ok (get_machine_code asm)).

Definition run (stdin : list string) : result string :=
  snd (main stdin initial_heap).

(** ** Vocabulary of the specification *)

(** A loop body that only appends to its accumulator. *)
Definition appending {A B} (body : list B → A → result (list B)) : Prop :=
  ∀ acc a, body acc a = out ← body [] a; Ok (acc ++ out).

(** The value of a string of binary digits read most significant bit first,
    when it is one. *)
Fixpoint binary_go (acc : Z) (s : string) : option Z :=
  match s with
  | EmptyString => Some acc
  | String c s' =>
      if Ascii.eqb c "0" then binary_go (2 * acc) s'
      else if Ascii.eqb c "1" then binary_go (2 * acc + 1) s'
      else None
  end.
Definition binary_value (s : string) : option Z := binary_go 0 s.

Definition is_bit (c : ascii) : bool := Ascii.eqb c "0" || Ascii.eqb c "1".

(** A line of machine code: sixteen characters, each [0] or [1]. *)
Definition machine_word (s : string) : Prop :=
  String.length s = 16%nat ∧ Py.forallb_str is_bit s = true.

(** A label declaration, as the label pass recognises it. *)
Definition is_declaration (line : string) : bool := Py.startswith line "(".

Fixpoint remove_last (s : string) : string :=
  match s with
  | EmptyString => EmptyString
  | String c EmptyString => EmptyString
  | String c s' => String c (remove_last s')
  end.

(** A string without its first and its last character. *)
Definition drop_first_last (s : string) : string :=
  match s with
  | EmptyString => EmptyString
  | String _ s' => remove_last s'
  end.

(** The lines that are not declarations, in order. *)
Definition instructions (code : list string) : list string :=
  filter (λ line, is_declaration line = false) code.

(** The number of instructions before position [i]: the index that the
    instruction following position [i] gets. *)
Definition instruction_index (code : list string) (i : nat) : Z :=
  Z.of_nat (length (instructions (take i code))).

(** The positions of the declarations, in increasing order. *)
Definition declaration_positions (code : list string) : list nat :=
  (filter (λ item, is_declaration item.2 = true) (enumerate code)).*1.

(** A raw line without its whitespace characters. *)
Definition strip_whitespace (raw : string) : string :=
  Py.filter_str (λ c, negb (Py.isspace c)) raw.

(** The text before the first occurrence of the comment marker [//]. *)
Fixpoint before_comment (s : string) : string :=
  match s with
  | EmptyString => EmptyString
  | String c s' =>
      if String.prefix "//" s then EmptyString else String c (before_comment s')
  end.

(** What is left of a raw line: nothing for a blank line or a comment. *)
Definition statement_text (raw : string) : option string :=
  let t := before_comment (strip_whitespace raw) in
  if String.eqb t "" then None else Some t.

(** The three kinds of raw lines that give no machine instruction. *)
Definition is_blank (raw : string) : bool :=
  String.eqb (strip_whitespace raw) "".
Definition is_comment (raw : string) : bool :=
  Py.startswith (strip_whitespace raw) "//".
Definition is_label_declaration (raw : string) : bool :=
  Py.startswith (strip_whitespace raw) "(".

(** The input statements that are not label declarations, not comments
    and not blank. *)
Definition statements (stdin : list string) : list string :=
  filter (λ raw, is_blank raw = false ∧ is_comment raw = false
                 ∧ is_label_declaration raw = false) stdin.

(** The operand of an address instruction: the text after the [@]. *)
Definition operand (line : string) : option string :=
  match line with
  | String c sym => if Ascii.eqb c "@" then Some sym else None
  | EmptyString => None
  end.

(** A use of a user-declared variable: an operand that is not a numeral
    and is bound neither in the variable table [vars0] the pass starts from
    nor in the label table. *)
Definition variable_use (lbls : gmap string Z) (vars0 : dict)
    (line : string) : option string :=
  sym ← operand line;
  if Py.isdigit sym then None
  else if bool_decide (is_Some (vars0 !! sym)) then None
  else if bool_decide (is_Some (lbls !! sym)) then None
  else Some sym.

(** The uses of user-declared variables, in order and with repetitions. *)
Definition variable_uses (lbls : gmap string Z) (vars0 : dict)
    (code : list string) : list string :=
  omap (variable_use lbls vars0) code.

(** How many distinct names a list of uses mentions. *)
Definition distinct (uses : list string) : Z :=
  Z.of_nat (size (list_to_set uses : gset string)).

(** The variable table [vars] allocates the uses [uses] on top of the
    table [vars0]: the bindings of [vars0] are kept, no other name than a
    used one is bound, and the name first used at position [p] is bound to
    16 plus the number of distinct names used before. *)
Definition allocation (vars0 vars : dict) (uses : list string) : Prop :=
  (∀ sym v, vars0 !! sym = Some v → vars !! sym = Some v)
  ∧ (∀ sym, vars0 !! sym = None → sym ∉ uses → vars !! sym = None)
  ∧ (∀ sym, sym ∈ uses → is_Some (vars !! sym))
  ∧ (∀ sym p, uses !! p = Some sym → sym ∉ take p uses →
              vars !! sym = Some (Py.Int (16 + distinct (take p uses)))).

(** A string of [n] binary digits. *)
Definition bits (n : nat) (s : string) : bool :=
  (String.length s =? n)%nat && Py.forallb_str is_bit s.

(** The normalized lines of an input, and its normalized, label-free
    lines: what the parser reads. *)
Definition normalized (stdin : list string) : list string :=
  omap statement_text stdin.
Definition program (stdin : list string) : list string :=
  instructions (normalized stdin).

(** A field of a compute instruction: a text without separator. *)
Definition separator_free (s : string) : bool :=
  Py.forallb_str (λ c, negb (Ascii.eqb c "=" || Ascii.eqb c ";")) s.

(** The four recognized shapes of a compute instruction. *)
Inductive shape : string → Prop :=
  | shape_comp comp :
      separator_free comp = true → shape comp
  | shape_dest_comp dest comp :
      separator_free dest = true → separator_free comp = true →
      shape (dest +:+ "=" +:+ comp)
  | shape_comp_jump comp jump :
      separator_free comp = true → separator_free jump = true →
      shape (comp +:+ ";" +:+ jump)
  | shape_dest_comp_jump dest comp jump :
      separator_free dest = true → separator_free comp = true →
      separator_free jump = true →
      shape (dest +:+ "=" +:+ comp +:+ ";" +:+ jump).

(** How many times a character occurs in a string. *)
Fixpoint occurrences (c : ascii) (s : string) : nat :=
  match s with
  | EmptyString => 0
  | String c' s' => (if Ascii.eqb c' c then 1 else 0) + occurrences c s'
  end.

(** The predefined symbols and their addresses, as the architecture gives
    them: the registers, the two device maps and the five pointers. *)
Definition predefined_addresses : list (string * Z) := [
  ("R0", 0); ("R1", 1); ("R2", 2); ("R3", 3); ("R4", 4); ("R5", 5);
  ("R6", 6); ("R7", 7); ("R8", 8); ("R9", 9); ("R10", 10); ("R11", 11);
  ("R12", 12); ("R13", 13); ("R14", 14); ("R15", 15);
  ("SCREEN", 16384); ("KBD", 24576);
  ("SP", 0); ("LCL", 1); ("ARG", 2); ("THIS", 3); ("THAT", 4) ].

(** The text before, and the text after, the first occurrence of a
    character; nothing when the character does not occur. *)
Fixpoint text_before (c : ascii) (s : string) : option string :=
  match s with
  | EmptyString => None
  | String c' s' =>
      if Ascii.eqb c' c then Some EmptyString
      else String c' <$> text_before c s'
  end.
Fixpoint text_after (c : ascii) (s : string) : option string :=
  match s with
  | EmptyString => None
  | String c' s' => if Ascii.eqb c' c then Some s' else text_after c s'
  end.

(** The computation field of a compute line: the whole line when it has no
    separator, else what is after the first [=], or before the first [;],
    or between the two (nothing when the [;] comes first). *)
Definition computation (line : string) : string :=
  match text_before "=" line, text_before ";" line with
  | None, None => line
  | Some _, None => default line (text_after "=" line)
  | None, Some comp => comp
  | Some dest, Some comp =>
      Py.slice line (Some (Py.len dest + 1)) (Some (Py.len comp))
  end.


(** ** Well-formed instructions *)

(** The character [c] does not occur in [s]. *)
Definition lacks (c : ascii) (s : string) : bool :=
  Py.forallb_str (λ x, negb (Ascii.eqb x c)) s.

(** The text of the compute instruction with the given fields: the
    destination, when there is one, comes first and is followed by [=]; the
    jump, when there is one, comes last and follows a [;]. *)
Definition compute_line (dest : option string) (comp : string)
    (jump : option string) : string :=
  from_option (λ d, d +:+ "=") "" dest
  +:+ comp
  +:+ from_option (λ j, ";" +:+ j) "" jump.

(** A mnemonic: a non-empty text without separator that does not start
    with the [@] of the address instructions. *)
Definition mnemonic (s : string) : bool :=
  separator_free s && negb (Py.startswith s "@") && negb (String.eqb s "").

(** A numeral: a non-empty string of the digits [0] to [9], of at most
    4300 digits (what [int] converts whatever limit the interpreter puts on
    the length of a numeral); and its value in base 10, most significant
    digit first. *)
Definition is_decimal_digit (c : ascii) : bool :=
  ((48 <=? nat_of_ascii c) && (nat_of_ascii c <=? 57))%nat.
Definition is_numeral (s : string) : bool :=
  negb (String.eqb s "") && Py.forallb_str is_decimal_digit s
  && (Py.len s <=? 4300).
Fixpoint decimal_from (acc : Z) (s : string) : Z :=
  match s with
  | EmptyString => acc
  | String c s' => decimal_from (10 * acc + (Z.of_nat (nat_of_ascii c) - 48)) s'
  end.
Definition decimal_value (s : string) : Z := decimal_from 0 s.

(** The lines of a well-formed program: an address instruction whose
    operand is a symbol or a numeral, or a compute instruction whose three
    fields are mnemonics of the encoding tables. *)
Inductive instruction : string → Prop :=
  | instruction_symbol sym :
      Py.isdigit sym = false → instruction (String "@" sym)
  | instruction_literal sym :
      is_numeral sym = true → instruction (String "@" sym)
  | instruction_compute dest comp jump :
      is_Some (dest_table !! dest) →
      is_Some (comp_table !! Some comp) →
      is_Some (jump_table !! jump) →
      instruction (compute_line dest comp jump).

(** The lines of a text: the pieces between its newline characters. *)
Fixpoint text_lines (s : string) : list string :=
  match s with
  | EmptyString => [EmptyString]
  | String c s' =>
      if Ascii.eqb c "010" then EmptyString :: text_lines s'
      else match text_lines s' with
           | line :: rest => String c line :: rest
           | [] => [String c EmptyString]
           end
  end.

(** The instructions that the parser gives for well-formed lines: an
    address in the 15 bits of the address field, or a compute instruction. *)
Definition in_range (i : ins) : Prop :=
  match i with
  | AIns n => 0 ≤ n ≤ 32767
  | CIns _ _ _ => True
  end.
(** * Properties *)

(** ** Strings *)

Section strings.
Implicit Types (s r : string) (c : ascii).

Lemma app_cons c s r : String c s +:+ r = String c (s +:+ r).
Proof. reflexivity. Qed.

Lemma app_empty_l s : "" +:+ s = s.
Proof. reflexivity. Qed.

Lemma str_length_app s r :
  String.length (s +:+ r) = (String.length s + String.length r)%nat.
Proof.
  induction s as [|c s IH]; [done|]. rewrite app_cons. simpl. by rewrite IH.
Qed.

Lemma app_empty_r s : s +:+ "" = s.
Proof. induction s as [|c s IH]; [done|]. by rewrite app_cons, IH. Qed.

Lemma app_assoc_str s r t : (s +:+ r) +:+ t = s +:+ r +:+ t.
Proof. induction s as [|c s IH]; [done|]. by rewrite !app_cons, IH. Qed.

Lemma len_app s r : Py.len (s +:+ r) = Py.len s + Py.len r.
Proof. unfold Py.len. rewrite str_length_app. lia. Qed.

Lemma len_nonneg s : 0 ≤ Py.len s.
Proof. unfold Py.len. lia. Qed.

Lemma substring_all s : substring 0 (String.length s) s = s.
Proof. induction s as [|c s IH]; simpl; [done | by rewrite IH]. Qed.

Lemma substring_skip s r :
  substring (String.length s) (String.length r) (s +:+ r) = r.
Proof.
  induction s as [|c s IH]; [apply substring_all|]. by rewrite app_cons.
Qed.

(** [s[k:]] drops the first [k] characters. *)
Lemma slice_from_app s r :
  Py.slice (s +:+ r) (Some (Py.len s)) None = r.
Proof.
  unfold Py.slice, Py.clamp. rewrite len_app.
  pose proof (len_nonneg s). pose proof (len_nonneg r).
  destruct (Py.len s <? 0) eqn:E; [lia|].
  replace (Z.min _ _) with (Py.len s) by lia.
  replace (Py.len s + Py.len r - Py.len s) with (Py.len r) by lia.
  unfold Py.len. rewrite !Nat2Z.id. apply substring_skip.
Qed.

Lemma slice_tail c s : Py.slice (String c s) (Some 1) None = s.
Proof. apply (slice_from_app (String c "") s). Qed.

Lemma startswith_char s c :
  Py.startswith s (String c "") = true ↔ ∃ r, s = String c r.
Proof.
  unfold Py.startswith. destruct s as [|c' s]; simpl.
  - split; [done | by intros [r ?]].
  - destruct (ascii_dec c c') as [->|Hne].
    + split; [by eexists | by destruct s].
    + split; [done | intros [r [= -> _]]; done].
Qed.
End strings.

(** ** The encoder: binary numerals *)

Section numerals.
Implicit Types (s r : string) (p : positive) (n acc : Z).

Lemma forallb_str_app f s r :
  Py.forallb_str f (s +:+ r) = Py.forallb_str f s && Py.forallb_str f r.
Proof.
  induction s as [|c s IH]; [done|].
  rewrite app_cons. simpl. by rewrite IH, andb_assoc.
Qed.

Lemma length_zeros k : String.length (Py.zeros k) = k.
Proof. induction k as [|k IH]; simpl; [done | by rewrite IH]. Qed.

Lemma bits_zeros k : Py.forallb_str is_bit (Py.zeros k) = true.
Proof. induction k as [|k IH]; simpl; done. Qed.

Lemma length_bin_pos p : String.length (Py.bin_pos p) = Pos.size_nat p.
Proof.
  induction p as [p IH|p IH|]; simpl; [| |done];
    rewrite str_length_app, IH; simpl; lia.
Qed.

Lemma bits_bin_pos p : Py.forallb_str is_bit (Py.bin_pos p) = true.
Proof.
  induction p as [p IH|p IH|]; simpl; [| |done];
    by rewrite forallb_str_app, IH.
Qed.

(** A positive number lies between the powers of two that its number of
    binary digits gives. *)
Lemma size_nat_bounds p :
  2 ^ Z.of_nat (Pos.size_nat p) ≤ 2 * Z.pos p
  ∧ Z.pos p < 2 ^ Z.of_nat (Pos.size_nat p).
Proof.
  induction p as [p [IH1 IH2]|p [IH1 IH2]|]; simpl Pos.size_nat;
    [| |simpl; lia];
    rewrite Nat2Z.inj_succ, Z.pow_succ_r by lia; lia.
Qed.

Lemma binary_go_app acc s r :
  binary_go acc (s +:+ r) = binary_go acc s ≫= λ a, binary_go a r.
Proof.
  revert acc. induction s as [|c s IH]; intros acc; [done|].
  rewrite app_cons. simpl.
  destruct (Ascii.eqb c "0"); [apply IH|].
  destruct (Ascii.eqb c "1"); [apply IH | done].
Qed.

Lemma binary_go_zeros k : binary_go 0 (Py.zeros k) = Some 0.
Proof. induction k as [|k IH]; simpl; done. Qed.

Lemma binary_go_snoc acc s c :
  binary_go acc (s +:+ String c "")
  = a ← binary_go acc s; binary_go a (String c "").
Proof. apply binary_go_app. Qed.

Lemma binary_go_bin_pos acc p :
  binary_go acc (Py.bin_pos p)
  = Some (acc * 2 ^ Z.of_nat (Pos.size_nat p) + Z.pos p).
Proof.
  revert acc. induction p as [p IH|p IH|]; intros acc.
  - change (Py.bin_pos p~1) with (Py.bin_pos p +:+ "1").
    rewrite binary_go_snoc, IH.
    change (Pos.size_nat p~1) with (S (Pos.size_nat p)).
    rewrite Nat2Z.inj_succ, Z.pow_succ_r by lia.
    generalize (2 ^ Z.of_nat (Pos.size_nat p)). intros x.
    cbn [mbind option_bind binary_go Ascii.eqb Bool.eqb].
    f_equal. lia.
  - change (Py.bin_pos p~0) with (Py.bin_pos p +:+ "0").
    rewrite binary_go_snoc, IH.
    change (Pos.size_nat p~0) with (S (Pos.size_nat p)).
    rewrite Nat2Z.inj_succ, Z.pow_succ_r by lia.
    generalize (2 ^ Z.of_nat (Pos.size_nat p)). intros x.
    cbn [mbind option_bind binary_go Ascii.eqb Bool.eqb].
    f_equal. lia.
  - change (Py.bin_pos 1) with "1".
    cbn [binary_go Ascii.eqb Bool.eqb Pos.size_nat].
    f_equal; change (2 ^ Z.of_nat 1) with 2; lia.
Qed.

Lemma binary_value_bin n : 0 ≤ n → binary_value (Py.bin n) = Some n.
Proof.
  intros Hn. destruct n as [|p|p]; [done| |lia].
  unfold binary_value. simpl. rewrite binary_go_bin_pos. f_equal; lia.
Qed.

Lemma bits_bin n : Py.forallb_str is_bit (Py.bin n) = true.
Proof. destruct n; [done | apply bits_bin_pos | done]. Qed.

Lemma len_bin_small n k :
  0 ≤ n < 2 ^ k → 0 < k → Py.len (Py.bin n) ≤ k.
Proof.
  intros [Hn Hlt] Hk. destruct n as [|p|p]; [unfold Py.len; simpl; lia| |lia].
  unfold Py.len. simpl. rewrite length_bin_pos.
  destruct (size_nat_bounds p) as [Hlo _].
  destruct (Z.le_gt_cases (Z.of_nat (Pos.size_nat p)) k) as [|Hgt]; [done|].
  assert (2 ^ (k + 1) ≤ 2 ^ Z.of_nat (Pos.size_nat p))
    by (apply Z.pow_le_mono_r; lia).
  rewrite Z.pow_add_r in * by lia. lia.
Qed.

Lemma len_bin_large n k :
  2 ^ k ≤ n → 0 ≤ k → k < Py.len (Py.bin n).
Proof.
  intros Hle Hk. assert (0 < n) by (pose proof (Z.pow_pos_nonneg 2 k); lia).
  destruct n as [|p|p]; [lia| |lia].
  unfold Py.len. simpl. rewrite length_bin_pos.
  destruct (size_nat_bounds p) as [_ Hhi].
  destruct (Z.lt_ge_cases k (Z.of_nat (Pos.size_nat p))) as [|Hge]; [done|].
  assert (2 ^ Z.of_nat (Pos.size_nat p) ≤ 2 ^ k)
    by (apply Z.pow_le_mono_r; lia).
  lia.
Qed.

(** [get_binary_string] on a non-negative number: the digits, zero-filled
    on the left up to [w] characters, and never cut. *)
Lemma get_binary_string_nonneg n w :
  0 ≤ n →
  get_binary_string n w
  = Py.zeros (Z.to_nat (w - Py.len (Py.bin n))) +:+ Py.bin n.
Proof.
  intros Hn. unfold get_binary_string, Py.format_alt0_b.
  destruct (n <? 0) eqn:E; [lia|].
  rewrite app_empty_l, Z.abs_eq by done.
  change (Py.len "") with 0.
  replace (w + 2 - 0 - 2 - Py.len (Py.bin n)) with (w - Py.len (Py.bin n))
    by lia.
  apply (slice_from_app "0b").
Qed.

(** On a negative number the sign comes first, so that cutting two
    characters leaves the [b] of the prefix. *)
Lemma get_binary_string_neg n w :
  n < 0 →
  get_binary_string n w
  = "b" +:+ Py.zeros (Z.to_nat (w - 1 - Py.len (Py.bin (- n))))
        +:+ Py.bin (- n).
Proof.
  intros Hn. unfold get_binary_string, Py.format_alt0_b.
  destruct (n <? 0) eqn:E; [|lia].
  rewrite Z.abs_neq by lia.
  change (Py.len "-") with 1.
  replace (w + 2 - 1 - 2 - Py.len (Py.bin (- n)))
    with (w - 1 - Py.len (Py.bin (- n))) by lia.
  apply (slice_from_app "-0" ("b" +:+ _)).
Qed.

Lemma get_binary_string_fits n w :
  0 ≤ n < 2 ^ w → 0 < w →
  String.length (get_binary_string n w) = Z.to_nat w
  ∧ Py.forallb_str is_bit (get_binary_string n w) = true
  ∧ binary_value (get_binary_string n w) = Some n.
Proof.
  intros Hn Hw. rewrite get_binary_string_nonneg by lia.
  pose proof (len_bin_small n w Hn Hw) as Hlen. unfold Py.len in *.
  split_and!.
  - rewrite str_length_app, length_zeros. lia.
  - by rewrite forallb_str_app, bits_zeros, bits_bin.
  - unfold binary_value. rewrite binary_go_app, binary_go_zeros. simpl.
    apply binary_value_bin. lia.
Qed.

Lemma get_binary_string_overflow n w :
  2 ^ w ≤ n → 0 ≤ w →
  get_binary_string n w = Py.bin n
  ∧ (Z.to_nat w < String.length (Py.bin n))%nat.
Proof.
  intros Hn Hw. assert (0 < n) by (pose proof (Z.pow_pos_nonneg 2 w); lia).
  rewrite get_binary_string_nonneg by lia.
  pose proof (len_bin_large n w Hn Hw) as Hlen. unfold Py.len in *.
  replace (Z.to_nat _) with 0%nat by lia. split; [done | lia].
Qed.
End numerals.

(** ** Loops *)

Section loops.
Context {A B : Type}.
Implicit Types (body : list B → A → result (list B)).

Lemma for_each_app {S} (f : S → A → result S) s l1 l2 :
  for_each f s (l1 ++ l2) = s' ← for_each f s l1; for_each f s' l2.
Proof.
  revert s. induction l1 as [|a l1 IH]; intros s; [done|].
  simpl. destruct (f s a) as [s'|e]; [apply IH | done].
Qed.

Lemma for_each_appending body l acc :
  appending body →
  for_each body acc l = out ← for_each body [] l; Ok (acc ++ out).
Proof.
  intros Hb. revert acc. induction l as [|a l IH]; intros acc; simpl.
  - by rewrite app_nil_r.
  - rewrite (Hb acc a). destruct (body [] a) as [out|e]; [simpl|done].
    rewrite IH, (IH out).
    destruct (for_each body [] l) as [out'|e]; [simpl|done].
    by rewrite app_assoc.
Qed.

(** When every item appends exactly one element, the result lists them
    item by item. *)
Lemma for_each_one_each body l out :
  appending body →
  (∀ a out', body [] a = Ok out' → length out' = 1%nat) →
  for_each body [] l = Ok out →
  Forall2 (λ a b, body [] a = Ok [b]) l out.
Proof.
  intros Hb Hone. revert out. induction l as [|a l IH]; intros out; simpl.
  - intros [= <-]. constructor.
  - destruct (body [] a) as [o|e] eqn:Ha; [simpl|done].
    rewrite for_each_appending by done.
    destruct (for_each body [] l) as [out'|e] eqn:Hl; [simpl|done].
    intros [= <-]. pose proof (Hone _ _ Ha) as Hlen.
    destruct o as [|b [|??]]; simplify_eq/=. constructor; [done | by apply IH].
Qed.
End loops.

(** ** More on strings: first and last characters *)

Section ends.
Implicit Types (s r : string) (c : ascii).

Lemma substring_cons c s m :
  substring 0 (S m) (String c s) = String c (substring 0 m s).
Proof. reflexivity. Qed.

Lemma substring_remove_last s :
  substring 0 (String.length s - 1) s = remove_last s.
Proof.
  induction s as [|c s IH]; [done|].
  destruct s as [|c' s]; [done|].
  replace (String.length (String c (String c' s)) - 1)%nat
    with (S (String.length (String c' s) - 1)) by (simpl; lia).
  by rewrite substring_cons, IH.
Qed.

(** [s[1:-1]] removes the first and the last character, whatever they
    are; on a string of one character nothing is left. *)
Lemma slice_inner s : Py.slice s (Some 1) (Some (-1)) = drop_first_last s.
Proof.
  destruct s as [|c s]; [done|].
  unfold Py.slice, Py.clamp, Py.len. cbn [String.length drop_first_last].
  change (-1 <? 0) with true. change (1 <? 0) with false. cbv iota.
  replace (Z.to_nat (Z.min _ (Z.max 0 1))) with 1%nat by lia.
  replace (Z.to_nat _) with (String.length s - 1)%nat by lia.
  cbn [substring]. apply substring_remove_last.
Qed.
End ends.

(** ** The label pass *)

Section label_pass.
Implicit Types (code : list string) (line : string)
  (lbls : gmap string Z) (cur : Z) (idxs : list nat).

Lemma enumerate_snoc {A} (l : list A) (x : A) :
  enumerate (l ++ [x]) = enumerate l ++ [(length l, x)].
Proof.
  unfold enumerate. rewrite length_app, Nat.add_comm.
  change (length [x]) with 1%nat. change (1 + length l)%nat with (S (length l)).
  rewrite seq_S, zip_with_app by (by rewrite length_seq). done.
Qed.

Lemma instructions_snoc code line :
  instructions (code ++ [line])
  = instructions code ++ (if is_declaration line then [] else [line]).
Proof.
  unfold instructions. rewrite filter_app. f_equal.
  destruct (is_declaration line) eqn:E.
  - rewrite filter_cons_False; [done | by rewrite E].
  - by rewrite filter_cons_True.
Qed.

Lemma declaration_positions_snoc code line :
  declaration_positions (code ++ [line])
  = declaration_positions code
      ++ (if is_declaration line then [length code] else []).
Proof.
  unfold declaration_positions.
  rewrite enumerate_snoc, filter_app, fmap_app. f_equal.
  destruct (is_declaration line) eqn:E.
  - rewrite filter_cons_True; done.
  - rewrite filter_cons_False; [done | simpl; by rewrite E].
Qed.

Lemma declaration_positions_lt code :
  Forall (λ i, (i < length code)%nat) (declaration_positions code).
Proof.
  induction code as [|line code IH] using rev_ind; [constructor|].
  rewrite declaration_positions_snoc, length_app. simpl.
  apply Forall_app. split.
  - eapply Forall_impl; [exact IH|]. intros; simpl in *; lia.
  - destruct (is_declaration line); repeat constructor. lia.
Qed.

(** The positions are collected in increasing order, so that sorting them
    in reverse is reversing them. *)
Lemma declaration_positions_rev_sorted code :
  StronglySorted (flip Nat.le) (reverse (declaration_positions code)).
Proof.
  induction code as [|line code IH] using rev_ind; [constructor|].
  rewrite declaration_positions_snoc.
  destruct (is_declaration line); [|by rewrite app_nil_r].
  rewrite reverse_snoc. constructor; [done|].
  apply Forall_reverse.
  eapply Forall_impl; [apply declaration_positions_lt|].
  intros i Hi. unfold flip. simpl in *. lia.
Qed.

Lemma sorted_reverse_declaration_positions code :
  Py.sorted_reverse (declaration_positions code)
  = reverse (declaration_positions code).
Proof.
  unfold Py.sorted_reverse.
  assert (Transitive (flip Nat.le)) by (intros ???; unfold flip; lia).
  assert (AntiSymm eq (flip Nat.le)) by (intros ??; unfold flip; lia).
  assert (Total (flip Nat.le)) by (intros ??; unfold flip; lia).
  apply (Sorted_unique (flip Nat.le)).
  - by apply Sorted_merge_sort.
  - apply StronglySorted_Sorted, declaration_positions_rev_sorted.
  - by rewrite merge_sort_Permutation, reverse_Permutation.
Qed.

Lemma del_lt {A} (l : list A) i :
  (i < length l)%nat → Py.del l i = Ok (delete i l).
Proof.
  intros Hi. unfold Py.del.
  by replace (i <? length l)%nat with true by (symmetry; by apply Nat.ltb_lt).
Qed.

Lemma del_ge {A} (l : list A) i :
  (length l ≤ i)%nat → Py.del l i = Raise IndexError.
Proof.
  intros Hi. unfold Py.del.
  by replace (i <? length l)%nat with false by (symmetry; by apply Nat.ltb_ge).
Qed.

(** Deleting inside a prefix leaves what follows it in place. *)
Lemma for_each_del_frame {A} (l l' t : list A) d :
  for_each Py.del l d = Ok l' →
  for_each Py.del (l ++ t) d = Ok (l' ++ t).
Proof.
  revert l. induction d as [|i d IH]; intros l; simpl.
  - by intros [= ->].
  - destruct (decide (i < length l)%nat) as [Hi|Hi].
    + rewrite del_lt by done. rewrite del_lt by (rewrite length_app; lia).
      simpl. intros Hd. rewrite <- (IH _ Hd). f_equal.
      rewrite !delete_take_drop, take_app_le, drop_app_le by lia.
      by rewrite app_assoc.
    + rewrite del_ge by lia. done.
Qed.

(** The deletion loop never raises, and it leaves the instructions. *)
Lemma delete_declarations code :
  for_each Py.del code (reverse (declaration_positions code))
  = Ok (instructions code).
Proof.
  induction code as [|line code IH] using rev_ind; [done|].
  rewrite declaration_positions_snoc, instructions_snoc.
  destruct (is_declaration line).
  - rewrite reverse_snoc, app_nil_r. simpl.
    rewrite del_lt by (rewrite length_app; simpl; lia).
    simpl. by rewrite delete_middle, app_nil_r.
  - rewrite app_nil_r. by apply for_each_del_frame.
Qed.

(** The state of the loop of [find_labels] once [code] has been read. *)
Lemma find_labels_loop code lbls0 :
  ∃ lbls,
    foldl find_labels_body (0, lbls0, []) (enumerate code)
    = (Z.of_nat (length (instructions code)), lbls,
       declaration_positions code)
    ∧ (∀ name, (∀ line, line ∈ code → is_declaration line = true →
                        drop_first_last line ≠ name) →
               lbls !! name = lbls0 !! name)
    ∧ (∀ i line,
         code !! i = Some line → is_declaration line = true →
         (∀ j line', (i < j)%nat → code !! j = Some line' →
                     is_declaration line' = true →
                     drop_first_last line' ≠ drop_first_last line) →
         lbls !! drop_first_last line = Some (instruction_index code i))
    ∧ (∀ line, line ∈ code → is_declaration line = true →
               is_Some (lbls !! drop_first_last line))
    ∧ (∀ name n, lbls !! name = Some n →
                 lbls0 !! name = Some n ∨ 0 ≤ n).
Proof.
  induction code as [|x code IH] using rev_ind.
  - exists lbls0. split_and!; [done|done| | |by left].
    + intros i line Hi. done.
    + intros line Hin. by apply elem_of_nil in Hin.
  - destruct IH as (lbls & Hfold & Hnone & Hlast & Hsome & Hpos).
    rewrite enumerate_snoc, foldl_app, Hfold. simpl.
    rewrite declaration_positions_snoc, instructions_snoc.
    change (Py.startswith x "(") with (is_declaration x).
    destruct (is_declaration x) eqn:Hx.
    + rewrite slice_inner, app_nil_r.
      eexists. split_and!; [reflexivity| | | |].
      * intros name Hname. rewrite lookup_insert_ne.
        -- apply Hnone. intros line Hin. apply Hname. set_solver.
        -- apply Hname; [set_solver | done].
      * intros i line Hi Hdecl Hlater.
        destruct (decide (i = length code)) as [->|Hne].
        -- rewrite list_lookup_middle in Hi by done. injection Hi as <-.
           rewrite lookup_insert_eq. f_equal. unfold instruction_index.
           by rewrite take_app_length.
        -- assert (i < length code)%nat as Hlt.
           { apply lookup_lt_Some in Hi. rewrite length_app in Hi.
             simpl in Hi. lia. }
           rewrite lookup_app_l in Hi by done.
           rewrite lookup_insert_ne.
           ++ unfold instruction_index. rewrite take_app_le by lia.
              apply Hlast; [done..|].
              intros j line' Hij Hj. apply (Hlater j line' Hij).
              rewrite lookup_app_l; [done | by eapply lookup_lt_Some].
           ++ apply (Hlater (length code) x Hlt); [|done].
              by rewrite list_lookup_middle.
      * intros line Hin Hdecl. rewrite lookup_insert. case_decide; [done|].
        apply Hsome; [|done].
        apply elem_of_app in Hin as [Hin|Hin]; [done|].
        apply list_elem_of_singleton in Hin. congruence.
      * intros name n. rewrite lookup_insert. case_decide.
        -- intros [= <-]. right. lia.
        -- apply Hpos.
    + rewrite length_app. simpl.
      replace (Z.of_nat (length (instructions code)) + 1)
        with (Z.of_nat (length (instructions code) + 1)) by lia.
      rewrite app_nil_r.
      exists lbls. split_and!; [done| | | |done].
      * intros name Hname. apply Hnone. intros line Hin.
        apply Hname. set_solver.
      * intros i line Hi Hdecl Hlater.
        destruct (decide (i = length code)) as [->|Hne].
        { rewrite list_lookup_middle in Hi by done. congruence. }
        assert (i < length code)%nat as Hlt.
        { apply lookup_lt_Some in Hi. rewrite length_app in Hi.
          simpl in Hi. lia. }
        rewrite lookup_app_l in Hi by done.
        unfold instruction_index. rewrite take_app_le by lia.
        apply Hlast; [done..|].
        intros j line' Hij Hj. apply (Hlater j line' Hij).
        rewrite lookup_app_l; [done | by eapply lookup_lt_Some].
      * intros line Hin Hdecl. apply Hsome; [|done].
        apply elem_of_app in Hin as [Hin|Hin]; [done|].
        apply list_elem_of_singleton in Hin. congruence.
Qed.

Lemma instructions_not_declarations code :
  Forall (λ line, is_declaration line = false) (instructions code).
Proof.
  apply Forall_forall. intros line Hin.
  by apply list_elem_of_filter in Hin as [? _].
Qed.

(** [find_labels] never raises; it leaves the instructions in
    [assembly_code] and the table of the loop in [labels]. *)
Lemma find_labels_spec self :
  ∃ lbls,
    find_labels self
    = Ok (set_assembly_code (instructions (assembly_code self))
                            (set_labels lbls self))
    ∧ foldl find_labels_body (0, labels self, [])
            (enumerate (assembly_code self))
      = (Z.of_nat (length (instructions (assembly_code self))), lbls,
         declaration_positions (assembly_code self)).
Proof.
  destruct (find_labels_loop (assembly_code self) (labels self))
    as (lbls & Hfold & _).
  exists lbls. split; [|done]. unfold find_labels. rewrite Hfold.
  by rewrite sorted_reverse_declaration_positions, delete_declarations.
Qed.
End label_pass.

(** ** The normalizer *)

Section normalizer.
Implicit Types (s r raw : string) (c : ascii).

Lemma join_empty_cons w (l : list string) :
  Py.join "" (w :: l) = w +:+ Py.join "" l.
Proof. destruct l; simpl; [by rewrite app_empty_r | done]. Qed.

Lemma join_empty_app (l1 l2 : list string) :
  Py.join "" (l1 ++ l2) = Py.join "" l1 +:+ Py.join "" l2.
Proof.
  induction l1 as [|w l1 IH]; [done|].
  rewrite <- app_comm_cons, !join_empty_cons, IH. by rewrite app_assoc_str.
Qed.

Lemma join_split_go cur s :
  Py.join "" (Py.split_go cur s) = default "" cur +:+ strip_whitespace s.
Proof.
  revert cur. induction s as [|c s IH]; intros cur.
  - destruct cur; simpl; [by rewrite app_empty_r | done].
  - cbn [Py.split_go strip_whitespace Py.filter_str].
    fold (strip_whitespace s). destruct (Py.isspace c); cbn [negb].
    + rewrite join_empty_app, IH. by destruct cur.
    + rewrite IH. destruct cur as [w|]; simpl; [|done].
      by rewrite app_assoc_str.
Qed.

(** ["".join(line.split())] removes the whitespace characters. *)
Lemma join_split raw : Py.join "" (Py.split raw) = strip_whitespace raw.
Proof. apply join_split_go. Qed.

Lemma slice_prefix_cons c s k :
  0 ≤ k →
  Py.slice (String c s) (Some 0) (Some (k + 1))
  = String c (Py.slice s (Some 0) (Some k)).
Proof.
  intros Hk. unfold Py.slice, Py.clamp, Py.len. cbn [String.length].
  destruct (k + 1 <? 0) eqn:E1; [lia|]. destruct (k <? 0) eqn:E2; [lia|].
  change (0 <? 0) with false. cbv iota.
  replace (Z.to_nat (Z.min (Z.of_nat (S (String.length s))) (Z.max 0 0)))
    with 0%nat by lia.
  replace (Z.to_nat (Z.min (Z.of_nat (String.length s)) (Z.max 0 0)))
    with 0%nat by lia.
  replace (Z.to_nat (Z.min (Z.of_nat (S (String.length s))) (Z.max 0 (k + 1))
                     - Z.min (Z.of_nat (S (String.length s))) (Z.max 0 0)))
    with (S (Z.to_nat (Z.min (Z.of_nat (String.length s)) (Z.max 0 k)
                       - Z.min (Z.of_nat (String.length s)) (Z.max 0 0))))
    by lia.
  apply substring_cons.
Qed.

Lemma find_range s sub : -1 ≤ Py.find s sub.
Proof.
  induction s as [|c s IH]; cbn [Py.find].
  - destruct (String.prefix sub ""); lia.
  - destruct (String.prefix sub (String c s)); [lia|].
    destruct (Py.find s sub =? -1); lia.
Qed.

(** Cutting at the position [find] gives is cutting before the comment. *)
Lemma cut_comment s :
  (if negb (Py.find s "//" =? -1)
   then Py.slice s (Some 0) (Some (Py.find s "//")) else s)
  = before_comment s.
Proof.
  induction s as [|c s IH]; [done|].
  cbn [Py.find before_comment].
  destruct (String.prefix "//" (String c s)) eqn:Hp; [done|].
  pose proof (find_range s "//") as Hr.
  destruct (Py.find s "//" =? -1) eqn:E.
  - simpl in *. by rewrite <- IH.
  - replace (Py.find s "//" + 1 =? -1) with false by lia. simpl in *.
    rewrite slice_prefix_cons by lia. by rewrite <- IH.
Qed.

Lemma remove_unnecessary_body_spec (assembly : list string) raw :
  remove_unnecessary_body assembly raw
  = assembly ++ option_list (statement_text raw).
Proof.
  unfold remove_unnecessary_body, statement_text.
  rewrite join_split, cut_comment.
  destruct (String.eqb _ ""); simpl; [by rewrite app_nil_r | done].
Qed.

Lemma remove_unnecessary_loop (assembly : list string) stdin :
  foldl remove_unnecessary_body assembly stdin
  = assembly ++ omap statement_text stdin.
Proof.
  revert assembly. induction stdin as [|raw stdin IH]; intros assembly.
  - by rewrite app_nil_r.
  - simpl. rewrite IH, remove_unnecessary_body_spec.
    rewrite <- app_assoc. f_equal. by destruct (statement_text raw).
Qed.

(** A line that is neither blank nor a comment keeps its first
    character. *)
Lemma statement_text_cases raw :
  match statement_text raw with
  | None => is_blank raw = true ∨ is_comment raw = true
  | Some t =>
      is_blank raw = false ∧ is_comment raw = false
      ∧ is_declaration t = is_label_declaration raw
  end.
Proof.
  unfold statement_text, is_blank, is_comment, is_label_declaration,
    is_declaration, Py.startswith.
  destruct (strip_whitespace raw) as [|c s]; [by left|].
  cbn [before_comment].
  destruct (String.prefix "//" (String c s)) eqn:Hp; [by right|].
  simpl. split_and!; [done..|].
  destruct (ascii_dec "(" c); by destruct (before_comment s), s.
Qed.

(** The instructions that the label pass leaves are as many as the
    statements of the input. *)
Lemma instructions_statements stdin :
  length (program stdin)
  = length (statements stdin).
Proof.
  unfold program, normalized, instructions, statements.
  induction stdin as [|raw stdin IH]; [done|].
  cbn [omap list_omap]. pose proof (statement_text_cases raw) as Hc.
  destruct (statement_text raw) as [t|].
  - destruct Hc as (Hb & Hcm & Hd).
    destruct (is_declaration t) eqn:Ht.
    + rewrite filter_cons_False by congruence.
      rewrite (filter_cons_False _ raw) by (intros (_ & _ & ?); congruence).
      done.
    + rewrite filter_cons_True by done.
      rewrite (filter_cons_True _ raw) by (split_and!; congruence).
      simpl. by rewrite IH.
  - rewrite (filter_cons_False _ raw); [done|].
    intros (? & ? & _). destruct Hc; congruence.
Qed.
End normalizer.

(** ** The store *)

Section store.
Implicit Types (h : heap) (vars : dict) (sym : string).

Lemma list_alter_lookup {A} (f : A → A) (l : list A) i x :
  l !! i = Some x → alter f i l = <[i := f x]> l.
Proof.
  revert i. induction l as [|y l IH]; intros [|i] Hi; simplify_eq/=;
    [done|]. f_equal. by apply IH.
Qed.

Lemma dict_contains_lookup l h vars sym :
  h !! l = Some vars →
  dict_contains l sym h = bool_decide (is_Some (vars !! sym)).
Proof. intros Hl. unfold dict_contains. by rewrite Hl. Qed.

Lemma dict_get_lookup l h vars sym v :
  h !! l = Some vars → vars !! sym = Some v → dict_get l sym h = Ok v.
Proof. intros Hl Hv. unfold dict_get. rewrite Hl. simpl. by rewrite Hv. Qed.

Lemma dict_set_lookup l h vars sym v :
  h !! l = Some vars →
  dict_set l sym v h = <[l := <[sym := v]> vars]> h.
Proof. intros Hl. unfold dict_set. by apply list_alter_lookup. Qed.

Lemma dict_copy_lookup l h vars :
  h !! l = Some vars → dict_copy l h = (h ++ [vars], length h).
Proof. intros Hl. unfold dict_copy. by rewrite Hl. Qed.
End store.

(** ** The variable pass *)

Section variable_pass.
Implicit Types (h : heap) (vars : dict) (sym line : string)
  (code : list string).

Lemma operand_startswith line :
  Py.startswith line "@" = true ↔ ∃ sym, line = String "@" sym.
Proof. apply startswith_char. Qed.

Lemma operand_None line :
  Py.startswith line "@" = false → operand line = None.
Proof.
  intros Hs. destruct line as [|c s]; [done|]. simpl.
  destruct (Ascii.eqb c "@") eqn:E; [|done].
  apply Ascii.eqb_eq in E as ->. by destruct s.
Qed.

(** One iteration of the loop, on the table itself. *)
Lemma find_variables_body_step self h vars next line :
  h !! variables self = Some vars →
  find_variables_body self (h, next) line
  = match operand line with
    | Some sym =>
        if Py.isdigit sym then (h, next)
        else if bool_decide (is_Some (vars !! sym)) then (h, next)
        else if bool_decide (is_Some (labels self !! sym)) then (h, next)
        else (<[variables self := <[sym := Py.Int next]> vars]> h, next + 1)
    | None => (h, next)
    end.
Proof.
  intros Hl. unfold find_variables_body.
  destruct (Py.startswith line "@") eqn:Hs; cbn [negb].
  - apply operand_startswith in Hs as [sym ->].
    rewrite slice_tail. cbn [operand]. change (Ascii.eqb "@" "@") with true.
    cbv iota. destruct (Py.isdigit sym); [done|].
    rewrite (dict_contains_lookup _ _ vars) by done.
    destruct (bool_decide (is_Some (vars !! sym))); [done|].
    destruct (bool_decide (is_Some (labels self !! sym))); [done|].
    cbn [negb andb]. by rewrite (dict_set_lookup _ _ vars).
  - by rewrite operand_None.
Qed.

Lemma variable_uses_snoc lbls vars0 code line :
  variable_uses lbls vars0 (code ++ [line])
  = variable_uses lbls vars0 code ++ variable_uses lbls vars0 [line].
Proof. unfold variable_uses. by rewrite omap_app. Qed.

Lemma distinct_snoc_new (uses : list string) sym :
  sym ∉ uses → distinct (uses ++ [sym]) = distinct uses + 1.
Proof.
  intros Hn. unfold distinct. rewrite list_to_set_snoc_L.
  rewrite size_union, size_singleton; [lia|].
  apply disjoint_singleton_r. by rewrite elem_of_list_to_set.
Qed.

Lemma distinct_snoc_old (uses : list string) sym :
  sym ∈ uses → distinct (uses ++ [sym]) = distinct uses.
Proof.
  intros Hn. unfold distinct. rewrite list_to_set_snoc_L. do 2 f_equal.
  rewrite (comm_L (∪)). apply subseteq_union_1_L, singleton_subseteq_l.
  by apply elem_of_list_to_set.
Qed.

Lemma allocation_start vars0 : allocation vars0 vars0 [].
Proof.
  split_and!; [done|done| |done].
  intros sym Hin. by apply elem_of_nil in Hin.
Qed.

Lemma allocation_old vars0 vars (uses : list string) sym :
  allocation vars0 vars uses → sym ∈ uses →
  allocation vars0 vars (uses ++ [sym]).
Proof.
  intros (Hold & Hnone & Hsome & Hfirst) Hin. split_and!; [done| | |].
  - intros s Hs Hn. apply Hnone; [done|]. set_solver.
  - intros s [Hs|Hs]%elem_of_app; [by apply Hsome|].
    apply list_elem_of_singleton in Hs as ->. by apply Hsome.
  - intros s p Hp Hnp.
    destruct (decide (p < length uses)%nat) as [Hpl|Hpl].
    + rewrite lookup_app_l in Hp by done.
      rewrite take_app_le in Hnp |- * by lia. by apply Hfirst.
    + apply lookup_lt_Some in Hp as Hpb.
      rewrite length_app in Hpb. simpl in Hpb.
      assert (p = length uses) as -> by lia.
      rewrite list_lookup_middle in Hp by done. injection Hp as <-.
      rewrite take_app_length in Hnp. done.
Qed.

Lemma allocation_new vars0 vars (uses : list string) sym :
  allocation vars0 vars uses → sym ∉ uses → vars0 !! sym = None →
  allocation vars0 (<[sym := Py.Int (16 + distinct uses)]> vars)
             (uses ++ [sym]).
Proof.
  intros (Hold & Hnone & Hsome & Hfirst) Hnin H0. split_and!.
  - intros s v Hs. rewrite lookup_insert_ne; [by apply Hold|].
    intros ->. congruence.
  - intros s Hs Hn. rewrite lookup_insert_ne; [|set_solver].
    apply Hnone; [done|]. set_solver.
  - intros s [Hs|Hs]%elem_of_app.
    + rewrite lookup_insert_ne; [by apply Hsome|]. by intros ->.
    + apply list_elem_of_singleton in Hs as ->. by rewrite lookup_insert_eq.
  - intros s p Hp Hnp.
    destruct (decide (p < length uses)%nat) as [Hpl|Hpl].
    + rewrite lookup_app_l in Hp by done.
      rewrite take_app_le in Hnp |- * by lia.
      rewrite lookup_insert_ne; [by apply Hfirst|].
      intros ->. apply Hnin. by eapply list_elem_of_lookup_2.
    + apply lookup_lt_Some in Hp as Hpb.
      rewrite length_app in Hpb. simpl in Hpb.
      assert (p = length uses) as -> by lia.
      rewrite list_lookup_middle in Hp by done. injection Hp as <-.
      by rewrite take_app_length, lookup_insert_eq.
Qed.

(** The state of the loop of [find_variables] once [code] has been read:
    the table it started from, extended with one binding per distinct use
    of a new name, numbered from 16 in the order of first use. *)
Lemma find_variables_loop self h vars0 code :
  h !! variables self = Some vars0 →
  ∃ vars,
    foldl (find_variables_body self) (h, 16) code
    = (<[variables self := vars]> h,
       16 + distinct (variable_uses (labels self) vars0 code))
    ∧ allocation vars0 vars (variable_uses (labels self) vars0 code).
Proof.
  intros Hl. induction code as [|line code IH] using rev_ind.
  - exists vars0. simpl. rewrite list_insert_id by done.
    split; [done | apply allocation_start].
  - destruct IH as (vars & Hfold & Halloc).
    rewrite foldl_app, Hfold, variable_uses_snoc. cbn [foldl].
    assert (variables self < length h)%nat as Hlt by by eapply lookup_lt_Some.
    rewrite (find_variables_body_step _ _ vars)
      by by rewrite list_lookup_insert_eq.
    set (uses := variable_uses (labels self) vars0 code) in *.
    unfold variable_uses. cbn [omap list_omap]. unfold variable_use.
    assert (∃ vars1,
      (<[variables self := vars]> h, 16 + distinct uses)
      = (<[variables self := vars1]> h, 16 + distinct (uses ++ []))
      ∧ allocation vars0 vars1 (uses ++ [])) as Hkeep.
    { exists vars. by rewrite app_nil_r. }
    destruct (operand line) as [sym|]; cbn [mbind option_bind];
      [|exact Hkeep].
    destruct (Py.isdigit sym); [exact Hkeep|].
    destruct Halloc as (Hold & Hnone & Hsome & Hfirst).
    destruct (vars0 !! sym) as [v0|] eqn:H0.
    { rewrite (bool_decide_eq_true_2 (is_Some (Some v0))) by done.
      rewrite (bool_decide_eq_true_2 (is_Some (vars !! sym)))
        by (rewrite (Hold _ _ H0); done).
      exact Hkeep. }
    rewrite (bool_decide_eq_false_2 (is_Some None)) by (by intros [??]).
    destruct (bool_decide (is_Some (labels self !! sym))) eqn:Hlab.
    { destruct (bool_decide (is_Some (vars !! sym))); exact Hkeep. }
    clear Hkeep. cbn [option_list].
    assert (allocation vars0 vars uses) as Halloc by done.
    destruct (decide (sym ∈ uses)) as [Hin|Hnin].
    + rewrite (bool_decide_eq_true_2 (is_Some (vars !! sym)))
        by by apply Hsome.
      exists vars. rewrite distinct_snoc_old by done.
      split; [done | by apply allocation_old].
    + assert (vars !! sym = None) as Hv by by apply Hnone.
      rewrite (bool_decide_eq_false_2 (is_Some (vars !! sym)))
        by (rewrite Hv; by intros [??]).
      rewrite list_insert_insert_eq, distinct_snoc_new by done.
      exists (<[sym := Py.Int (16 + distinct uses)]> vars).
      split; [f_equal; lia | by apply allocation_new].
Qed.
End variable_pass.

(** ** The instruction parser *)

Section parser.
Implicit Types (h : heap) (vars : dict) (sym line : string)
  (acc : list ins).

Lemma startswith_at sym : Py.startswith (String "@" sym) "@" = true.
Proof. apply operand_startswith. by eexists. Qed.

(** An address line: the variable table is consulted first, then the
    label table, and what is found in neither is read as a numeral. *)
Lemma build_intermediary_body_address self h vars acc sym :
  h !! variables self = Some vars →
  build_intermediary_body self h acc (String "@" sym)
  = n ← Py.int (match vars !! sym with
                | Some v => v
                | None => match labels self !! sym with
                          | Some n => Py.Int n
                          | None => Py.Str sym
                          end
                end);
    Ok (acc ++ [AIns n]).
Proof.
  intros Hl. unfold build_intermediary_body.
  rewrite startswith_at, slice_tail, (dict_contains_lookup _ _ vars)
    by done.
  destruct (vars !! sym) as [v|] eqn:Hv.
  - rewrite (bool_decide_eq_true_2 (is_Some (Some v))) by done.
    by rewrite (dict_get_lookup _ _ vars _ v).
  - rewrite (bool_decide_eq_false_2 (is_Some None)) by (by intros [??]).
    by destruct (labels self !! sym).
Qed.

(** Any other line gives exactly one compute instruction: the four tests
    on the two separators leave no case out. *)
Lemma build_intermediary_body_compute self h acc line :
  Py.startswith line "@" = false →
  ∃ dest comp jump,
    build_intermediary_body self h acc line
    = Ok (acc ++ [CIns dest comp jump]).
Proof.
  intros Hs. unfold build_intermediary_body. rewrite Hs.
  destruct (Py.find line "=" =? -1), (Py.find line ";" =? -1);
    cbn [negb andb]; by eexists _, _, _.
Qed.

Lemma prefix_char c c' s :
  String.prefix (String c "") (String c' s) = Ascii.eqb c' c.
Proof.
  cbn [String.prefix]. destruct (ascii_dec c c') as [->|Hne].
  - rewrite Ascii.eqb_refl. by destruct s.
  - symmetry. apply Ascii.eqb_neq. congruence.
Qed.

Lemma slice_suffix_cons c s k :
  0 ≤ k →
  Py.slice (String c s) (Some (k + 1)) None = Py.slice s (Some k) None.
Proof.
  intros Hk. unfold Py.slice, Py.clamp, Py.len. cbn [String.length].
  destruct (k + 1 <? 0) eqn:E1; [lia|]. destruct (k <? 0) eqn:E2; [lia|].
  replace (Z.to_nat (Z.min (Z.of_nat (S (String.length s))) (Z.max 0 (k + 1))))
    with (S (Z.to_nat (Z.min (Z.of_nat (String.length s)) (Z.max 0 k))))
    by lia.
  replace (Z.to_nat (Z.of_nat (S (String.length s))
                     - Z.min (Z.of_nat (S (String.length s)))
                             (Z.max 0 (k + 1))))
    with (Z.to_nat (Z.of_nat (String.length s)
                    - Z.min (Z.of_nat (String.length s)) (Z.max 0 k)))
    by lia.
  reflexivity.
Qed.

(** [find] and the two slices around the position it gives, for a
    separator of one character. *)
Lemma find_char c s :
  match text_before c s with
  | None => Py.find s (String c "") = -1 ∧ text_after c s = None
  | Some d =>
      Py.find s (String c "") = Py.len d
      ∧ Py.slice s (Some 0) (Some (Py.len d)) = d
      ∧ text_after c s = Some (Py.slice s (Some (Py.len d + 1)) None)
  end.
Proof.
  induction s as [|c' s IH]; [done|].
  cbn [text_before text_after Py.find]. rewrite prefix_char.
  destruct (Ascii.eqb c' c) eqn:Hc.
  - split_and!; [done|done|]. f_equal. symmetry. apply slice_tail.
  - destruct (text_before c s) as [d|]; cbn [fmap option_fmap option_map].
    + destruct IH as (Hf & Hs & Ha). pose proof (len_nonneg d) as Hd.
      rewrite Hf. replace (Py.len d =? -1) with false by lia.
      change (Py.len (String c' d)) with (Z.of_nat (S (String.length d))).
      replace (Z.of_nat (S (String.length d))) with (Py.len d + 1)
        by (unfold Py.len; lia).
      split_and!; [done| |].
      * rewrite slice_prefix_cons by done. by rewrite Hs.
      * rewrite Ha. f_equal. symmetry. apply slice_suffix_cons. lia.
    + destruct IH as (-> & Ha). done.
Qed.

(** The fields of the compute instruction of a line are cut at the first
    [=] and at the first [;]. *)
Lemma build_intermediary_body_fields self h acc line :
  Py.startswith line "@" = false →
  build_intermediary_body self h acc line
  = Ok (acc ++ [CIns (text_before "=" line) (computation line)
                     (text_after ";" line)]).
Proof.
  intros Hs. unfold build_intermediary_body, computation. rewrite Hs.
  pose proof (find_char "=" line) as He. pose proof (find_char ";" line) as Hj.
  destruct (text_before "=" line) as [d|], (text_before ";" line) as [c|].
  - destruct He as (-> & Hd & Ha), Hj as (-> & Hc & Hb).
    pose proof (len_nonneg d). pose proof (len_nonneg c).
    replace (Py.len d =? -1) with false by lia.
    replace (Py.len c =? -1) with false by lia.
    cbn [negb andb]. by rewrite Hd, Hb.
  - destruct He as (-> & Hd & Ha), Hj as (-> & Hb).
    pose proof (len_nonneg d).
    replace (Py.len d =? -1) with false by lia.
    cbn [negb andb Z.eqb]. by rewrite Hd, Ha, Hb.
  - destruct He as (-> & Ha), Hj as (-> & Hc & Hb).
    pose proof (len_nonneg c).
    replace (Py.len c =? -1) with false by lia.
    cbn [negb andb Z.eqb]. by rewrite Hc, Hb.
  - destruct He as (-> & Ha), Hj as (-> & Hb).
    cbn [negb andb Z.eqb]. by rewrite Hb.
Qed.

Lemma build_intermediary_body_appending self h :
  appending (build_intermediary_body self h).
Proof.
  intros acc line. destruct (Py.startswith line "@") eqn:Hs.
  - unfold build_intermediary_body. rewrite Hs.
    destruct (dict_contains _ _ _); [destruct (dict_get _ _ _)|];
      cbn [mbind result_bind]; try done.
    + by destruct (Py.int _).
    + destruct (labels self !! _); cbn [mbind result_bind];
        by destruct (Py.int _).
  - unfold build_intermediary_body. rewrite Hs.
    destruct (Py.find line "=" =? -1), (Py.find line ";" =? -1);
      cbn [negb andb]; done.
Qed.
End parser.

(** ** The encoder *)

Section encoder.
Implicit Types (assembled : list string) (i : ins).

Lemma table_get_bits (items : list (option string * string)) n k v :
  forallb (λ kv, bits n kv.2) items = true →
  table_get (list_to_map items) k = Ok v → bits n v = true.
Proof.
  intros Hall. unfold table_get.
  destruct (list_to_map items !! k) as [v'|] eqn:Hk; [|done].
  intros [= <-]. apply elem_of_list_to_map_2 in Hk.
  rewrite forallb_forall in Hall. apply list_elem_of_In in Hk.
  apply (Hall _ Hk).
Qed.

Lemma comp_table_bits k v : table_get comp_table k = Ok v → bits 7 v = true.
Proof. by apply table_get_bits. Qed.

Lemma dest_table_bits k v : table_get dest_table k = Ok v → bits 3 v = true.
Proof. by apply table_get_bits. Qed.

Lemma jump_table_bits k v : table_get jump_table k = Ok v → bits 3 v = true.
Proof. by apply table_get_bits. Qed.

Lemma bits_app n m s r :
  bits n s = true → bits m r = true → bits (n + m) (s +:+ r) = true.
Proof.
  unfold bits. intros [Hn Hs]%andb_true_iff [Hm Hr]%andb_true_iff.
  apply Nat.eqb_eq in Hn, Hm.
  rewrite str_length_app, forallb_str_app, Hs, Hr, Hn, Hm.
  by rewrite Nat.eqb_refl.
Qed.

Lemma bits_machine_word s : bits 16 s = true ↔ machine_word s.
Proof.
  unfold bits, machine_word. rewrite andb_true_iff, Nat.eqb_eq. done.
Qed.

Lemma assemble_body_appending : appending assemble_body.
Proof.
  intros acc [address|dest comp jump]; cbn [assemble_body]; [done|].
  destruct (table_get dest_table dest); [|done].
  destruct (table_get comp_table (Some comp)); [|done].
  by destruct (table_get jump_table jump).
Qed.

Lemma assemble_body_one i out :
  assemble_body [] i = Ok out → length out = 1%nat.
Proof.
  destruct i as [address|dest comp jump]; cbn [assemble_body].
  - by intros [= <-].
  - destruct (table_get dest_table dest); [|done].
    destruct (table_get comp_table (Some comp)); [|done].
    destruct (table_get jump_table jump); [|done].
    by intros [= <-].
Qed.

(** A compute instruction is encoded in sixteen binary digits, when it
    is encoded at all. *)
Lemma assemble_body_compute dest comp jump line :
  assemble_body [] (CIns dest comp jump) = Ok [line] → machine_word line.
Proof.
  cbn [assemble_body].
  destruct (table_get dest_table dest) as [d|] eqn:Hd; [|done].
  destruct (table_get comp_table (Some comp)) as [c|] eqn:Hc; [|done].
  destruct (table_get jump_table jump) as [j|] eqn:Hj; [|done].
  intros [= <-]. apply bits_machine_word.
  apply (bits_app 3 13 "111"); [done|].
  apply (bits_app 7 6); [by eapply comp_table_bits|].
  apply (bits_app 3 3); [by eapply dest_table_bits|by eapply jump_table_bits].
Qed.

(** An address instruction is always encoded; in sixteen binary digits
    when the operand is in range. *)
Lemma assemble_body_address n :
  0 ≤ n ≤ 32767 →
  ∃ field,
    assemble_body [] (AIns n) = Ok [String "0" field]
    ∧ String.length field = 15%nat
    ∧ Py.forallb_str is_bit field = true
    ∧ binary_value field = Some n.
Proof.
  intros Hn. exists (get_binary_string n 15). split; [done|].
  destruct (get_binary_string_fits n 15) as (Hlen & Hbits & Hval);
    [change (2 ^ 15) with 32768; lia | lia | done].
Qed.
End encoder.

(** ** The run *)

Section run.
Implicit Types (h : heap) (vars : dict) (stdin : list string)
  (asm : Assembler).

Lemma build_intermediary_body_one self h line out :
  build_intermediary_body self h [] line = Ok out → length out = 1%nat.
Proof.
  destruct (Py.startswith line "@") eqn:Hs.
  - unfold build_intermediary_body. rewrite Hs.
    destruct (dict_contains _ _ _); [destruct (dict_get _ _ _)|];
      cbn [mbind result_bind]; try done.
    + destruct (Py.int _); [|done]. by intros [= <-].
    + destruct (labels self !! _); cbn [mbind result_bind];
        (destruct (Py.int _); [|done]); by intros [= <-].
  - destruct (build_intermediary_body_compute self h [] line Hs)
      as (d & c & j & ->). by intros [= <-].
Qed.

(** The first two passes, from the instance [__init__] creates. *)
Lemma label_pass_spec stdin (l : nat) :
  ∃ lbls,
    find_labels (remove_unnecessary (mkAssembler stdin [] [] ∅ l))
    = Ok (mkAssembler (program stdin) [] [] lbls l)
    ∧ foldl find_labels_body (0, ∅, []) (enumerate (normalized stdin))
      = (Z.of_nat (length (program stdin)), lbls,
         declaration_positions (normalized stdin)).
Proof.
  unfold remove_unnecessary. cbn [assembly_code].
  rewrite remove_unnecessary_loop, app_nil_l. fold (normalized stdin).
  set (self0 := set_assembly_code _ _).
  destruct (find_labels_spec self0) as (lbls & Hfl & Hlabels).
  exists lbls. split; [exact Hfl | exact Hlabels].
Qed.

(** The constructor, pass by pass: the label pass never raises, the
    variable pass works on a copy of the predefined table that is added to
    the store, and the parser and the encoder read what the two left. *)
Lemma init_spec stdin h vars0 :
  h !! predefined_symbols_loc = Some vars0 →
  ∃ lbls vars,
    let self := mkAssembler (program stdin) [] [] lbls (length h) in
    find_labels (remove_unnecessary (mkAssembler stdin [] [] ∅ (length h)))
    = Ok self
    ∧ find_variables self (h ++ [vars0]) = h ++ [vars]
    ∧ __init__ stdin h
      = (h ++ [vars],
         self' ← build_intermediary self (h ++ [vars]); assemble self')
    ∧ allocation vars0 vars (variable_uses lbls vars0 (program stdin)).
Proof.
  intros Hl. destruct (label_pass_spec stdin (length h)) as (lbls & Hfl & _).
  exists lbls.
  set (self := mkAssembler (program stdin) [] [] lbls (length h)).
  destruct (find_variables_loop self (h ++ [vars0]) vars0 (program stdin))
    as (vars & Hfold & Halloc).
  { by rewrite list_lookup_middle. }
  assert (<[variables self := vars]> (h ++ [vars0]) = h ++ [vars]) as Heq.
  { cbn [variables self]. rewrite insert_app_r_alt by lia.
    by rewrite Nat.sub_diag. }
  rewrite Heq in Hfold. exists vars.
  assert (find_variables self (h ++ [vars0]) = h ++ [vars]) as Hfv.
  { unfold find_variables. change (assembly_code self) with (program stdin).
    by rewrite Hfold. }
  subst self. split_and!; [done|done| |done].
  unfold __init__. rewrite (dict_copy_lookup _ _ vars0) by done.
  cbv zeta. rewrite Hfl. cbv iota beta. rewrite Hfv. done.
Qed.

(** A run that completes: one intermediate instruction per line of the
    program and one line of machine code per instruction, in order. *)
Lemma init_ok stdin h vars0 h' asm :
  h !! predefined_symbols_loc = Some vars0 →
  __init__ stdin h = (h', Ok asm) →
  ∃ lbls vars,
    let self := mkAssembler (program stdin) [] [] lbls (length h) in
    find_labels (remove_unnecessary (mkAssembler stdin [] [] ∅ (length h)))
    = Ok self
    ∧ h' = h ++ [vars]
    ∧ allocation vars0 vars (variable_uses lbls vars0 (program stdin))
    ∧ asm = mkAssembler (program stdin) (intermediary_code asm)
                        (machine_code asm) lbls (length h)
    ∧ Forall2 (λ line i, build_intermediary_body self h' [] line = Ok [i])
              (program stdin) (intermediary_code asm)
    ∧ Forall2 (λ i line, assemble_body [] i = Ok [line])
              (intermediary_code asm) (machine_code asm).
Proof.
  intros Hl Hrun.
  destruct (init_spec stdin h vars0 Hl)
    as (lbls & vars & Hfl & _ & Hinit & Halloc).
  cbv zeta in Hinit. rewrite Hinit in Hrun. injection Hrun as <- Hrun.
  exists lbls, vars. cbv zeta.
  unfold build_intermediary in Hrun. cbn [assembly_code] in Hrun.
  destruct (for_each _ [] (program stdin)) as [intermediary|] eqn:Hb;
    [|done].
  cbn [mbind result_bind] in Hrun. unfold assemble in Hrun.
  cbn [set_intermediary_code intermediary_code] in Hrun.
  destruct (for_each assemble_body [] intermediary) as [assembled|] eqn:Ha;
    [|done].
  injection Hrun as <-. split_and!; [done|done|done|done| |].
  - eapply (for_each_one_each _ _ _ (build_intermediary_body_appending _ _));
      [|exact Hb].
    intros line out. apply build_intermediary_body_one.
  - apply (for_each_one_each _ _ _ assemble_body_appending);
      [apply assemble_body_one | exact Ha].
Qed.
End run.

(** * The claims of the specification *)

(** ** Encoding of address instructions *)

(** C5.  For every integer [n] with [0 <= n <= 32767], encoding the address
    instruction [@n] appends one line whose first character is [0] and whose
    remaining 15 characters, read as an unsigned binary numeral most
    significant bit first, are [n]. *)
Theorem address_encoding_roundtrip (assembled : list string) (n : Z) :
  0 ≤ n ≤ 32767 →
  ∃ field,
    assemble_body assembled (AIns n) = Ok (assembled ++ [String "0" field])
    ∧ String.length field = 15%nat
    ∧ binary_value field = Some n.
Proof.
  intros Hn.
  destruct (assemble_body_address n Hn) as (field & Henc & Hlen & _ & Hval).
  exists field. split_and!; [|done..].
  rewrite assemble_body_appending, Henc. done.
Qed.

Lemma address_encoding_roundtrip_witness :
  0 ≤ 21 ≤ 32767
  ∧ ∃ field,
      assemble_body [] (AIns 21) = Ok ([] ++ [String "0" field])
      ∧ String.length field = 15%nat
      ∧ binary_value field = Some 21.
Proof.
  split; [lia | apply (address_encoding_roundtrip [] 21); lia].
Defined.

(** C2, as stated, fails: the operand 32768 is out of range, and the
    encoder raises nothing; the run prints a line of 17 characters. *)
Lemma operand_out_of_range_is_encoded :
  ¬ (0 ≤ 32768 ≤ 32767)
  ∧ assemble_body [] (AIns 32768) = Ok ["01000000000000000"]
  ∧ run ["@32768"] = Ok "01000000000000000".
Proof. split_and!; [lia | reflexivity | vm_compute; reflexivity]. Qed.

Lemma for_each_assemble_raise (assembled : list string) (l : list ins)
    (e : exn) :
  for_each assemble_body assembled l = Raise e →
  ∃ dest comp jump acc,
    CIns dest comp jump ∈ l
    ∧ assemble_body acc (CIns dest comp jump) = Raise e.
Proof.
  revert assembled. induction l as [|i l IH]; intros assembled; [done|].
  cbn [for_each].
  destruct (assemble_body assembled i) as [acc|e'] eqn:Hi;
    cbn [mbind result_bind].
  - intros (dest & comp & jump & acc' & Hin & Hraise)%IH.
    exists dest, comp, jump, acc'. split; [by apply list_elem_of_further|done].
  - intros [= <-]. destruct i as [n|dest comp jump]; [done|].
    exists dest, comp, jump, assembled. split; [apply list_elem_of_here|done].
Qed.

(** C2, amended.  For every address instruction whose operand is outside
    the range 0 to 32767 the encoding is no error: the encoder makes no
    range check, raises nothing for the instruction, appends one line for it
    and goes on with the instructions that follow, so that an exception of
    the encoder comes from a compute instruction only.  What the appended
    line holds is left open. *)
Theorem address_out_of_range_is_not_fatal (assembled : list string) (n : Z)
    (rest : list ins) :
  ¬ (0 ≤ n ≤ 32767) →
  ∃ line,
    assemble_body assembled (AIns n) = Ok (assembled ++ [line])
    ∧ for_each assemble_body assembled (AIns n :: rest)
      = for_each assemble_body (assembled ++ [line]) rest
    ∧ ∀ e, for_each assemble_body assembled (AIns n :: rest) = Raise e →
           ∃ dest comp jump acc,
             CIns dest comp jump ∈ rest
             ∧ assemble_body acc (CIns dest comp jump) = Raise e.
Proof.
  intros _. eexists. split_and!; [reflexivity..|].
  intros e. cbn [for_each assemble_body mbind result_bind].
  apply for_each_assemble_raise.
Qed.

Lemma address_out_of_range_is_not_fatal_witness :
  ¬ (0 ≤ 40000 ≤ 32767)
  ∧ ∃ line,
      assemble_body [] (AIns 40000) = Ok ([] ++ [line])
      ∧ for_each assemble_body [] [AIns 40000; CIns None "0" (Some "JMP")]
        = for_each assemble_body ([] ++ [line]) [CIns None "0" (Some "JMP")]
      ∧ ∀ e, for_each assemble_body []
                      [AIns 40000; CIns None "0" (Some "JMP")] = Raise e →
             ∃ dest comp jump acc,
               CIns dest comp jump ∈ [CIns None "0" (Some "JMP")]
               ∧ assemble_body acc (CIns dest comp jump) = Raise e.
Proof.
  split; [lia|].
  apply (address_out_of_range_is_not_fatal [] 40000
           [CIns None "0" (Some "JMP")]); lia.
Defined.

(** ** The label pass *)

(** C10.  Every line of the working sequence that starts with [(] is
    taken by the label pass as the declaration of the name obtained by
    removing its first and its last character, whether or not it ends with
    [)]: the pass binds that name, never raises, and leaves in the working
    sequence exactly the lines that do not start with [(], so that the
    line reaches neither the parser nor the encoder. *)
Theorem declaration_is_bound_and_removed (self : Assembler) (line : string) :
  line ∈ assembly_code self →
  Py.startswith line "(" = true →
  ∃ self',
    find_labels self = Ok self'
    ∧ Py.slice line (Some 1) (Some (-1)) = drop_first_last line
    ∧ is_Some (labels self' !! drop_first_last line)
    ∧ assembly_code self'
      = filter (λ l, Py.startswith l "(" = false) (assembly_code self)
    ∧ (line ∉ assembly_code self')
    ∧ Forall (λ l, Py.startswith l "(" = false) (assembly_code self').
Proof.
  intros Hin Hdecl.
  destruct (find_labels_spec self) as (lbls & Hfl & Hfold).
  destruct (find_labels_loop (assembly_code self) (labels self))
    as (lbls' & Hfold' & _ & _ & Hsome & _).
  rewrite Hfold in Hfold'. injection Hfold' as <-.
  eexists. split; [exact Hfl|]. cbn [set_assembly_code set_labels
    assembly_code labels]. split_and!.
  - apply slice_inner.
  - by apply Hsome.
  - done.
  - intros [Hnd _]%list_elem_of_filter. unfold is_declaration in Hnd.
    congruence.
  - apply instructions_not_declarations.
Qed.

Lemma declaration_is_bound_and_removed_witness :
  let self := mkAssembler ["@i"; "(LOOP"; "D=M"] [] [] ∅ 1 in
  ∃ self',
    find_labels self = Ok self'
    ∧ Py.slice "(LOOP" (Some 1) (Some (-1)) = drop_first_last "(LOOP"
    ∧ is_Some (labels self' !! drop_first_last "(LOOP")
    ∧ assembly_code self'
      = filter (λ l, Py.startswith l "(" = false) (assembly_code self)
    ∧ ("(LOOP" ∉ assembly_code self')
    ∧ Forall (λ l, Py.startswith l "(" = false) (assembly_code self').
Proof.
  apply (declaration_is_bound_and_removed
           (mkAssembler ["@i"; "(LOOP"; "D=M"] [] [] ∅ 1) "(LOOP").
  - cbn [assembly_code]. apply list_elem_of_further, list_elem_of_here.
  - reflexivity.
Defined.

(** ** The instruction parser *)

Lemma occurrences_app c (s r : string) :
  occurrences c (s +:+ r) = (occurrences c s + occurrences c r)%nat.
Proof.
  induction s as [|c' s IH]; [done|].
  rewrite app_cons. cbn [occurrences]. rewrite IH. lia.
Qed.

Lemma separator_free_occurrences (s : string) :
  separator_free s = true → occurrences "=" s = 0%nat.
Proof.
  induction s as [|c s IH]; [done|]. cbn [separator_free Py.forallb_str].
  intros [Hc Hs]%andb_true_iff. cbn [occurrences].
  rewrite (IH Hs). destruct (Ascii.eqb c "="); [done | lia].
Qed.

(** A line of one of the four shapes has at most one [=]. *)
Lemma shape_occurrences (s : string) : shape s → (occurrences "=" s ≤ 1)%nat.
Proof.
  intros [c Hc|d c Hd Hc|c j Hc Hj|d c j Hd Hc Hj];
    rewrite ?occurrences_app;
    change (occurrences "=" "=") with 1%nat;
    change (occurrences "=" ";") with 0%nat;
    repeat (rewrite separator_free_occurrences by done); lia.
Qed.

(** C1, as stated, fails: the line [D=M=A] is normalized, label-free, not
    an address instruction and of none of the four shapes, and the parser
    produces an instruction for it. *)
Lemma malformed_line_is_parsed :
  normalized ["D=M=A"] = ["D=M=A"]
  ∧ program ["D=M=A"] = ["D=M=A"]
  ∧ Py.startswith "D=M=A" "@" = false
  ∧ ¬ shape "D=M=A"
  ∧ build_intermediary_body (mkAssembler ["D=M=A"] [] [] ∅ 1)
      (initial_heap ++ [predefined_symbols]) [] "D=M=A"
    = Ok [CIns (Some "D") "M=A" None].
Proof.
  split_and!; [reflexivity..| |reflexivity].
  intros Hs%shape_occurrences. vm_compute in Hs. lia.
Qed.

(** C1, amended.  For every normalized, label-free line that is not an
    address instruction, also one of none of the four shapes, the parser
    produces exactly one compute instruction, whose fields are cut at the
    first [=] and at the first [;] of the line: no line is skipped. *)
Theorem compute_line_is_parsed (self : Assembler) (h : heap)
    (intermediary : list ins) (line : string) :
  Py.startswith line "@" = false →
  build_intermediary_body self h intermediary line
  = Ok (intermediary ++ [CIns (text_before "=" line) (computation line)
                              (text_after ";" line)]).
Proof. apply build_intermediary_body_fields. Qed.

Lemma compute_line_is_parsed_witness :
  Py.startswith "D=M=A" "@" = false
  ∧ build_intermediary_body (mkAssembler ["D=M=A"] [] [] ∅ 1)
      (initial_heap ++ [predefined_symbols]) [] "D=M=A"
    = Ok ([] ++ [CIns (text_before "=" "D=M=A") (computation "D=M=A")
                      (text_after ";" "D=M=A")]).
Proof.
  split; [reflexivity|].
  apply (compute_line_is_parsed (mkAssembler ["D=M=A"] [] [] ∅ 1)
           (initial_heap ++ [predefined_symbols]) [] "D=M=A").
  reflexivity.
Defined.

(** C3, as stated, fails: in the program [(SCREEN)], [@SCREEN] the symbol
    [SCREEN] is bound in the label table (to 0) and in the variable table
    (to 16384), and the operand resolves to 16384. *)
Lemma operand_in_both_tables_is_a_variable :
  let self := mkAssembler ["@SCREEN"] [] [] {["SCREEN" := 0]} 1 in
  let h := initial_heap ++ [predefined_symbols] in
  find_labels (mkAssembler ["(SCREEN)"; "@SCREEN"] [] [] ∅ 1) = Ok self
  ∧ labels self !! "SCREEN" = Some 0
  ∧ dict_get (variables self) "SCREEN" (find_variables self h)
    = Ok (Py.Str "16384")
  ∧ dict_get (variables self) "SCREEN" h = Ok (Py.Str "16384")
  ∧ build_intermediary_body self h [] "@SCREEN" = Ok [AIns 16384]
  ∧ run ["(SCREEN)"; "@SCREEN"] = Ok "0100000000000000".
Proof. split_and!; vm_compute; reflexivity. Qed.

(** C3, amended.  For every address-instruction operand that the variable
    table binds, whether or not the label table binds it too, operand
    resolution consults the variable table first: the symbol resolves to
    its binding in the variable table. *)
Theorem variable_table_is_consulted_first (self : Assembler) (h : heap)
    (vars : dict) (intermediary : list ins) (sym : string) (v : Py.val)
    (n : Z) :
  h !! variables self = Some vars →
  vars !! sym = Some v →
  Py.int v = Ok n →
  build_intermediary_body self h intermediary (String "@" sym)
  = Ok (intermediary ++ [AIns n]).
Proof.
  intros Hl Hv Hn.
  rewrite (build_intermediary_body_address _ _ vars) by done.
  by rewrite Hv, Hn.
Qed.

Lemma variable_table_is_consulted_first_witness :
  let self := mkAssembler ["@SCREEN"] [] [] {["SCREEN" := 0]} 1 in
  let h := initial_heap ++ [predefined_symbols] in
  h !! variables self = Some predefined_symbols
  ∧ predefined_symbols !! "SCREEN" = Some (Py.Str "16384")
  ∧ Py.int (Py.Str "16384") = Ok 16384
  ∧ build_intermediary_body self h [] "@SCREEN" = Ok ([] ++ [AIns 16384]).
Proof.
  split_and!; [reflexivity..|].
  apply (variable_table_is_consulted_first
           (mkAssembler ["@SCREEN"] [] [] {["SCREEN" := 0]} 1)
           (initial_heap ++ [predefined_symbols]) predefined_symbols []
           "SCREEN" (Py.Str "16384") 16384); reflexivity.
Defined.

(** ** The variable pass *)

Lemma variable_use_Some lbls (vars0 : dict) (line sym : string) :
  variable_use lbls vars0 line = Some sym →
  line = String "@" sym ∧ Py.isdigit sym = false
  ∧ vars0 !! sym = None ∧ lbls !! sym = None.
Proof.
  unfold variable_use. destruct line as [|c s]; [done|]. cbn [operand].
  destruct (Ascii.eqb c "@") eqn:Hc; [|done]. apply Ascii.eqb_eq in Hc as ->.
  cbn [mbind option_bind]. destruct (Py.isdigit s) eqn:Hd; [done|].
  destruct (vars0 !! s) eqn:Hv.
  { by rewrite (bool_decide_eq_true_2 (is_Some (Some _))). }
  rewrite (bool_decide_eq_false_2 (is_Some None)) by (by intros [??]).
  destruct (lbls !! s) eqn:Hb.
  { by rewrite (bool_decide_eq_true_2 (is_Some (Some _))). }
  rewrite (bool_decide_eq_false_2 (is_Some None)) by (by intros [??]).
  by intros [= <-].
Qed.

Lemma variable_uses_elem lbls (vars0 : dict) (code : list string) sym :
  sym ∈ variable_uses lbls vars0 code →
  String "@" sym ∈ code ∧ Py.isdigit sym = false
  ∧ vars0 !! sym = None ∧ lbls !! sym = None.
Proof.
  intros (line & Hin & Huse)%list_elem_of_omap.
  apply variable_use_Some in Huse as (-> & ? & ? & ?). done.
Qed.

Lemma variable_uses_intro lbls (vars0 : dict) (code : list string) sym :
  String "@" sym ∈ code → Py.isdigit sym = false →
  vars0 !! sym = None → lbls !! sym = None →
  sym ∈ variable_uses lbls vars0 code.
Proof.
  intros Hin Hd Hv Hl. apply list_elem_of_omap. eexists. split; [exact Hin|].
  unfold variable_use. cbn [operand]. change (Ascii.eqb "@" "@") with true.
  cbn [mbind option_bind]. rewrite Hd, Hv, Hl.
  by rewrite (bool_decide_eq_false_2 (is_Some None)) by (by intros [??]).
Qed.

(** C7.  The variable pass extends the variable table it starts from (a
    copy of the predefined symbols) with the user-declared variables: the
    operands that are neither numerals nor bound in one of the two tables.
    The name first used at position [p] of these uses is bound to 16 plus
    the number of distinct names used before it, so that the addresses are
    16, 17, 18, ... in the order of first use; and a name that the label
    table or the variable table binds keeps what the variable table said of
    it: it gets no variable address. *)
Theorem variables_are_numbered_from_16 (stdin : list string) (h : heap)
    (vars0 : dict) :
  h !! predefined_symbols_loc = Some vars0 →
  ∃ lbls vars,
    let self := mkAssembler (program stdin) [] [] lbls (length h) in
    let uses := variable_uses lbls vars0 (program stdin) in
    find_labels (remove_unnecessary (mkAssembler stdin [] [] ∅ (length h)))
    = Ok self
    ∧ find_variables self (h ++ [vars0]) = h ++ [vars]
    ∧ __init__ stdin h
      = (h ++ [vars],
         self' ← build_intermediary self (h ++ [vars]); assemble self')
    ∧ (∀ sym p, uses !! p = Some sym → sym ∉ take p uses →
                vars !! sym = Some (Py.Int (16 + distinct (take p uses))))
    ∧ (∀ sym v, vars0 !! sym = Some v → vars !! sym = Some v)
    ∧ (∀ sym, is_Some (lbls !! sym) → vars !! sym = vars0 !! sym)
    ∧ (∀ sym, vars0 !! sym = None → sym ∉ uses → vars !! sym = None).
Proof.
  intros Hl.
  destruct (init_spec stdin h vars0 Hl)
    as (lbls & vars & Hfl & Hfv & Hinit & Hold & Hnone & Hsome & Hfirst).
  exists lbls, vars. cbv zeta. split_and!; [done..| |done].
  intros sym [n Hn].
  assert (sym ∉ variable_uses lbls vars0 (program stdin)) as Hnin.
  { intros (_ & _ & _ & Hlab)%variable_uses_elem. congruence. }
  destruct (vars0 !! sym) as [v|] eqn:Hv; [by apply Hold | by apply Hnone].
Qed.

Lemma variables_are_numbered_from_16_witness :
  let stdin := ["@i"; "@sum"; "(LOOP)"; "@i"; "@LOOP"; "@R1"; "@7"] in
  initial_heap !! predefined_symbols_loc = Some predefined_symbols
  ∧ ∃ vars,
      (__init__ stdin initial_heap).1 = initial_heap ++ [vars]
      ∧ vars !! "i" = Some (Py.Int 16)
      ∧ vars !! "sum" = Some (Py.Int 17)
      ∧ vars !! "R1" = Some (Py.Str "1")
      ∧ vars !! "LOOP" = None.
Proof.
  split; [reflexivity|].
  destruct (variables_are_numbered_from_16
              ["@i"; "@sum"; "(LOOP)"; "@i"; "@LOOP"; "@R1"; "@7"]
              initial_heap predefined_symbols eq_refl)
    as (lbls & vars & Hfl & _ & Hinit & Hfirst & Hold & Hlab & Hnone).
  cbv zeta in *. vm_compute in Hfl. injection Hfl as <-.
  exists vars. split_and!.
  - by rewrite Hinit.
  - apply (Hfirst "i" 0%nat); [vm_compute; reflexivity|].
    intros Hin. by apply elem_of_nil in Hin.
  - apply (Hfirst "sum" 1%nat); [vm_compute; reflexivity|].
    vm_compute. intros Hin. apply list_elem_of_singleton in Hin. done.
  - apply Hold. vm_compute. reflexivity.
  - rewrite Hlab; [vm_compute; reflexivity|]. vm_compute. by eexists.
Defined.

(** ** Predefined symbols *)

(** The table of the class agrees with the addresses of the
    architecture. *)
Lemma predefined_addresses_bound (sym : string) (n : Z) :
  (sym, n) ∈ predefined_addresses →
  ∃ v, predefined_symbols !! sym = Some v ∧ Py.int v = Ok n.
Proof.
  intros Hin%list_elem_of_In.
  assert (forallb (λ item : string * Z,
            match predefined_symbols !! item.1 with
            | Some v => match Py.int v with
                        | Ok m => m =? item.2
                        | Raise _ => false
                        end
            | None => false
            end) predefined_addresses = true) as Hall
    by (vm_compute; reflexivity).
  rewrite forallb_forall in Hall. specialize (Hall _ Hin). cbn [fst snd] in Hall.
  destruct (predefined_symbols !! sym) as [v|]; [|done]. exists v.
  destruct (Py.int v) as [m|]; [|done]. by apply Z.eqb_eq in Hall as ->.
Qed.

(** C8.  For every program and every predefined symbol, the binding of
    the symbol in the variable table is the predefined one at every step of
    the variable pass and at the end of the run, and the dict of the class
    itself is not written; a use of the symbol as operand allocates nothing
    (the pass leaves its state as it is) and resolves to the predefined
    address. *)
Theorem predefined_symbols_are_immutable (stdin : list string)
    (sym : string) (n : Z) :
  (sym, n) ∈ predefined_addresses →
  ∃ lbls vars v,
    let h := initial_heap in
    let self := mkAssembler (program stdin) [] [] lbls (length h) in
    find_labels (remove_unnecessary (mkAssembler stdin [] [] ∅ (length h)))
    = Ok self
    ∧ __init__ stdin h
      = (h ++ [vars],
         self' ← build_intermediary self (h ++ [vars]); assemble self')
    ∧ predefined_symbols !! sym = Some v
    ∧ Py.int v = Ok n
    ∧ (∀ k, ∃ vars_k next_k,
         foldl (find_variables_body self) (h ++ [predefined_symbols], 16)
               (take k (program stdin))
         = (h ++ [vars_k], next_k)
         ∧ vars_k !! sym = Some v
         ∧ find_variables_body self (h ++ [vars_k], next_k) (String "@" sym)
           = (h ++ [vars_k], next_k))
    ∧ vars !! sym = Some v
    ∧ (h ++ [vars]) !! predefined_symbols_loc = Some predefined_symbols
    ∧ (∀ intermediary,
         build_intermediary_body self (h ++ [vars]) intermediary
                                 (String "@" sym)
         = Ok (intermediary ++ [AIns n])).
Proof.
  intros (v & Hv & Hn)%predefined_addresses_bound.
  destruct (init_spec stdin initial_heap predefined_symbols eq_refl)
    as (lbls & vars & Hfl & Hfv & Hinit & Hold & _).
  exists lbls, vars, v. cbv zeta. split_and!; [done..| | | |].
  - intros k.
    set (self := mkAssembler (program stdin) [] [] lbls (length initial_heap)).
    destruct (find_variables_loop self (initial_heap ++ [predefined_symbols])
                predefined_symbols (take k (program stdin)) eq_refl)
      as (vars_k & Hfold & Hold_k & _).
    change (<[variables self := vars_k]> (initial_heap ++ [predefined_symbols]))
      with (initial_heap ++ [vars_k]) in Hfold.
    eexists vars_k, _. split_and!; [exact Hfold | by apply Hold_k |].
    rewrite (find_variables_body_step _ _ vars_k) by done.
    cbn [operand]. change (Ascii.eqb "@" "@") with true. cbv iota.
    destruct (Py.isdigit sym); [done|].
    by rewrite (bool_decide_eq_true_2 (is_Some (vars_k !! sym)))
      by (rewrite (Hold_k _ _ Hv); done).
  - by apply Hold.
  - done.
  - intros intermediary.
    rewrite (build_intermediary_body_address _ _ vars) by done.
    by rewrite (Hold _ _ Hv), Hn.
Qed.

Lemma predefined_symbols_are_immutable_witness :
  let stdin := ["@R3"; "M=D"; "@x"; "@R3"] in
  ("R3", 3) ∈ predefined_addresses
  ∧ ∃ vars,
      (__init__ stdin initial_heap).1 = initial_heap ++ [vars]
      ∧ vars !! "R3" = Some (Py.Str "3")
      ∧ (initial_heap ++ [vars]) !! predefined_symbols_loc
        = Some predefined_symbols.
Proof.
  assert (("R3", 3) ∈ predefined_addresses) as Hin
    by (do 3 apply list_elem_of_further; apply list_elem_of_here).
  split; [exact Hin|].
  destruct (predefined_symbols_are_immutable
              ["@R3"; "M=D"; "@x"; "@R3"] "R3" 3 Hin)
    as (lbls & vars & v & _ & Hinit & Hv & _ & _ & Hvars & Hcls & _).
  cbv zeta in *. exists vars. rewrite Hinit. split_and!; [done| |done].
  rewrite Hvars, <- Hv. vm_compute. reflexivity.
Defined.

(** ** Labels *)

(** C6, as stated, fails: in [(L)], [D=M], [(L)], [@L] the first
    declaration of [L] is followed by the instruction of index 0, and the
    label is bound to 1, which is what the use resolves to. *)
Lemma redeclared_label_takes_the_last_index :
  let stdin := ["(L)"; "D=M"; "(L)"; "@L"] in
  normalized stdin !! 0%nat = Some "(L)"
  ∧ Py.startswith "(L)" "(" = true
  ∧ drop_first_last "(L)" = "L"
  ∧ instruction_index (normalized stdin) 0 = 0
  ∧ find_labels (remove_unnecessary (mkAssembler stdin [] [] ∅ 1))
    = Ok (mkAssembler ["D=M"; "@L"] [] [] {["L" := 1]} 1)
  ∧ run stdin = Ok ("1111110000010000" +:+ newline +:+ "0000000000000001").
Proof. split_and!; vm_compute; reflexivity. Qed.

(** C6, amended.  For every program and every label declaration in it
    that no later declaration of the same name follows, the label is bound
    to the index of the next instruction (the number of lines before the
    declaration that are not declarations); and, when the name is not a
    predefined symbol, a use of the label resolves to that index wherever
    the use stands, before or after the declaration. *)
Theorem last_declaration_binds_label (stdin : list string) (i : nat)
    (line : string) :
  normalized stdin !! i = Some line →
  Py.startswith line "(" = true →
  (∀ j line', (i < j)%nat → normalized stdin !! j = Some line' →
              Py.startswith line' "(" = true →
              drop_first_last line' ≠ drop_first_last line) →
  ∃ lbls vars,
    let h := initial_heap in
    let self := mkAssembler (program stdin) [] [] lbls (length h) in
    let name := drop_first_last line in
    let index := instruction_index (normalized stdin) i in
    find_labels (remove_unnecessary (mkAssembler stdin [] [] ∅ (length h)))
    = Ok self
    ∧ __init__ stdin h
      = (h ++ [vars],
         self' ← build_intermediary self (h ++ [vars]); assemble self')
    ∧ lbls !! name = Some index
    ∧ (predefined_symbols !! name = None →
       (∀ intermediary,
          build_intermediary_body self (h ++ [vars]) intermediary
                                  (String "@" name)
          = Ok (intermediary ++ [AIns index]))
       ∧ (∀ h' asm j,
            __init__ stdin h = (h', Ok asm) →
            program stdin !! j = Some (String "@" name) →
            intermediary_code asm !! j = Some (AIns index))).
Proof.
  intros Hi Hdecl Hlast.
  destruct (init_spec stdin initial_heap predefined_symbols eq_refl)
    as (lbls & vars & Hfl & Hfv & Hinit & Hold & Hnone & _).
  destruct (label_pass_spec stdin (length initial_heap))
    as (lbls1 & Hfl1 & Hfold).
  rewrite Hfl in Hfl1. injection Hfl1 as <-.
  destruct (find_labels_loop (normalized stdin) ∅)
    as (lbls2 & Hfold2 & _ & Hbind & _).
  rewrite Hfold in Hfold2. injection Hfold2 as <-.
  exists lbls, vars. cbv zeta.
  assert (lbls !! drop_first_last line
          = Some (instruction_index (normalized stdin) i)) as Hname
    by by apply Hbind.
  assert (predefined_symbols !! drop_first_last line = None →
          ∀ intermediary,
            build_intermediary_body
              (mkAssembler (program stdin) [] [] lbls (length initial_heap))
              (initial_heap ++ [vars]) intermediary
              (String "@" (drop_first_last line))
            = Ok (intermediary ++
                    [AIns (instruction_index (normalized stdin) i)]))
    as Huse.
  { intros Hpre intermediary.
    rewrite (build_intermediary_body_address _ _ vars) by done.
    rewrite Hnone; [|done|].
    - cbn [labels]. by rewrite Hname.
    - intros (_ & _ & _ & Hlab)%variable_uses_elem. congruence. }
  split_and!; [done..|]. intros Hpre. split; [by apply Huse|].
  intros h' asm j Hrun Hj.
  destruct (init_ok stdin initial_heap predefined_symbols h' asm eq_refl Hrun)
    as (lbls3 & vars3 & Hfl3 & -> & _ & _ & Hparse & _).
  rewrite Hfl in Hfl3. injection Hfl3 as <-.
  rewrite Hinit in Hrun. injection Hrun as <- _.
  destruct (Forall2_lookup_l _ _ _ _ _ Hparse Hj) as (ins & -> & Hins).
  rewrite (Huse Hpre []) in Hins. by injection Hins as <-.
Qed.

Lemma last_declaration_binds_label_witness :
  let stdin := ["@END"; "(LOOP)"; "D=M"; "(END)"; "0;JMP"] in
  normalized stdin !! 3%nat = Some "(END)"
  ∧ Py.startswith "(END)" "(" = true
  ∧ ∃ lbls,
      find_labels (remove_unnecessary (mkAssembler stdin [] [] ∅ 1))
      = Ok (mkAssembler (program stdin) [] [] lbls 1)
      ∧ lbls !! "END" = Some 2.
Proof.
  split_and!; [reflexivity..|].
  assert (∀ j line', (3 < j)%nat →
            normalized ["@END"; "(LOOP)"; "D=M"; "(END)"; "0;JMP"] !! j
            = Some line' →
            Py.startswith line' "(" = true →
            drop_first_last line' ≠ drop_first_last "(END)") as Hlast.
  { intros [|[|[|[|[|j]]]]] line' Hij Hj Hd;
      try lia; vm_compute in Hj; simplify_eq. }
  destruct (last_declaration_binds_label
              ["@END"; "(LOOP)"; "D=M"; "(END)"; "0;JMP"] 3 "(END)"
              eq_refl eq_refl Hlast)
    as (lbls & vars & Hfl & _ & Hname & _).
  exists lbls. split; [exact Hfl | exact Hname].
Defined.

(** ** The output *)

Lemma first_occurrence (uses : list string) (sym : string) :
  sym ∈ uses → ∃ p, uses !! p = Some sym ∧ sym ∉ take p uses.
Proof.
  induction uses as [|s uses IH]; [by intros ?%elem_of_nil|].
  destruct (decide (s = sym)) as [->|Hne].
  - intros _. exists 0%nat. split; [done|]. simpl. by intros ?%elem_of_nil.
  - intros [?|Hin]%elem_of_cons; [congruence|].
    destruct (IH Hin) as (p & Hp & Hnp). exists (S p). split; [done|].
    simpl. intros [?|?]%elem_of_cons; [congruence | done].
Qed.

Lemma distinct_nonneg (uses : list string) : 0 ≤ distinct uses.
Proof. unfold distinct. lia. Qed.

Lemma decimal_go_nonneg (s : string) (acc n : Z) (after_digit : bool) :
  0 ≤ acc → Py.decimal_go acc after_digit s = Some n → 0 ≤ n.
Proof.
  revert acc after_digit.
  induction s as [|c s IH]; intros acc after_digit Hacc; cbn [Py.decimal_go].
  - destruct after_digit; [|done]. by intros [= <-].
  - destruct (Ascii.eqb c "_").
    + destruct after_digit; [by apply IH | done].
    + unfold Py.digit_value.
      destruct (_ && _)%bool eqn:Hc; [|done].
      apply IH. apply andb_true_iff in Hc as [Hlo _].
      apply Nat.leb_le in Hlo. lia.
Qed.

Lemma isdigit_char_plain (c : ascii) :
  Py.isdigit_char c = true →
  Py.isspace c = false ∧ Ascii.eqb c "-" = false ∧ Ascii.eqb c "+" = false.
Proof. by destruct c as [[] [] [] [] [] [] [] []]. Qed.

Lemma lstrip_digits (c : ascii) (s : string) :
  Py.isdigit_char c = true → Py.lstrip (String c s) = String c s.
Proof.
  intros (Hsp & _)%isdigit_char_plain. cbn [Py.lstrip]. by rewrite Hsp.
Qed.

Lemma rstrip_digits (s : string) :
  Py.forallb_str Py.isdigit_char s = true → Py.rstrip s = s.
Proof.
  induction s as [|c s IH]; [done|]. cbn [Py.forallb_str Py.rstrip].
  intros [Hc Hs]%andb_true_iff. rewrite (IH Hs).
  apply isdigit_char_plain in Hc as (-> & _). by destruct s.
Qed.

(** A numeral that [isdigit] accepts is read as it stands, and its value,
    when it has one, is not negative. *)
Lemma int_isdigit_nonneg (s : string) (n : Z) :
  Py.isdigit s = true → Py.int (Py.Str s) = Ok n → 0 ≤ n.
Proof.
  destruct s as [|c s]; [done|]. cbn [Py.isdigit]. intros Hd.
  assert (Py.isdigit_char c = true) as Hc
    by (cbn [Py.forallb_str] in Hd; by apply andb_true_iff in Hd as [? _]).
  cbn [Py.int]. unfold Py.strip. rewrite lstrip_digits, rstrip_digits by done.
  apply isdigit_char_plain in Hc as (_ & -> & ->).
  destruct (Py.decimal_go 0 false (String c s)) as [m|] eqn:Hm; [|done].
  intros [= <-]. by eapply decimal_go_nonneg.
Qed.

Lemma predefined_symbols_nonneg (sym : string) (v : Py.val) (n : Z) :
  predefined_symbols !! sym = Some v → Py.int v = Ok n → 0 ≤ n.
Proof.
  intros Hv%elem_of_list_to_map_2%list_elem_of_In Hn.
  assert (forallb (λ item : string * Py.val,
            match Py.int item.2 with
            | Ok m => 0 <=? m
            | Raise _ => false
            end) predefined_symbols_items = true) as Hall
    by (vm_compute; reflexivity).
  rewrite forallb_forall in Hall. specialize (Hall _ Hv). cbn [snd] in Hall.
  rewrite Hn in Hall. lia.
Qed.

(** No operand that the parser resolves is negative. *)
Lemma resolved_address_nonneg (lbls : gmap string Z) (vars : dict)
    (code : list string) (sym : string) (n : Z) :
  allocation predefined_symbols vars
             (variable_uses lbls predefined_symbols code) →
  (∀ name m, lbls !! name = Some m → 0 ≤ m) →
  (vars !! sym = None → lbls !! sym = None → Py.isdigit sym = true) →
  Py.int (match vars !! sym with
          | Some v => v
          | None => match lbls !! sym with
                    | Some m => Py.Int m
                    | None => Py.Str sym
                    end
          end) = Ok n →
  0 ≤ n.
Proof.
  intros (Hold & Hnone & _ & Hfirst) Hlab Hdigit.
  destruct (vars !! sym) as [v|] eqn:Hv.
  - destruct (predefined_symbols !! sym) as [v0|] eqn:Hpre.
    + rewrite (Hold _ _ Hpre) in Hv. injection Hv as <-.
      by apply (predefined_symbols_nonneg sym).
    + destruct (decide (sym ∈ variable_uses lbls predefined_symbols code))
        as [Hin|Hnin].
      * destruct (first_occurrence _ _ Hin) as (p & Hp & Hnp).
        rewrite (Hfirst _ _ Hp Hnp) in Hv. injection Hv as <-.
        cbn [Py.int]. intros [= <-].
        pose proof (distinct_nonneg
          (take p (variable_uses lbls predefined_symbols code))). lia.
      * rewrite (Hnone _ Hpre Hnin) in Hv. done.
  - destruct (lbls !! sym) as [m|] eqn:Hm.
    + cbn [Py.int]. intros [= <-]. by eapply Hlab.
    + apply int_isdigit_nonneg. by apply Hdigit.
Qed.

(** C4, as stated, fails: the program [@32768] is assembled into one
    line of 17 characters. *)
Lemma overlong_output_line :
  (__init__ ["@32768"] initial_heap).2
  = Ok (mkAssembler ["@32768"] [AIns 32768] ["01000000000000000"] ∅ 1)
  ∧ run ["@32768"] = Ok "01000000000000000"
  ∧ String.length "01000000000000000" = 17%nat
  ∧ ¬ machine_word "01000000000000000".
Proof.
  split_and!; [vm_compute; reflexivity..|reflexivity|].
  intros [Hlen _]. vm_compute in Hlen. done.
Qed.

(** C4, amended.  For every input program on which the run completes,
    the number of output lines equals the number of input statements that
    are not label declarations (lines whose first character, whitespace
    apart, is [(]), not comments and not blank; and each output line that
    encodes a compute instruction, or an address instruction whose operand
    is at most 32767, is exactly 16 characters drawn from [0] and [1]. *)
Theorem output_lines (stdin : list string) (h' : heap) (asm : Assembler) :
  __init__ stdin initial_heap = (h', Ok asm) →
  run stdin = Ok (Py.join newline (machine_code asm))
  ∧ length (machine_code asm) = length (statements stdin)
  ∧ length (intermediary_code asm) = length (machine_code asm)
  ∧ (∀ j i line,
       intermediary_code asm !! j = Some i →
       machine_code asm !! j = Some line →
       (∀ n, i = AIns n → n ≤ 32767) →
       machine_word line).
Proof.
  intros Hrun.
  destruct (init_ok stdin initial_heap predefined_symbols h' asm eq_refl Hrun)
    as (lbls & vars & Hfl & -> & Halloc & Hasm & Hparse & Henc).
  cbv zeta in *.
  destruct (label_pass_spec stdin (length initial_heap))
    as (lbls1 & Hfl1 & Hfold).
  rewrite Hfl in Hfl1. injection Hfl1 as <-.
  destruct (find_labels_loop (normalized stdin) ∅)
    as (lbls2 & Hfold2 & _ & _ & _ & Hpos).
  rewrite Hfold in Hfold2. injection Hfold2 as <-.
  split_and!.
  - unfold run, main. rewrite Hrun. done.
  - rewrite <- (Forall2_length _ _ _ Henc), <- (Forall2_length _ _ _ Hparse).
    apply instructions_statements.
  - by eapply Forall2_length.
  - intros j i line Hi Hline Hrange.
    pose proof (Forall2_lookup_lr _ _ _ _ _ _ Henc Hi Hline) as Hl.
    destruct i as [n|dest comp jump]; [|by eapply assemble_body_compute].
    destruct (Forall2_lookup_r _ _ _ _ _ Hparse Hi) as (src & Hsrc & Hp).
    assert (0 ≤ n) as Hn.
    { destruct (Py.startswith src "@") eqn:Hs.
      - apply operand_startswith in Hs as [sym ->].
        rewrite (build_intermediary_body_address _ _ vars) in Hp by done.
        cbn [labels] in Hp.
        destruct (Py.int _) as [m|] eqn:Hm; [|done]. injection Hp as ->.
        eapply resolved_address_nonneg; [exact Halloc| | |exact Hm].
        * intros name m' Hm'. destruct (Hpos _ _ Hm') as [?|?]; done.
        * intros Hv Hlb. destruct (Py.isdigit sym) eqn:Hd; [done|].
          destruct Halloc as (Hold & _ & Hsome & _).
          assert (predefined_symbols !! sym = None) as Hpre.
          { destruct (predefined_symbols !! sym) as [v0|] eqn:Hv0; [|done].
            rewrite (Hold _ _ Hv0) in Hv. done. }
          destruct (Hsome sym) as [v Hv']; [|congruence].
          apply (variable_uses_intro _ _ _ _
                   (list_elem_of_lookup_2 _ _ _ Hsrc)); done.
      - destruct (build_intermediary_body_compute
                    (mkAssembler (program stdin) [] [] lbls
                                 (length initial_heap))
                    (initial_heap ++ [vars]) [] src Hs)
          as (d & c & j' & Hc).
        rewrite Hc in Hp. done. }
    destruct (assemble_body_address n) as (field & Hf & Hlen & Hbits & _);
      [split; [done | by apply Hrange]|].
    rewrite Hf in Hl. injection Hl as <-. split; [simpl; by rewrite Hlen|].
    cbn [Py.forallb_str]. by rewrite Hbits.
Qed.

Lemma output_lines_witness :
  let stdin := ["(START)"; "  @START // entry"; ""; "0;JMP"] in
  ∃ h' asm,
    __init__ stdin initial_heap = (h', Ok asm)
    ∧ run stdin = Ok (Py.join newline (machine_code asm))
    ∧ length (machine_code asm) = length (statements stdin).
Proof.
  cbv zeta.
  assert ((__init__ ["(START)"; "  @START // entry"; ""; "0;JMP"]
                    initial_heap).2
          = Ok (mkAssembler ["@START"; "0;JMP"]
                  [AIns 0; CIns None "0" (Some "JMP")]
                  ["0000000000000000"; "1110101010000111"]
                  {["START" := 0]} 1)) as Hcompletes
    by (vm_compute; reflexivity).
  destruct (__init__ ["(START)"; "  @START // entry"; ""; "0;JMP"]
                     initial_heap) as [h' [asm|e]] eqn:Hrun.
  - exists h', asm. split; [reflexivity|].
    destruct (output_lines _ _ _ Hrun) as (Hout & Hlen & _).
    split; [exact Hout | exact Hlen].
  - discriminate Hcompletes.
Defined.

(** ** Determinism *)

(** The table that allocates given uses on a given table is unique. *)
Lemma allocation_unique (vars0 vars1 vars2 : dict) (uses : list string) :
  allocation vars0 vars1 uses → allocation vars0 vars2 uses → vars1 = vars2.
Proof.
  intros (Hold1 & Hnone1 & _ & Hfirst1) (Hold2 & Hnone2 & _ & Hfirst2).
  apply map_eq. intros sym.
  destruct (vars0 !! sym) as [v|] eqn:Hv.
  - by rewrite (Hold1 _ _ Hv), (Hold2 _ _ Hv).
  - destruct (decide (sym ∈ uses)) as [Hin|Hnin].
    + destruct (first_occurrence _ _ Hin) as (p & Hp & Hnp).
      by rewrite (Hfirst1 _ _ Hp Hnp), (Hfirst2 _ _ Hp Hnp).
    + by rewrite Hnone1, Hnone2.
Qed.

(** The parser reads the store only at [self.variables]. *)
Lemma build_intermediary_body_store (self1 self2 : Assembler) (h1 h2 : heap)
    (vars : dict) (intermediary : list ins) (line : string) :
  labels self1 = labels self2 →
  h1 !! variables self1 = Some vars →
  h2 !! variables self2 = Some vars →
  build_intermediary_body self1 h1 intermediary line
  = build_intermediary_body self2 h2 intermediary line.
Proof.
  intros Hlab Hl1 Hl2. destruct (Py.startswith line "@") eqn:Hs.
  - apply operand_startswith in Hs as [sym ->].
    rewrite (build_intermediary_body_address self1 h1 vars) by done.
    rewrite (build_intermediary_body_address self2 h2 vars) by done.
    by rewrite Hlab.
  - unfold build_intermediary_body. by rewrite Hs.
Qed.

Lemma for_each_ext {A S} (f g : S → A → result S) (s : S) (l : list A) :
  (∀ s a, f s a = g s a) → for_each f s l = for_each g s l.
Proof.
  intros Hfg. revert s. induction l as [|a l IH]; intros s; [done|].
  simpl. rewrite Hfg. destruct (g s a); [apply IH | done].
Qed.

(** What the script hands to [print], from the tables of the run. *)
Lemma main_spec (stdin : list string) (h : heap) (vars0 : dict) :
  h !! predefined_symbols_loc = Some vars0 →
  ∃ lbls vars,
    let self := mkAssembler (program stdin) [] [] lbls (length h) in
    foldl find_labels_body (0, ∅, []) (enumerate (normalized stdin))
    = (Z.of_nat (length (program stdin)), lbls,
       declaration_positions (normalized stdin))
    ∧ allocation vars0 vars (variable_uses lbls vars0 (program stdin))
    ∧ main stdin h
      = (h ++ [vars],
         intermediary ← for_each (build_intermediary_body self (h ++ [vars]))
                                 [] (program stdin);
         assembled ← for_each assemble_body [] intermediary;
         Ok (Py.join newline assembled)).
Proof.
  intros Hl.
  destruct (init_spec stdin h vars0 Hl)
    as (lbls & vars & Hfl & _ & Hinit & Halloc).
  destruct (label_pass_spec stdin (length h)) as (lbls1 & Hfl1 & Hfold).
  rewrite Hfl in Hfl1. injection Hfl1 as <-.
  exists lbls, vars. cbv zeta. split_and!; [done..|].
  unfold main. rewrite Hinit. f_equal.
  unfold build_intermediary, assemble. cbn [assembly_code].
  destruct (for_each _ [] (program stdin)) as [intermediary|]; [|done].
  cbn [mbind result_bind set_intermediary_code intermediary_code].
  by destruct (for_each assemble_body [] intermediary).
Qed.

(** C9.  Running the assembler a second time on the same input, in the
    store that the first run left, gives the same output (the same text, or
    the same exception): a run writes to a copy of the predefined symbols
    only, and the dict of the class is after each run what it was. *)
Theorem rerun_gives_same_output (stdin : list string) :
  ∃ h1 h2 out,
    main stdin initial_heap = (h1, out)
    ∧ main stdin h1 = (h2, out)
    ∧ h1 !! predefined_symbols_loc = Some predefined_symbols
    ∧ h2 !! predefined_symbols_loc = Some predefined_symbols.
Proof.
  destruct (main_spec stdin initial_heap predefined_symbols eq_refl)
    as (lbls1 & vars1 & Hfold1 & Halloc1 & Hmain1).
  destruct (main_spec stdin (initial_heap ++ [vars1]) predefined_symbols
              eq_refl) as (lbls2 & vars2 & Hfold2 & Halloc2 & Hmain2).
  rewrite Hfold1 in Hfold2. injection Hfold2 as <-.
  pose proof (allocation_unique _ _ _ _ Halloc1 Halloc2) as <-.
  exists (initial_heap ++ [vars1]), ((initial_heap ++ [vars1]) ++ [vars1]).
  eexists. split_and!; [exact Hmain1| |reflexivity..].
  rewrite Hmain2. apply f_equal.
  rewrite (for_each_ext _
    (build_intermediary_body
       (mkAssembler (program stdin) [] [] lbls1 (length initial_heap))
       (initial_heap ++ [vars1]))); [done|].
  intros intermediary line.
  by apply (build_intermediary_body_store _ _ _ _ vars1).
Qed.

(** ** The examples of the specification *)

Example start_program :
  run ["(START)"; "@START"; "0;JMP"]
  = Ok ("0000000000000000" +:+ newline +:+ "1110101010000111").
Proof. vm_compute. reflexivity. Qed.

Example sum_program :
  run ["@2"; "D=A"; "@3"; "D=D+A"; "@0"; "M=D"]
  = Ok (Py.join newline
          ["0000000000000010"; "1110110000010000"; "0000000000000011";
           "1110000010010000"; "0000000000000000"; "1110001100001000"]).
Proof. vm_compute. reflexivity. Qed.

Example unknown_mnemonic_aborts :
  run ["@2"; "D=Q"] = Raise (KeyError (Some "Q")).
Proof. vm_compute. reflexivity. Qed.

(** * Further properties of the passes *)

(** ** The normalizer *)

(** X1.  [remove_unnecessary] keeps, in their order, the lines that are
    neither blank nor comments, each as its text without whitespace before
    the first [//]; nothing else of the instance changes. *)
Theorem remove_unnecessary_keeps_statements (self : Assembler) :
  remove_unnecessary self
  = set_assembly_code (omap statement_text (assembly_code self)) self.
Proof.
  unfold remove_unnecessary. by rewrite remove_unnecessary_loop, app_nil_l.
Qed.

Lemma strip_whitespace_idemp (s : string) :
  strip_whitespace (strip_whitespace s) = strip_whitespace s.
Proof.
  induction s as [|c s IH]; [done|]. cbn [strip_whitespace Py.filter_str].
  fold (strip_whitespace s). destruct (Py.isspace c) eqn:Hc; cbn [negb].
  - exact IH.
  - cbn [strip_whitespace Py.filter_str]. fold (strip_whitespace s).
    fold (strip_whitespace (strip_whitespace s)). by rewrite Hc, IH.
Qed.

Lemma strip_whitespace_before_comment (s : string) :
  strip_whitespace s = s →
  strip_whitespace (before_comment s) = before_comment s.
Proof.
  induction s as [|c s IH]; [done|]. cbn [strip_whitespace Py.filter_str].
  fold (strip_whitespace s). destruct (Py.isspace c) eqn:Hc; cbn [negb].
  - intros Heq. assert (String.length (strip_whitespace s)
                        = String.length (String c s)) as Hlen by by rewrite Heq.
    exfalso. clear -Hlen. cbn [String.length] in Hlen.
    assert (∀ r, (String.length (strip_whitespace r) ≤ String.length r)%nat)
      as Hle.
    { clear. induction r as [|a r IHr]; [done|].
      cbn [strip_whitespace Py.filter_str]. fold (strip_whitespace r).
      destruct (negb (Py.isspace a)); simpl; lia. }
    specialize (Hle s). lia.
  - intros [= Hs]. cbn [before_comment].
    destruct (String.prefix "//" (String c s)); [done|].
    cbn [strip_whitespace Py.filter_str].
    fold (strip_whitespace (before_comment s)). by rewrite Hc, (IH Hs).
Qed.

Lemma before_comment_head (s r : string) (a : ascii) :
  before_comment s = String a r → ∃ r', s = String a r'.
Proof.
  destruct s as [|c s]; [done|]. cbn [before_comment].
  destruct (String.prefix "//" (String c s)); [done|].
  intros [= -> _]. by eexists.
Qed.

Lemma before_comment_idemp (s : string) :
  before_comment (before_comment s) = before_comment s.
Proof.
  induction s as [|c s IH]; [done|]. cbn [before_comment].
  destruct (String.prefix "//" (String c s)) eqn:Hp; [done|].
  cbn [before_comment]. rewrite IH.
  destruct (String.prefix "//" (String c (before_comment s))) eqn:Hq; [|done].
  exfalso. revert Hp Hq. cbn [String.prefix].
  destruct (ascii_dec "/" c) as [<-|]; [|done].
  destruct (before_comment s) as [|a r] eqn:Hb; [done|].
  apply before_comment_head in Hb as [r' ->]. cbn [String.prefix].
  destruct (ascii_dec "/" a); [|done]. by destruct r'.
Qed.

(** A line that the normalizer has produced is produced again as it is. *)
Lemma statement_text_fixed (raw t : string) :
  statement_text raw = Some t → statement_text t = Some t.
Proof.
  unfold statement_text.
  destruct (String.eqb (before_comment (strip_whitespace raw)) "") eqn:He;
    [done|].
  intros [= <-].
  rewrite strip_whitespace_before_comment by apply strip_whitespace_idemp.
  by rewrite before_comment_idemp, He.
Qed.

Lemma before_comment_fixed_find (s : string) :
  before_comment s = s → Py.find s "//" = -1.
Proof.
  induction s as [|c s IH]; [done|]. cbn [before_comment Py.find].
  destruct (String.prefix "//" (String c s)); [done|].
  intros [= Hs]. by rewrite (IH Hs).
Qed.

Lemma strip_whitespace_fixed (s : string) :
  strip_whitespace s = s →
  Py.forallb_str (λ c, negb (Py.isspace c)) s = true.
Proof.
  induction s as [|c s IH]; [done|].
  cbn [strip_whitespace Py.filter_str Py.forallb_str].
  fold (strip_whitespace s). destruct (Py.isspace c) eqn:Hc; cbn [negb].
  - intros Heq. exfalso.
    assert (∀ r, (String.length (strip_whitespace r)
                  ≤ String.length r)%nat) as Hle.
    { clear. induction r as [|a r IHr]; [done|].
      cbn [strip_whitespace Py.filter_str]. fold (strip_whitespace r).
      destruct (negb (Py.isspace a)); simpl; lia. }
    specialize (Hle s). rewrite Heq in Hle. simpl in Hle. lia.
  - intros [= Hs]. by apply IH.
Qed.

Lemma normalized_idemp (stdin : list string) :
  normalized (normalized stdin) = normalized stdin.
Proof.
  unfold normalized. induction stdin as [|raw l IH]; [done|].
  cbn [omap list_omap]. destruct (statement_text raw) as [t|] eqn:Ht;
    [|exact IH].
  cbn [omap list_omap]. rewrite (statement_text_fixed _ _ Ht). f_equal.
  exact IH.
Qed.

(** X2.  Every line that [remove_unnecessary] leaves is non-empty, holds
    no whitespace character and no comment marker; and normalizing again
    changes nothing. *)
Theorem remove_unnecessary_idempotent (self : Assembler) :
  remove_unnecessary (remove_unnecessary self) = remove_unnecessary self
  ∧ Forall (λ line, line ≠ ""
                    ∧ Py.forallb_str (λ c, negb (Py.isspace c)) line = true
                    ∧ Py.find line "//" = -1)
           (assembly_code (remove_unnecessary self)).
Proof.
  unfold remove_unnecessary.
  cbn [set_assembly_code assembly_code intermediary_code machine_code
       labels variables].
  rewrite !remove_unnecessary_loop, !app_nil_l.
  split.
  - fold (normalized (assembly_code self)).
    fold (normalized (normalized (assembly_code self))).
    by rewrite normalized_idemp.
  - apply Forall_forall. intros line (raw & _ & Ht)%list_elem_of_omap.
    unfold statement_text in Ht.
    destruct (String.eqb (before_comment (strip_whitespace raw)) "") eqn:He;
      [done|]. injection Ht as <-.
    split_and!.
    + intros Hempty. by rewrite Hempty in He.
    + apply strip_whitespace_fixed, strip_whitespace_before_comment,
        strip_whitespace_idemp.
    + apply before_comment_fixed_find, before_comment_idemp.
Qed.

(** X3.  The output depends on the statements only: two inputs that differ
    in whitespace, blank lines and comments alone give the same run, that
    is the same store and the same text or exception. *)
Theorem layout_is_ignored (stdin1 stdin2 : list string) (h : heap)
    (vars0 : dict) :
  h !! predefined_symbols_loc = Some vars0 →
  omap statement_text stdin1 = omap statement_text stdin2 →
  main stdin1 h = main stdin2 h.
Proof.
  intros Hl Heq.
  destruct (main_spec stdin1 h vars0 Hl) as (lbls1 & vars1 & Hf1 & Ha1 & ->).
  destruct (main_spec stdin2 h vars0 Hl) as (lbls2 & vars2 & Hf2 & Ha2 & ->).
  unfold program, normalized in *. rewrite <- Heq in *.
  rewrite Hf1 in Hf2. injection Hf2 as <-.
  by rewrite (allocation_unique _ _ _ _ Ha1 Ha2).
Qed.

Lemma layout_is_ignored_witness :
  let stdin1 := ["  @2 // two"; ""; "D = A"] in
  let stdin2 := ["// header"; "@2"; "D=A//load"] in
  main stdin1 initial_heap = main stdin2 initial_heap.
Proof.
  cbv zeta.
  apply (layout_is_ignored _ _ initial_heap predefined_symbols);
    reflexivity.
Defined.

(** ** The label pass *)

Section label_addresses.
Local Open Scope nat_scope.

Lemma find_labels_range (code : list string) (lbls0 lbls : gmap string Z)
    (count : Z) (positions : list nat) :
  foldl find_labels_body (0%Z, lbls0, []) (enumerate code)
  = (count, lbls, positions) →
  ∀ name n, lbls !! name = Some n →
            lbls0 !! name = Some n
            ∨ (0 ≤ n ≤ Z.of_nat (length (instructions code)))%Z.
Proof.
  revert lbls count positions.
  induction code as [|x code IH] using rev_ind; intros lbls count positions.
  - intros [= _ <- _] name n Hn. by left.
  - destruct (find_labels_loop code lbls0) as (lbls' & Hfold & _).
    rewrite enumerate_snoc, foldl_app, Hfold. simpl.
    rewrite instructions_snoc, length_app.
    destruct (Py.startswith x "(").
    + intros [= _ <- _] name n. rewrite lookup_insert. case_decide.
      * intros [= <-]. right. lia.
      * intros Hn. destruct (IH _ _ _ Hfold name n Hn) as [?|?];
          [by left | right; lia].
    + intros [= _ <- _] name n Hn.
      destruct (IH _ _ _ Hfold name n Hn) as [?|?]; [by left|right].
      unfold is_declaration. simpl. lia.
Qed.

Lemma instructions_skip_declarations (code : list string) (i d : nat) :
  (∀ m line, i ≤ m < i + d → code !! m = Some line →
             is_declaration line = true) →
  i + d ≤ length code →
  instructions (take (i + d) code) = instructions (take i code).
Proof.
  induction d as [|d IH]; intros Hdecl Hlen.
  - by rewrite Nat.add_0_r.
  - destruct (lookup_lt_is_Some_2 code (i + d)) as [line Hline]; [lia|].
    replace (i + S d) with (S (i + d)) by lia.
    rewrite (take_S_r _ _ _ Hline), instructions_snoc.
    rewrite (Hdecl (i + d) line) by (done || lia).
    rewrite app_nil_r. apply IH; [|lia].
    intros m line' Hm. apply Hdecl. lia.
Qed.

Lemma instructions_lookup_next (code : list string) (i j : nat)
    (next : string) :
  i ≤ j →
  code !! j = Some next → is_declaration next = false →
  (∀ m line, i ≤ m < j → code !! m = Some line →
             is_declaration line = true) →
  instructions code !! length (instructions (take i code)) = Some next.
Proof.
  intros Hij Hj Hnext Hdecl.
  assert (instructions code
          = instructions (take j code) ++ next :: instructions (drop (S j) code))
    as ->.
  { rewrite <- (take_drop_middle code j next Hj) at 1. unfold instructions.
    by rewrite filter_app, filter_cons_True. }
  replace j with (i + (j - i)) in Hdecl |- * by lia.
  rewrite instructions_skip_declarations.
  - by rewrite list_lookup_middle.
  - exact Hdecl.
  - apply lookup_lt_Some in Hj. lia.
Qed.
End label_addresses.

(** X4.  Every binding that [find_labels] adds or changes is an index
    between 0 and the number of lines it leaves, both included: a label
    declared after the last instruction is bound just past the end. *)
Theorem label_addresses_in_range (self self' : Assembler) (name : string)
    (n : Z) :
  find_labels self = Ok self' →
  labels self' !! name = Some n →
  labels self !! name = Some n
  ∨ 0 ≤ n ≤ Z.of_nat (length (assembly_code self')).
Proof.
  destruct (find_labels_spec self) as (lbls & -> & Hfold).
  intros [= <-]. cbn [labels assembly_code set_assembly_code set_labels].
  by apply (find_labels_range _ _ _ _ _ Hfold).
Qed.

Lemma label_addresses_in_range_witness :
  (∅ : gmap string Z) !! "END" = Some 2
  ∨ 0 ≤ 2 ≤ Z.of_nat (length ["@1"; "D=A"]).
Proof.
  apply (label_addresses_in_range
           (mkAssembler ["@1"; "(A)"; "D=A"; "(END)"] [] [] ∅ 0)
           (mkAssembler ["@1"; "D=A"] [] []
                        (<["A" := 1]> (<["END" := 2]> ∅)) 0) "END" 2).
  - vm_compute. reflexivity.
  - vm_compute. reflexivity.
Defined.

(** X5.  A label resolves to the instruction that follows it: when the
    last declaration of a name is followed, after further declarations
    only, by the line [next], then in the code that [find_labels] leaves the
    line at the index bound to the name is [next]. *)
Theorem label_resolves_to_next_instruction (self : Assembler) (i j : nat)
    (line next : string) :
  assembly_code self !! i = Some line →
  Py.startswith line "(" = true →
  (∀ k line', (i < k)%nat → assembly_code self !! k = Some line' →
              Py.startswith line' "(" = true →
              Py.slice line' (Some 1) (Some (-1))
              ≠ Py.slice line (Some 1) (Some (-1))) →
  (i ≤ j)%nat →
  assembly_code self !! j = Some next →
  Py.startswith next "(" = false →
  (∀ m line', (i ≤ m < j)%nat → assembly_code self !! m = Some line' →
              Py.startswith line' "(" = true) →
  ∃ self' n,
    find_labels self = Ok self'
    ∧ labels self' !! Py.slice line (Some 1) (Some (-1)) = Some n
    ∧ 0 ≤ n
    ∧ assembly_code self' !! Z.to_nat n = Some next.
Proof.
  intros Hi Hdecl Hlast Hij Hj Hnext Hbetween.
  destruct (find_labels_spec self) as (lbls & Hfl & Hfold).
  destruct (find_labels_loop (assembly_code self) (labels self))
    as (lbls' & Hfold' & _ & Hbind & _).
  rewrite Hfold in Hfold'. injection Hfold' as <-.
  eexists _, (instruction_index (assembly_code self) i).
  split_and!; [exact Hfl| | |].
  - cbn [labels set_assembly_code set_labels]. rewrite slice_inner.
    apply Hbind; [done..|].
    intros k line' Hik Hk Hdecl'. rewrite <- !slice_inner.
    by apply (Hlast k).
  - unfold instruction_index. lia.
  - cbn [assembly_code set_assembly_code]. unfold instruction_index.
    rewrite Nat2Z.id. by apply (instructions_lookup_next _ i j).
Qed.

Lemma label_resolves_to_next_instruction_witness :
  ∃ self' n,
    find_labels (mkAssembler ["@LOOP"; "(LOOP)"; "(AGAIN)"; "D=A"; "0;JMP"]
                             [] [] ∅ 0) = Ok self'
    ∧ labels self' !! Py.slice "(LOOP)" (Some 1) (Some (-1)) = Some n
    ∧ 0 ≤ n
    ∧ assembly_code self' !! Z.to_nat n = Some "D=A".
Proof.
  apply (label_resolves_to_next_instruction
           (mkAssembler ["@LOOP"; "(LOOP)"; "(AGAIN)"; "D=A"; "0;JMP"]
                        [] [] ∅ 0) 1 3 "(LOOP)" "D=A").
  - reflexivity.
  - reflexivity.
  - intros k line' Hk. cbn [assembly_code].
    destruct k as [|[|[|[|[|k]]]]]; simpl; try lia; intros [= <-]; done.
  - lia.
  - reflexivity.
  - reflexivity.
  - intros m line' Hm. cbn [assembly_code].
    destruct m as [|[|[|m]]]; simpl; try lia; intros [= <-]; done.
Defined.

(** ** The variable pass *)

Lemma distinct_take_le (uses : list string) (p q : nat) :
  (p ≤ q)%nat → distinct (take p uses) ≤ distinct (take q uses).
Proof.
  intros Hpq. unfold distinct.
  rewrite <- (take_drop p (take q uses)), take_take, Nat.min_l by done.
  rewrite list_to_set_app_L. apply inj_le, subseteq_size, union_subseteq_l.
Qed.

Lemma distinct_first_use (uses : list string) (sym : string) (p : nat) :
  uses !! p = Some sym → sym ∉ take p uses →
  distinct (take (S p) uses) = distinct (take p uses) + 1.
Proof.
  intros Hp Hnew. rewrite (take_S_r _ _ _ Hp). by apply distinct_snoc_new.
Qed.

Lemma allocation_injective (vars0 vars : dict) (uses : list string)
    (sym1 sym2 : string) :
  allocation vars0 vars uses →
  sym1 ∈ uses → sym2 ∈ uses → sym1 ≠ sym2 →
  ∃ a1 a2,
    vars !! sym1 = Some (Py.Int a1) ∧ vars !! sym2 = Some (Py.Int a2)
    ∧ a1 ≠ a2
    ∧ 16 ≤ a1 < 16 + distinct uses ∧ 16 ≤ a2 < 16 + distinct uses.
Proof.
  intros (_ & _ & _ & Hfirst) Hin1 Hin2 Hne.
  destruct (first_occurrence _ _ Hin1) as (p1 & Hp1 & Hnew1).
  destruct (first_occurrence _ _ Hin2) as (p2 & Hp2 & Hnew2).
  exists (16 + distinct (take p1 uses)), (16 + distinct (take p2 uses)).
  pose proof (distinct_first_use _ _ _ Hp1 Hnew1) as Hs1.
  pose proof (distinct_first_use _ _ _ Hp2 Hnew2) as Hs2.
  pose proof (distinct_nonneg (take p1 uses)).
  pose proof (distinct_nonneg (take p2 uses)).
  assert (∀ p sym, uses !! p = Some sym →
                   distinct (take (S p) uses) ≤ distinct uses) as Hall.
  { intros p sym Hp%lookup_lt_Some.
    rewrite <- (firstn_all uses) at 2. apply distinct_take_le. lia. }
  pose proof (Hall _ _ Hp1). pose proof (Hall _ _ Hp2).
  split_and!; [by apply Hfirst | by apply Hfirst | | lia..].
  destruct (decide (p1 = p2)) as [->|Hp]; [congruence|].
  destruct (decide (p1 < p2)%nat).
  - pose proof (distinct_take_le uses (S p1) p2). lia.
  - pose proof (distinct_take_le uses (S p2) p1). lia.
Qed.

(** X6.  No two user-declared variables share an address: two different
    operands that the variable pass allocates are bound to different
    numbers, both from 16 on and below 16 plus the number of allocated
    names. *)
Theorem variables_get_distinct_addresses (self : Assembler) (h : heap)
    (vars0 : dict) (sym1 sym2 : string) :
  h !! variables self = Some vars0 →
  String "@" sym1 ∈ assembly_code self → String "@" sym2 ∈ assembly_code self →
  Py.isdigit sym1 = false → Py.isdigit sym2 = false →
  vars0 !! sym1 = None → vars0 !! sym2 = None →
  labels self !! sym1 = None → labels self !! sym2 = None →
  sym1 ≠ sym2 →
  ∃ vars a1 a2,
    let allocated :=
      distinct (variable_uses (labels self) vars0 (assembly_code self)) in
    find_variables self h !! variables self = Some vars
    ∧ vars !! sym1 = Some (Py.Int a1) ∧ vars !! sym2 = Some (Py.Int a2)
    ∧ a1 ≠ a2
    ∧ 16 ≤ a1 < 16 + allocated ∧ 16 ≤ a2 < 16 + allocated.
Proof.
  intros Hl Hin1 Hin2 Hd1 Hd2 Hv1 Hv2 Hb1 Hb2 Hne.
  destruct (find_variables_loop self h vars0 (assembly_code self) Hl)
    as (vars & Hfold & Halloc).
  destruct (allocation_injective _ _ _ sym1 sym2 Halloc)
    as (a1 & a2 & ?); [by apply variable_uses_intro..|done|].
  exists vars, a1, a2. cbv zeta. split; [|done].
  unfold find_variables. rewrite Hfold. cbn [fst].
  apply list_lookup_insert_eq. by eapply lookup_lt_Some.
Qed.

Lemma variables_get_distinct_addresses_witness :
  ∃ vars a1 a2,
    let self := mkAssembler ["@i"; "M=1"; "@sum"; "M=0"; "@i"] [] [] ∅ 1 in
    let h := initial_heap ++ [predefined_symbols] in
    let allocated :=
      distinct (variable_uses (labels self) predefined_symbols
                              (assembly_code self)) in
    find_variables self h !! variables self = Some vars
    ∧ vars !! "i" = Some (Py.Int a1) ∧ vars !! "sum" = Some (Py.Int a2)
    ∧ a1 ≠ a2
    ∧ 16 ≤ a1 < 16 + allocated ∧ 16 ≤ a2 < 16 + allocated.
Proof.
  apply (variables_get_distinct_addresses
           (mkAssembler ["@i"; "M=1"; "@sum"; "M=0"; "@i"] [] [] ∅ 1)
           (initial_heap ++ [predefined_symbols]) predefined_symbols
           "i" "sum"); try reflexivity.
  - cbn [assembly_code]. apply list_elem_of_here.
  - cbn [assembly_code]. do 2 apply list_elem_of_further.
    apply list_elem_of_here.
  - discriminate.
Defined.

Lemma find_variables_body_frame (self : Assembler) (st : heap * Z)
    (line : string) (l : loc) :
  l ≠ variables self →
  (find_variables_body self st line).1 !! l = st.1 !! l
  ∧ length (find_variables_body self st line).1 = length st.1.
Proof.
  intros Hl. destruct st as [h next]. unfold find_variables_body.
  destruct (negb (Py.startswith line "@")); [done|].
  destruct (Py.isdigit _); [done|].
  destruct (_ && _); [|done]. cbn [fst]. unfold dict_set.
  by rewrite list_lookup_alter_ne, length_alter.
Qed.

(** X7.  [find_variables] writes to the dict [self.variables] only: every
    other object of the store is after the pass what it was before, and no
    object is created. *)
Theorem find_variables_writes_variables_only (self : Assembler) (h : heap)
    (l : loc) :
  l ≠ variables self →
  find_variables self h !! l = h !! l
  ∧ length (find_variables self h) = length h.
Proof.
  intros Hl. unfold find_variables.
  change h with (h, 16).1 at 2 4. generalize (h, 16).
  induction (assembly_code self) as [|line code IH]; intros st; [done|].
  cbn [foldl].
  destruct (find_variables_body_frame self st line l Hl) as [<- <-].
  apply IH.
Qed.

Lemma find_variables_writes_variables_only_witness :
  let self := mkAssembler ["@i"; "M=1"] [] [] ∅ 1 in
  let h := initial_heap ++ [predefined_symbols] in
  find_variables self h !! predefined_symbols_loc = h !! predefined_symbols_loc
  ∧ length (find_variables self h) = length h.
Proof.
  cbv zeta.
  apply (find_variables_writes_variables_only
           (mkAssembler ["@i"; "M=1"] [] [] ∅ 1)
           (initial_heap ++ [predefined_symbols]) predefined_symbols_loc).
  cbn [variables]. unfold predefined_symbols_loc. lia.
Defined.

(** ** The parser *)

Section fields.
Implicit Types (c : ascii) (d r s : string).

Lemma lacks_app c d r : lacks c (d +:+ r) = lacks c d && lacks c r.
Proof. apply forallb_str_app. Qed.

Lemma separator_free_lacks s :
  separator_free s = true → lacks "=" s = true ∧ lacks ";" s = true.
Proof.
  unfold separator_free, lacks. induction s as [|c s IH]; [done|].
  cbn [Py.forallb_str]. intros [Hc Hs]%andb_true_iff.
  destruct (IH Hs) as [-> ->]. apply negb_true_iff, orb_false_iff in Hc.
  destruct Hc as [-> ->]. done.
Qed.

Lemma text_before_app c d r :
  lacks c d = true →
  text_before c (d +:+ r) = String.append d <$> text_before c r.
Proof.
  unfold lacks. induction d as [|x d IH]; cbn [Py.forallb_str].
  - intros _. rewrite app_empty_l. by destruct (text_before c r).
  - intros [Hx Hd]%andb_true_iff. apply negb_true_iff in Hx.
    rewrite app_cons. cbn [text_before]. rewrite Hx, (IH Hd).
    by destruct (text_before c r).
Qed.

Lemma text_after_app c d r :
  lacks c d = true → text_after c (d +:+ r) = text_after c r.
Proof.
  unfold lacks. induction d as [|x d IH]; cbn [Py.forallb_str]; [done|].
  intros [Hx Hd]%andb_true_iff. apply negb_true_iff in Hx.
  rewrite app_cons. cbn [text_after]. by rewrite Hx, (IH Hd).
Qed.

Lemma text_before_lacks c s : lacks c s = true → text_before c s = None.
Proof.
  intros Hs. rewrite <- (app_empty_r s). by rewrite text_before_app.
Qed.

Lemma text_after_lacks c s : lacks c s = true → text_after c s = None.
Proof.
  intros Hs. rewrite <- (app_empty_r s). by rewrite text_after_app.
Qed.

Lemma substring_prefix s r : substring 0 (String.length s) (s +:+ r) = s.
Proof.
  induction s as [|c s IH]; [rewrite app_empty_l; by destruct r|].
  rewrite app_cons. cbn [String.length]. by rewrite substring_cons, IH.
Qed.

Lemma substring_middle d s r :
  substring (String.length d) (String.length s) (d +:+ s +:+ r) = s.
Proof.
  induction d as [|c d IH]; [rewrite app_empty_l; apply substring_prefix|].
  by rewrite app_cons.
Qed.

(** [(d + s + r)[len(d):len(d + s)]] is [s]. *)
Lemma slice_middle d s r :
  Py.slice (d +:+ s +:+ r) (Some (Py.len d)) (Some (Py.len (d +:+ s))) = s.
Proof.
  unfold Py.slice, Py.clamp. rewrite !len_app.
  pose proof (len_nonneg d). pose proof (len_nonneg s).
  pose proof (len_nonneg r).
  destruct (Py.len d <? 0) eqn:E1; [lia|].
  destruct (Py.len d + Py.len s <? 0) eqn:E2; [lia|].
  replace (Z.to_nat (Z.min _ (Z.max 0 (Py.len d))))
    with (String.length d) by (unfold Py.len in *; lia).
  replace (Z.to_nat _) with (String.length s) by (unfold Py.len in *; lia).
  apply substring_middle.
Qed.
End fields.

Lemma compute_line_fields (dest : option string) (comp : string)
    (jump : option string) :
  from_option separator_free true dest = true →
  separator_free comp = true →
  from_option separator_free true jump = true →
  text_before "=" (compute_line dest comp jump) = dest
  ∧ computation (compute_line dest comp jump) = comp
  ∧ text_after ";" (compute_line dest comp jump) = jump.
Proof.
  intros Hd Hc Hj. apply separator_free_lacks in Hc as [Hce Hcs].
  assert (text_before "=" (compute_line dest comp jump) = dest) as Hbefore.
  { unfold compute_line. destruct dest as [d|]; cbn [from_option] in *.
    - apply separator_free_lacks in Hd as [Hde _].
      rewrite !app_assoc_str, text_before_app by done.
      rewrite app_cons. cbn [text_before]. change (Ascii.eqb "=" "=") with true.
      cbn [fmap option_fmap option_map]. by rewrite app_empty_r.
    - rewrite app_empty_l. apply text_before_lacks.
      rewrite lacks_app, Hce. destruct jump as [j|]; [|done].
      cbn [from_option] in *. apply separator_free_lacks in Hj as [Hje _].
      by rewrite lacks_app, Hje. }
  assert (text_before ";" (compute_line dest comp jump)
          = (λ _, from_option (λ d, d +:+ "=") "" dest +:+ comp) <$> jump)
    as Hsemi.
  { unfold compute_line. rewrite <- app_assoc_str, text_before_app.
    - destruct jump as [j|]; cbn [from_option]; [|done].
      rewrite app_cons. cbn [text_before]. change (Ascii.eqb ";" ";") with true.
      cbn [fmap option_fmap option_map]. by rewrite app_empty_r.
    - rewrite lacks_app, Hcs. destruct dest as [d|]; [|done].
      cbn [from_option] in *. apply separator_free_lacks in Hd as [_ Hds].
      by rewrite lacks_app, Hds. }
  assert (text_after ";" (compute_line dest comp jump) = jump) as Hafter.
  { unfold compute_line. rewrite <- app_assoc_str, text_after_app.
    - destruct jump as [j|]; cbn [from_option]; [|done].
      rewrite app_cons. cbn [text_after]. by change (Ascii.eqb ";" ";") with true.
    - rewrite lacks_app, Hcs. destruct dest as [d|]; [|done].
      cbn [from_option] in *. apply separator_free_lacks in Hd as [_ Hds].
      by rewrite lacks_app, Hds. }
  split_and!; [done| |done].
  unfold computation. rewrite Hbefore, Hsemi.
  unfold compute_line.
  destruct dest as [d|], jump as [j|];
    cbn [from_option fmap option_fmap option_map] in *.
  - replace (Py.len d + 1) with (Py.len (d +:+ "="))
      by (by rewrite len_app). apply slice_middle.
  - apply separator_free_lacks in Hd as [Hde _].
    rewrite !app_assoc_str, text_after_app by done.
    rewrite app_cons. cbn [text_after]. change (Ascii.eqb "=" "=") with true.
    cbn [default from_option]. by rewrite !app_empty_r.
  - apply app_empty_l.
  - by rewrite app_empty_l, app_empty_r.
Qed.

Lemma build_intermediary_body_compute_line (self : Assembler) (h : heap)
    (intermediary : list ins) (dest : option string) (comp : string)
    (jump : option string) :
  from_option separator_free true dest = true →
  separator_free comp = true →
  from_option separator_free true jump = true →
  Py.startswith (compute_line dest comp jump) "@" = false →
  build_intermediary_body self h intermediary (compute_line dest comp jump)
  = Ok (intermediary ++ [CIns dest comp jump]).
Proof.
  intros Hd Hc Hj Hs. rewrite build_intermediary_body_fields by done.
  by destruct (compute_line_fields dest comp jump Hd Hc Hj) as (-> & -> & ->).
Qed.

(** X8.  The parser recovers the fields of a compute line: for fields
    without [=] and [;], the line written as [dest=comp;jump], with the
    destination or the jump and its separator left out when there is none,
    is parsed into exactly these fields. *)
Theorem compute_fields_are_recovered (self : Assembler) (h : heap)
    (intermediary : list ins) (dest : option string) (comp : string)
    (jump : option string) :
  from_option separator_free true dest = true →
  separator_free comp = true →
  from_option separator_free true jump = true →
  Py.startswith (compute_line dest comp jump) "@" = false →
  build_intermediary_body self h intermediary (compute_line dest comp jump)
  = Ok (intermediary ++ [CIns dest comp jump]).
Proof. apply build_intermediary_body_compute_line. Qed.

Lemma compute_fields_are_recovered_witness :
  build_intermediary_body (mkAssembler [] [] [] ∅ 1)
    (initial_heap ++ [predefined_symbols]) []
    (compute_line (Some "MD") "D+1" (Some "JGT"))
  = Ok ([] ++ [CIns (Some "MD") "D+1" (Some "JGT")]).
Proof.
  apply (compute_fields_are_recovered (mkAssembler [] [] [] ∅ 1)
           (initial_heap ++ [predefined_symbols]) []
           (Some "MD") "D+1" (Some "JGT")); reflexivity.
Defined.

(** ** Well-formed programs *)

Section mnemonics.
Implicit Types (s r : string) (k : option string).

Lemma table_key (items : list (option string * string))
    (P : option string → bool) k v :
  forallb (λ kv, P kv.1) items = true →
  (list_to_map items : gmap (option string) string) !! k = Some v →
  P k = true.
Proof.
  intros Hall Hk%elem_of_list_to_map_2%list_elem_of_In.
  rewrite forallb_forall in Hall. apply (Hall _ Hk).
Qed.

Lemma dest_table_key k v :
  dest_table !! k = Some v → from_option mnemonic true k = true.
Proof. by apply (table_key _ (from_option mnemonic true)). Qed.

Lemma comp_table_key s v : comp_table !! Some s = Some v → mnemonic s = true.
Proof. by apply (table_key _ (from_option mnemonic true) (Some s)). Qed.

Lemma jump_table_key k v :
  jump_table !! k = Some v → from_option mnemonic true k = true.
Proof. by apply (table_key _ (from_option mnemonic true)). Qed.

Lemma mnemonic_separator_free s : mnemonic s = true → separator_free s = true.
Proof. unfold mnemonic. by intros [[? _]%andb_true_iff _]%andb_true_iff. Qed.

Lemma mnemonic_head s r :
  mnemonic s = true → Py.startswith (s +:+ r) "@" = false.
Proof.
  unfold mnemonic. intros [[_ Hs]%andb_true_iff He]%andb_true_iff.
  destruct s as [|c s]; [done|]. apply negb_true_iff in Hs.
  rewrite app_cons. unfold Py.startswith in *.
  by rewrite prefix_char in *.
Qed.

Lemma compute_line_head (dest : option string) (comp : string)
    (jump : option string) :
  from_option mnemonic true dest = true → mnemonic comp = true →
  Py.startswith (compute_line dest comp jump) "@" = false.
Proof.
  intros Hd Hc. unfold compute_line.
  destruct dest as [d|]; cbn [from_option] in *.
  - rewrite !app_assoc_str. by apply mnemonic_head.
  - rewrite app_empty_l. by apply mnemonic_head.
Qed.
End mnemonics.

(** A compute line made of mnemonics of the three tables is parsed into
    its fields, and the fields are encoded. *)
Lemma compute_line_is_assembled (self : Assembler) (h : heap)
    (dest : option string) (comp : string) (jump : option string)
    (d c j : string) :
  dest_table !! dest = Some d →
  comp_table !! Some comp = Some c →
  jump_table !! jump = Some j →
  (∀ acc, build_intermediary_body self h acc (compute_line dest comp jump)
          = Ok (acc ++ [CIns dest comp jump]))
  ∧ (∀ acc, assemble_body acc (CIns dest comp jump)
            = Ok (acc ++ ["111" +:+ c +:+ d +:+ j])).
Proof.
  intros Hd Hc Hj. split; intros acc.
  - pose proof (dest_table_key _ _ Hd) as Hdk.
    pose proof (comp_table_key _ _ Hc) as Hck.
    pose proof (jump_table_key _ _ Hj) as Hjk.
    apply build_intermediary_body_compute_line.
    + destruct dest; [by apply mnemonic_separator_free | done].
    + by apply mnemonic_separator_free.
    + destruct jump; [by apply mnemonic_separator_free | done].
    + by apply compute_line_head.
  - cbn [assemble_body]. unfold table_get. by rewrite Hd, Hc, Hj.
Qed.

(** X9.  A compute line written with mnemonics of the three tables is
    assembled into the line [111], then the seven bits of the computation,
    the three of the destination and the three of the jump. *)
Theorem valid_compute_line_is_encoded (self : Assembler) (h : heap)
    (dest : option string) (comp : string) (jump : option string)
    (d c j : string) :
  dest_table !! dest = Some d →
  comp_table !! Some comp = Some c →
  jump_table !! jump = Some j →
  (intermediary ← build_intermediary_body self h []
                     (compute_line dest comp jump);
   for_each assemble_body [] intermediary)
  = Ok ["111" +:+ c +:+ d +:+ j].
Proof.
  intros Hd Hc Hj.
  destruct (compute_line_is_assembled self h _ _ _ _ _ _ Hd Hc Hj)
    as [Hparse Henc].
  rewrite Hparse. cbn [mbind result_bind app for_each]. by rewrite Henc.
Qed.

Lemma valid_compute_line_is_encoded_witness :
  (intermediary ← build_intermediary_body (mkAssembler [] [] [] ∅ 1)
                     (initial_heap ++ [predefined_symbols]) []
                     (compute_line (Some "MD") "D+1" (Some "JGT"));
   for_each assemble_body [] intermediary)
  = Ok ["111" +:+ "0011111" +:+ "011" +:+ "001"].
Proof.
  apply (valid_compute_line_is_encoded (mkAssembler [] [] [] ∅ 1)
           (initial_heap ++ [predefined_symbols])
           (Some "MD") "D+1" (Some "JGT")); reflexivity.
Defined.

Section literals.
Implicit Types (s : string) (c : ascii).

Lemma is_decimal_digit_isdigit c :
  is_decimal_digit c = true → Py.isdigit_char c = true.
Proof.
  unfold is_decimal_digit, Py.isdigit_char. intros ->. done.
Qed.

Lemma numeral_digits s :
  Py.forallb_str is_decimal_digit s = true →
  Py.forallb_str Py.isdigit_char s = true.
Proof.
  induction s as [|c s IH]; [done|]. cbn [Py.forallb_str].
  intros [Hc Hs]%andb_true_iff.
  by rewrite (is_decimal_digit_isdigit _ Hc), (IH Hs).
Qed.

Lemma is_numeral_isdigit s : is_numeral s = true → Py.isdigit s = true.
Proof.
  unfold is_numeral. intros [[Hne Hs]%andb_true_iff _]%andb_true_iff.
  destruct s as [|c s]; [done|]. cbn [Py.isdigit]. by apply numeral_digits.
Qed.

Lemma decimal_go_numeral s (acc : Z) (after_digit : bool) :
  Py.forallb_str is_decimal_digit s = true →
  negb (String.eqb s "") || after_digit = true →
  Py.decimal_go acc after_digit s = Some (decimal_from acc s).
Proof.
  revert acc after_digit.
  induction s as [|c s IH]; intros acc after_digit; cbn [Py.forallb_str].
  - intros _ Hb. cbn [Py.decimal_go decimal_from]. simpl in Hb. by rewrite Hb.
  - intros [Hc Hs]%andb_true_iff _. cbn [Py.decimal_go decimal_from].
    destruct (Ascii.eqb c "_") eqn:Hu.
    { apply Ascii.eqb_eq in Hu as ->. done. }
    unfold Py.digit_value. unfold is_decimal_digit in Hc. rewrite Hc.
    apply IH; [done|]. apply orb_true_r.
Qed.

(** [int] reads a numeral in base 10. *)
Lemma int_numeral s :
  is_numeral s = true → Py.int (Py.Str s) = Ok (decimal_value s).
Proof.
  intros Hn. pose proof Hn as [[Hne Hs]%andb_true_iff _]%andb_true_iff.
  destruct s as [|c s]; [done|].
  pose proof (numeral_digits _ Hs) as Hd.
  assert (Py.isdigit_char c = true) as Hc
    by (cbn [Py.forallb_str] in Hd; by apply andb_true_iff in Hd as [? _]).
  cbn [Py.int]. unfold Py.strip. rewrite lstrip_digits, rstrip_digits by done.
  apply isdigit_char_plain in Hc as (_ & -> & ->).
  by rewrite decimal_go_numeral.
Qed.
End literals.

Lemma predefined_symbols_int (sym : string) (v : Py.val) :
  predefined_symbols !! sym = Some v → ∃ n, Py.int v = Ok n.
Proof.
  intros Hv%elem_of_list_to_map_2%list_elem_of_In.
  assert (forallb (λ item : string * Py.val,
            match Py.int item.2 with
            | Ok m => true
            | Raise _ => false
            end) predefined_symbols_items = true) as Hall
    by (vm_compute; reflexivity).
  rewrite forallb_forall in Hall. specialize (Hall _ Hv). cbn [snd] in Hall.
  destruct (Py.int v) as [n|]; [by exists n | done].
Qed.

(** Once the variables are allocated, the operand of an address line of the
    program resolves to a number, unless it is made of digit characters
    that are not all decimal digits. *)
Lemma address_resolves (lbls : gmap string Z) (vars : dict)
    (code : list string) (sym : string) :
  allocation predefined_symbols vars
             (variable_uses lbls predefined_symbols code) →
  String "@" sym ∈ code →
  Py.isdigit sym = false ∨ is_numeral sym = true →
  ∃ n, Py.int (match vars !! sym with
               | Some v => v
               | None => match lbls !! sym with
                         | Some m => Py.Int m
                         | None => Py.Str sym
                         end
               end) = Ok n.
Proof.
  intros (Hold & Hnone & Hused & Hfirst) Hin Hsym.
  destruct (vars !! sym) as [v|] eqn:Hv.
  - destruct (predefined_symbols !! sym) as [v0|] eqn:Hpre.
    + rewrite (Hold _ _ Hpre) in Hv. injection Hv as <-.
      by apply (predefined_symbols_int sym).
    + destruct (decide (sym ∈ variable_uses lbls predefined_symbols code))
        as [Huse|Hnuse].
      * destruct (first_occurrence _ _ Huse) as (p & Hp & Hnp).
        rewrite (Hfirst _ _ Hp Hnp) in Hv. injection Hv as <-.
        by eexists.
      * by rewrite (Hnone _ Hpre Hnuse) in Hv.
  - destruct (lbls !! sym) as [m|] eqn:Hm; [by eexists|].
    destruct Hsym as [Hd|Hn].
    + assert (predefined_symbols !! sym = None) as Hpre.
      { destruct (predefined_symbols !! sym) as [v0|] eqn:Hpre; [|done].
        by rewrite (Hold _ _ Hpre) in Hv. }
      destruct (Hused sym) as [v Hv']; [by apply variable_uses_intro|].
      congruence.
    + exists (decimal_value sym). by apply int_numeral.
Qed.

(** X10.  A numeral operand (decimal digits only, at most 4300 of them)
    that is bound in neither table is read in base 10: after the variable
    pass, which allocates nothing for it, the parser resolves [@n] to the
    value of the numeral [n]. *)
Theorem literal_is_read_in_base_ten (self : Assembler) (h : heap)
    (vars0 : dict) (intermediary : list ins) (sym : string) :
  h !! variables self = Some vars0 →
  vars0 !! sym = None →
  labels self !! sym = None →
  is_numeral sym = true →
  build_intermediary_body self (find_variables self h) intermediary
                          (String "@" sym)
  = Ok (intermediary ++ [AIns (decimal_value sym)]).
Proof.
  intros Hl Hv0 Hlab Hn.
  destruct (find_variables_loop self h vars0 (assembly_code self) Hl)
    as (vars & Hfold & _ & Hnone & _).
  unfold find_variables. rewrite Hfold. cbn [fst].
  rewrite (build_intermediary_body_address _ _ vars)
    by (apply list_lookup_insert_eq; by eapply lookup_lt_Some).
  rewrite (Hnone sym Hv0), Hlab.
  - by rewrite int_numeral.
  - intros (_ & Hd & _)%variable_uses_elem.
    by rewrite (is_numeral_isdigit _ Hn) in Hd.
Qed.

Lemma literal_is_read_in_base_ten_witness :
  let self := mkAssembler ["@i"; "@0042"] [] [] ∅ 1 in
  let h := initial_heap ++ [predefined_symbols] in
  build_intermediary_body self (find_variables self h) [] "@0042"
  = Ok ([] ++ [AIns (decimal_value "0042")]).
Proof.
  cbv zeta.
  apply (literal_is_read_in_base_ten
           (mkAssembler ["@i"; "@0042"] [] [] ∅ 1)
           (initial_heap ++ [predefined_symbols]) predefined_symbols []
           "0042"); reflexivity.
Defined.

Lemma for_each_total {A B} (body : list B → A → result (list B))
    (P : B → Prop) (l : list A) :
  (∀ a, a ∈ l → ∃ b, P b ∧ ∀ acc, body acc a = Ok (acc ++ [b])) →
  ∃ out, for_each body [] l = Ok out ∧ Forall P out ∧ length out = length l.
Proof.
  intros Hbody.
  assert (∀ acc, ∃ out, for_each body acc l = Ok (acc ++ out)
                        ∧ Forall P out ∧ length out = length l) as Hgen.
  { induction l as [|a l IH]; intros acc.
    - exists []. by rewrite app_nil_r.
    - destruct (Hbody a) as (b & Hb & Ha); [apply list_elem_of_here|].
      destruct (IH (λ a' Hin, Hbody a' (list_elem_of_further _ _ _ Hin))
                   (acc ++ [b])) as (out & Hout & HP & Hlen).
      exists (b :: out). cbn [for_each]. rewrite Ha. cbn [mbind result_bind].
      rewrite Hout, <- app_assoc. split_and!; [done|by constructor|].
      simpl. by rewrite Hlen. }
  apply (Hgen []).
Qed.

(** X11.  A well-formed program is assembled: when every instruction is an
    address instruction on a symbol or a numeral, or a compute instruction
    made of mnemonics of the tables, no pass raises, and the output has one
    line for each instruction. *)
Theorem well_formed_program_is_assembled (stdin : list string) :
  Forall instruction (program stdin) →
  ∃ assembled,
    run stdin = Ok (Py.join newline assembled)
    ∧ length assembled = length (program stdin).
Proof.
  intros Hvalid.
  destruct (main_spec stdin initial_heap predefined_symbols eq_refl)
    as (lbls & vars & _ & Halloc & Hmain).
  unfold run. rewrite Hmain. cbn [snd]. clear Hmain.
  set (self := mkAssembler (program stdin) [] [] lbls (length initial_heap)).
  destruct (for_each_total
              (build_intermediary_body self (initial_heap ++ [vars]))
              (λ i, ∃ line, ∀ acc, assemble_body acc i = Ok (acc ++ [line]))
              (program stdin)) as (intermediary & -> & Henc & Hlen).
  { intros line Hin. rewrite Forall_forall in Hvalid.
    destruct (Hvalid line Hin) as [sym Hd|sym Hn|dest comp jump Hd Hc Hj].
    - destruct (address_resolves lbls vars (program stdin) sym Halloc Hin)
        as [n Hn]; [by left|].
      exists (AIns n). split; [by eexists|]. intros acc.
      rewrite (build_intermediary_body_address _ _ vars) by done.
      cbn [labels self]. by rewrite Hn.
    - destruct (address_resolves lbls vars (program stdin) sym Halloc Hin)
        as [n Hn']; [by right|].
      exists (AIns n). split; [by eexists|]. intros acc.
      rewrite (build_intermediary_body_address _ _ vars) by done.
      cbn [labels self]. by rewrite Hn'.
    - destruct Hd as [d Hd], Hc as [c Hc], Hj as [j Hj].
      destruct (compute_line_is_assembled self (initial_heap ++ [vars])
                  _ _ _ _ _ _ Hd Hc Hj) as [Hparse Henc].
      exists (CIns dest comp jump). split; [by eexists|done]. }
  cbn [mbind result_bind].
  destruct (for_each_total assemble_body (λ _, True) intermediary)
    as (assembled & -> & _ & Hlen').
  { intros i Hin. rewrite Forall_forall in Henc.
    destruct (Henc i Hin) as [line Hline]. by exists line. }
  exists assembled. split; [done | congruence].
Qed.

Lemma well_formed_program_is_assembled_witness :
  ∃ assembled,
    run ["@sum"; "M=0 // clear"; "(LOOP)"; "@LOOP"; "0;JMP"]
    = Ok (Py.join newline assembled)
    ∧ length assembled
      = length (program ["@sum"; "M=0 // clear"; "(LOOP)"; "@LOOP"; "0;JMP"]).
Proof.
  apply (well_formed_program_is_assembled
           ["@sum"; "M=0 // clear"; "(LOOP)"; "@LOOP"; "0;JMP"]).
  change (program _) with ["@sum"; "M=0"; "@LOOP"; "0;JMP"].
  repeat constructor.
  - apply (instruction_compute (Some "M") "0" None); by eexists.
  - apply (instruction_compute None "0" (Some "JMP")); by eexists.
Defined.

(** ** The exceptions of a run *)

Lemma for_each_raise {A S} (body : S → A → result S) (s : S) (l : list A)
    (e : exn) :
  for_each body s l = Raise e → ∃ a s', a ∈ l ∧ body s' a = Raise e.
Proof.
  revert s. induction l as [|a l IH]; intros s; [done|]. cbn [for_each].
  destruct (body s a) as [s'|e'] eqn:Ha; cbn [mbind result_bind].
  - intros (a' & s'' & Hin & Hraise)%IH.
    exists a', s''. split; [by apply list_elem_of_further | done].
  - intros [= <-]. exists a, s. split; [apply list_elem_of_here | done].
Qed.

Lemma int_str_raise (s : string) (e : exn) :
  Py.int (Py.Str s) = Raise e → e = ValueError s.
Proof.
  cbn [Py.int].
  destruct (match Py.strip s with
            | EmptyString => _
            | String _ _ => _
            end) as [negative numeral].
  destruct (Py.decimal_go 0 false numeral); [done|]. by intros [= <-].
Qed.

(** The only operand that does not resolve: digit characters that are no
    numeral, bound in no table. *)
Lemma address_raises (lbls : gmap string Z) (vars : dict)
    (code : list string) (sym : string) (e : exn) :
  allocation predefined_symbols vars
             (variable_uses lbls predefined_symbols code) →
  String "@" sym ∈ code →
  Py.int (match vars !! sym with
          | Some v => v
          | None => match lbls !! sym with
                    | Some m => Py.Int m
                    | None => Py.Str sym
                    end
          end) = Raise e →
  Py.isdigit sym = true ∧ is_numeral sym = false ∧ e = ValueError sym.
Proof.
  intros Halloc Hin Hraise.
  destruct (Py.isdigit sym) eqn:Hd.
  2:{ destruct (address_resolves lbls vars code sym Halloc Hin) as [n Hn];
        [by left | congruence]. }
  destruct (is_numeral sym) eqn:Hn.
  { destruct (address_resolves lbls vars code sym Halloc Hin) as [n Hn'];
      [by right | congruence]. }
  split_and!; [done..|].
  destruct Halloc as (Hold & Hnone & _ & Hfirst).
  destruct (vars !! sym) as [v|] eqn:Hv.
  - exfalso. destruct (predefined_symbols !! sym) as [v0|] eqn:Hpre.
    + rewrite (Hold _ _ Hpre) in Hv. injection Hv as <-.
      destruct (predefined_symbols_int sym v0 Hpre). congruence.
    + destruct (decide (sym ∈ variable_uses lbls predefined_symbols code))
        as [Huse|Hnuse].
      * destruct (first_occurrence _ _ Huse) as (p & Hp & Hnp).
        rewrite (Hfirst _ _ Hp Hnp) in Hv. by injection Hv as <-.
      * by rewrite (Hnone _ Hpre Hnuse) in Hv.
  - destruct (lbls !! sym); [done|]. by apply int_str_raise.
Qed.

(** X12.  A run raises in two cases only: a [ValueError] for an address
    operand made of digit characters that is not a numeral, and a
    [KeyError] for a compute line one of whose fields (destination, then
    computation, then jump) is in no table.  No other exception, and none
    from the label pass, leaves a run. *)
Theorem run_raises_for_bad_fields_only (stdin : list string) (e : exn) :
  run stdin = Raise e →
  (∃ sym, String "@" sym ∈ program stdin
          ∧ Py.isdigit sym = true ∧ is_numeral sym = false
          ∧ e = ValueError sym)
  ∨ (∃ line, line ∈ program stdin
             ∧ Py.startswith line "@" = false
             ∧ let dest := text_before "=" line in
               let comp := Some (computation line) in
               let jump := text_after ";" line in
               (dest_table !! dest = None ∧ e = KeyError dest)
               ∨ (is_Some (dest_table !! dest)
                  ∧ comp_table !! comp = None ∧ e = KeyError comp)
               ∨ (is_Some (dest_table !! dest) ∧ is_Some (comp_table !! comp)
                  ∧ jump_table !! jump = None ∧ e = KeyError jump)).
Proof.
  destruct (main_spec stdin initial_heap predefined_symbols eq_refl)
    as (lbls & vars & _ & Halloc & Hmain).
  unfold run. rewrite Hmain. cbn [snd]. clear Hmain.
  set (self := mkAssembler (program stdin) [] [] lbls (length initial_heap)).
  set (h := initial_heap ++ [vars]).
  destruct (for_each (build_intermediary_body self h) [] (program stdin))
    as [intermediary|e'] eqn:Hb; cbn [mbind result_bind].
  - destruct (for_each assemble_body [] intermediary) as [assembled|e'] eqn:Ha;
      cbn [mbind result_bind]; [done|].
    intros [= ->]. right.
    apply for_each_raise in Ha as (i & acc & Hi & Hraise).
    pose proof (for_each_one_each _ _ _
                  (build_intermediary_body_appending self h)
                  (build_intermediary_body_one self h) Hb) as Hparse.
    apply list_elem_of_lookup in Hi as [k Hk].
    destruct (Forall2_lookup_r _ _ _ _ _ Hparse Hk) as (line & Hline & Hbody).
    exists line. split; [by eapply list_elem_of_lookup_2|].
    destruct i as [n|dest comp jump]; [done|].
    destruct (Py.startswith line "@") eqn:Hs.
    { apply operand_startswith in Hs as [sym ->].
      rewrite (build_intermediary_body_address _ _ vars) in Hbody by done.
      by destruct (Py.int _). }
    split; [done|]. rewrite build_intermediary_body_fields in Hbody by done.
    injection Hbody as <- <- <-. cbv zeta.
    revert Hraise. cbn [assemble_body]. unfold table_get.
    destruct (dest_table !! _); cbn [mbind result_bind];
      [|intros [= <-]; by left].
    destruct (comp_table !! _); cbn [mbind result_bind];
      [|intros [= <-]; right; left; by eauto].
    destruct (jump_table !! _); cbn [mbind result_bind]; [done|].
    intros [= <-]. right. right. by eauto.
  - intros [= ->]. left.
    apply for_each_raise in Hb as (line & acc & Hin & Hraise).
    destruct (Py.startswith line "@") eqn:Hs.
    2:{ by rewrite build_intermediary_body_fields in Hraise. }
    apply operand_startswith in Hs as [sym ->]. exists sym.
    rewrite (build_intermediary_body_address _ _ vars) in Hraise by done.
    destruct (Py.int _) as [n|e'] eqn:Hint; [done|].
    cbn [mbind result_bind] in Hraise. injection Hraise as ->.
    by destruct (address_raises lbls vars (program stdin) sym e Halloc Hin Hint)
      as (? & ? & ?).
Qed.

Lemma run_raises_for_bad_fields_only_witness :
  let stdin := ["@2"; "D=A"; "X=D+1;JMP"] in
  let e := KeyError (Some "X") in
  (∃ sym, String "@" sym ∈ program stdin
          ∧ Py.isdigit sym = true ∧ is_numeral sym = false
          ∧ e = ValueError sym)
  ∨ (∃ line, line ∈ program stdin
             ∧ Py.startswith line "@" = false
             ∧ let dest := text_before "=" line in
               let comp := Some (computation line) in
               let jump := text_after ";" line in
               (dest_table !! dest = None ∧ e = KeyError dest)
               ∨ (is_Some (dest_table !! dest)
                  ∧ comp_table !! comp = None ∧ e = KeyError comp)
               ∨ (is_Some (dest_table !! dest) ∧ is_Some (comp_table !! comp)
                  ∧ jump_table !! jump = None ∧ e = KeyError jump)).
Proof.
  cbv zeta.
  apply (run_raises_for_bad_fields_only ["@2"; "D=A"; "X=D+1;JMP"]
           (KeyError (Some "X"))).
  vm_compute. reflexivity.
Defined.

(** ** The encoder *)

Section decoding.
Implicit Types (s r : string) (k : option string).

Lemma app_inj_length s1 s2 r1 r2 :
  String.length s1 = String.length s2 →
  s1 +:+ r1 = s2 +:+ r2 → s1 = s2 ∧ r1 = r2.
Proof.
  revert s2. induction s1 as [|c s1 IH]; intros [|c' s2]; try done.
  rewrite !app_cons. intros [= Hlen] [= -> Heq].
  by destruct (IH _ Hlen Heq) as [-> ->].
Qed.

Lemma bits_length n s : bits n s = true → String.length s = n.
Proof. unfold bits. by intros [?%Nat.eqb_eq _]%andb_true_iff. Qed.

(** Two keys accepted by [Q] that a table sends to the same bits are the
    same key. *)
Lemma table_injective (items : list (option string * string))
    (Q : option string → bool) k1 k2 v :
  forallb (λ a, forallb (λ b,
     implb (Q a.1 && Q b.1 && String.eqb a.2 b.2) (bool_decide (a.1 = b.1)))
     items) items = true →
  Q k1 = true → Q k2 = true →
  (list_to_map items : gmap (option string) string) !! k1 = Some v →
  (list_to_map items : gmap (option string) string) !! k2 = Some v →
  k1 = k2.
Proof.
  intros Hall Hq1 Hq2 H1%elem_of_list_to_map_2%list_elem_of_In
    H2%elem_of_list_to_map_2%list_elem_of_In.
  rewrite forallb_forall in Hall. specialize (Hall _ H1).
  rewrite forallb_forall in Hall. specialize (Hall _ H2).
  cbn [fst snd] in Hall. rewrite Hq1, Hq2, String.eqb_refl in Hall.
  by apply bool_decide_eq_true_1 in Hall.
Qed.

Lemma dest_table_injective k1 k2 v :
  dest_table !! k1 = Some v → dest_table !! k2 = Some v → k1 = k2.
Proof. by apply (table_injective _ (λ _, true)). Qed.

Lemma jump_table_injective k1 k2 v :
  jump_table !! k1 = Some v → jump_table !! k2 = Some v → k1 = k2.
Proof. by apply (table_injective _ (λ _, true)). Qed.

(** In [comp_table] the key [None] shares its bits with [D&A]; the encoder
    looks up computations that are present only. *)
Lemma comp_table_injective s1 s2 v :
  comp_table !! Some s1 = Some v → comp_table !! Some s2 = Some v → s1 = s2.
Proof.
  intros H1 H2. assert (Some s1 = Some s2) as [= ->]; [|done].
  revert H1 H2.
  apply (table_injective _ (λ k, bool_decide (is_Some k)));
    [vm_compute; reflexivity | by apply bool_decide_eq_true_2..].
Qed.

Lemma table_get_lookup (t : gmap (option string) string) k v :
  table_get t k = Ok v → t !! k = Some v.
Proof. unfold table_get. destruct (t !! k); [by intros [= <-] | done]. Qed.

Lemma assemble_body_injective (i1 i2 : ins) (line : string) :
  in_range i1 → in_range i2 →
  assemble_body [] i1 = Ok [line] → assemble_body [] i2 = Ok [line] →
  i1 = i2.
Proof.
  destruct i1 as [n1|d1 c1 j1], i2 as [n2|d2 c2 j2]; cbn [in_range].
  - intros H1 H2.
    destruct (assemble_body_address n1 H1) as (f1 & -> & _ & _ & Hv1).
    destruct (assemble_body_address n2 H2) as (f2 & -> & _ & _ & Hv2).
    intros [= <-] [= <-]. congruence.
  - intros H1 _.
    destruct (assemble_body_address n1 H1) as (f1 & -> & _). intros [= <-].
    cbn [assemble_body].
    destruct (table_get dest_table d2); [|done].
    destruct (table_get comp_table (Some c2)); [|done].
    by destruct (table_get jump_table j2).
  - intros _ H2.
    destruct (assemble_body_address n2 H2) as (f2 & -> & _).
    cbn [assemble_body].
    destruct (table_get dest_table d1); [|done].
    destruct (table_get comp_table (Some c1)); [|done].
    destruct (table_get jump_table j1); [|done].
    by intros [= <-].
  - intros _ _. cbn [assemble_body].
    destruct (table_get dest_table d1) as [db1|] eqn:Hd1; [|done].
    destruct (table_get comp_table (Some c1)) as [cb1|] eqn:Hc1; [|done].
    destruct (table_get jump_table j1) as [jb1|] eqn:Hj1; [|done].
    destruct (table_get dest_table d2) as [db2|] eqn:Hd2; [|done].
    destruct (table_get comp_table (Some c2)) as [cb2|] eqn:Hc2; [|done].
    destruct (table_get jump_table j2) as [jb2|] eqn:Hj2; [|done].
    cbn [mbind result_bind app]. intros [= <-] [= Heq].
    apply app_inj_length in Heq as [_ Heq]; [|done].
    apply app_inj_length in Heq as [-> Heq].
    2:{ apply comp_table_bits, bits_length in Hc1, Hc2. congruence. }
    apply app_inj_length in Heq as [-> ->].
    2:{ apply dest_table_bits, bits_length in Hd1, Hd2. congruence. }
    apply table_get_lookup in Hd1, Hd2, Hc1, Hc2, Hj1, Hj2.
    by rewrite (dest_table_injective _ _ _ Hd1 Hd2),
      (comp_table_injective _ _ _ Hc1 Hc2),
      (jump_table_injective _ _ _ Hj1 Hj2).
Qed.
End decoding.

(** X13.  The encoding loses nothing: two instructions, address
    instructions within the 15 bits or compute instructions, that are
    encoded as the same line are the same instruction. *)
Theorem encoding_is_injective (i1 i2 : ins) (line : string) :
  in_range i1 → in_range i2 →
  assemble_body [] i1 = Ok [line] → assemble_body [] i2 = Ok [line] →
  i1 = i2.
Proof. apply assemble_body_injective. Qed.

Lemma encoding_is_injective_witness :
  CIns (Some "D") "D&A" None = CIns (Some "D") "D&A" None.
Proof.
  apply (encoding_is_injective (CIns (Some "D") "D&A" None)
           (CIns (Some "D") "D&A" None) "1110000000010000");
    [exact I | exact I | reflexivity | reflexivity].
Defined.

(** X14.  [get_binary_string(i, n)] for [0 <= i < 2^n] and a positive
    width [n] is a string of exactly [n] binary digits whose value is
    [i]. *)
Theorem binary_string_has_the_width (i n : Z) :
  0 < n → 0 ≤ i < 2 ^ n →
  String.length (get_binary_string i n) = Z.to_nat n
  ∧ Py.forallb_str is_bit (get_binary_string i n) = true
  ∧ binary_value (get_binary_string i n) = Some i.
Proof. intros Hn Hi. by apply get_binary_string_fits. Qed.

Lemma binary_string_has_the_width_witness :
  String.length (get_binary_string 5 4) = Z.to_nat 4
  ∧ Py.forallb_str is_bit (get_binary_string 5 4) = true
  ∧ binary_value (get_binary_string 5 4) = Some 5.
Proof. apply (binary_string_has_the_width 5 4); [lia | simpl; lia]. Defined.

(** X15.  [get_binary_string] of a negative number, for a width that is
    not negative, is no binary numeral: the slice [[2:]] removes the sign
    and the [0] of the prefix, and the result starts with the letter [b]. *)
Theorem binary_string_of_negative (i n : Z) :
  i < 0 → 0 ≤ n →
  ∃ rest, get_binary_string i n = String "b" rest
          ∧ Py.forallb_str is_bit (get_binary_string i n) = false.
Proof.
  intros Hi _. rewrite get_binary_string_neg by done. rewrite app_cons.
  by eexists.
Qed.

Lemma binary_string_of_negative_witness :
  ∃ rest, get_binary_string (-1) 15 = String "b" rest
          ∧ Py.forallb_str is_bit (get_binary_string (-1) 15) = false.
Proof. apply (binary_string_of_negative (-1) 15); lia. Defined.

(** ** The output text *)

Section output.
Implicit Types (s r w : string) (l : list string).

Lemma text_lines_nonempty s : text_lines s ≠ [].
Proof.
  destruct s as [|c s]; [done|]. cbn [text_lines].
  destruct (Ascii.eqb c "010"); [done|]. by destruct (text_lines s).
Qed.

Lemma text_lines_app w r :
  lacks "010" w = true →
  text_lines (w +:+ r)
  = match text_lines r with
    | line :: rest => (w +:+ line) :: rest
    | [] => [w]
    end.
Proof.
  unfold lacks. induction w as [|c w IH]; cbn [Py.forallb_str].
  - intros _. rewrite app_empty_l. pose proof (text_lines_nonempty r).
    by destruct (text_lines r).
  - intros [Hc Hw]%andb_true_iff. apply negb_true_iff in Hc.
    rewrite app_cons. cbn [text_lines]. rewrite Hc, (IH Hw).
    by destruct (text_lines r).
Qed.

Lemma text_lines_join l :
  l ≠ [] → Forall (λ w, lacks "010" w = true) l →
  text_lines (Py.join newline l) = l.
Proof.
  induction l as [|w l IH]; [done|]. intros _ Hall.
  apply Forall_cons in Hall as [Hw Hl].
  destruct l as [|w' l].
  - cbn [Py.join]. rewrite <- (app_empty_r w) at 1.
    rewrite text_lines_app by done. cbn [text_lines]. by rewrite app_empty_r.
  - change (Py.join newline (w :: w' :: l))
      with (w +:+ newline +:+ Py.join newline (w' :: l)).
    rewrite text_lines_app by done. unfold newline at 1. rewrite app_cons.
    cbn [text_lines]. change (Ascii.eqb "010" "010") with true. cbv iota.
    rewrite app_empty_l, IH by done. by rewrite app_empty_r.
Qed.

Lemma is_bit_lacks_newline s :
  Py.forallb_str is_bit s = true → lacks "010" s = true.
Proof.
  unfold lacks. induction s as [|c s IH]; [done|]. cbn [Py.forallb_str].
  intros [Hc Hs]%andb_true_iff. rewrite (IH Hs), andb_true_r.
  unfold is_bit in Hc.
  by apply orb_true_iff in Hc as [Hc%Ascii.eqb_eq|Hc%Ascii.eqb_eq]; subst c.
Qed.

Lemma get_binary_string_lacks_newline (i n : Z) :
  0 ≤ n → lacks "010" (get_binary_string i n) = true.
Proof.
  intros _. destruct (decide (i < 0)) as [Hi|Hi].
  - rewrite get_binary_string_neg by done. rewrite !lacks_app.
    rewrite (is_bit_lacks_newline (Py.zeros _)) by apply bits_zeros.
    by rewrite (is_bit_lacks_newline (Py.bin _)) by apply bits_bin.
  - rewrite get_binary_string_nonneg by lia. rewrite lacks_app.
    by rewrite !is_bit_lacks_newline by (apply bits_zeros || apply bits_bin).
Qed.

Lemma assemble_body_lacks_newline (i : ins) w :
  assemble_body [] i = Ok [w] → lacks "010" w = true.
Proof.
  destruct i as [n|dest comp jump]; cbn [assemble_body].
  - intros [= <-]. rewrite lacks_app.
    by rewrite get_binary_string_lacks_newline.
  - destruct (table_get dest_table dest) as [d|] eqn:Hd; [|done].
    destruct (table_get comp_table (Some comp)) as [c|] eqn:Hc; [|done].
    destruct (table_get jump_table jump) as [j|] eqn:Hj; [|done].
    intros [= <-]. apply is_bit_lacks_newline.
    apply comp_table_bits in Hc. apply dest_table_bits in Hd.
    apply jump_table_bits in Hj. unfold bits in *.
    apply andb_true_iff in Hc as [_ Hc]. apply andb_true_iff in Hd as [_ Hd].
    apply andb_true_iff in Hj as [_ Hj].
    by rewrite !forallb_str_app, Hc, Hd, Hj.
Qed.
End output.

(** X16.  The text that [get_machine_code] gives holds the lines of
    [machine_code] and nothing else: for a program of at least one
    instruction that [assemble] has encoded, cutting the text at its
    newline characters gives back the list of lines, so that there is one
    newline between two lines and none at the end. *)
Theorem machine_code_text_has_the_lines (self self' : Assembler) :
  intermediary_code self ≠ [] →
  assemble self = Ok self' →
  text_lines (get_machine_code self') = machine_code self'
  ∧ length (machine_code self') = length (intermediary_code self).
Proof.
  intros Hne. unfold assemble.
  destruct (for_each assemble_body [] (intermediary_code self))
    as [assembled|] eqn:Ha; [|done].
  cbn [mbind result_bind]. intros [= <-].
  cbn [machine_code set_machine_code]. unfold get_machine_code.
  cbn [machine_code set_machine_code].
  pose proof (for_each_one_each _ _ _ assemble_body_appending
                assemble_body_one Ha) as Henc.
  pose proof (Forall2_length _ _ _ Henc) as Hlen. split; [|done].
  apply text_lines_join.
  - intros ->. by destruct (intermediary_code self).
  - apply Forall_forall. intros w [k Hk]%list_elem_of_lookup.
    destruct (Forall2_lookup_r _ _ _ _ _ Henc Hk) as (i & _ & Hi).
    by apply (assemble_body_lacks_newline i).
Qed.

Lemma machine_code_text_has_the_lines_witness :
  ∃ self',
    assemble (mkAssembler [] [AIns 2; CIns (Some "D") "A" None] [] ∅ 1)
    = Ok self'
    ∧ text_lines (get_machine_code self') = machine_code self'
    ∧ length (machine_code self') = 2%nat.
Proof.
  eexists. split; [reflexivity|].
  apply (machine_code_text_has_the_lines
           (mkAssembler [] [AIns 2; CIns (Some "D") "A" None] [] ∅ 1));
    [discriminate | reflexivity].
Defined.

(** ** The whole run *)

Section completed_run.
Variables (stdin : list string) (h' : heap) (asm : Assembler).
Hypothesis Hrun : __init__ stdin initial_heap = (h', Ok asm).

(** The addresses that a completed run resolves are not negative. *)
Lemma completed_run_addresses (j : nat) (n : Z) :
  intermediary_code asm !! j = Some (AIns n) → 0 ≤ n.
Proof using Hrun.
  intros Hi.
  destruct (init_ok stdin initial_heap predefined_symbols h' asm eq_refl Hrun)
    as (lbls & vars & Hfl & -> & Halloc & Hasm & Hparse & Henc).
  cbv zeta in *.
  destruct (label_pass_spec stdin (length initial_heap))
    as (lbls1 & Hfl1 & Hfold).
  rewrite Hfl in Hfl1. injection Hfl1 as <-.
  destruct (find_labels_loop (normalized stdin) ∅)
    as (lbls2 & Hfold2 & _ & _ & _ & Hpos).
  rewrite Hfold in Hfold2. injection Hfold2 as <-.
  destruct (Forall2_lookup_r _ _ _ _ _ Hparse Hi) as (src & Hsrc & Hp).
  destruct (Py.startswith src "@") eqn:Hs.
  - apply operand_startswith in Hs as [sym ->].
    rewrite (build_intermediary_body_address _ _ vars) in Hp by done.
    cbn [labels] in Hp.
    destruct (Py.int _) as [m|] eqn:Hm; [|done]. injection Hp as ->.
    eapply resolved_address_nonneg; [exact Halloc| | |exact Hm].
    + intros name m' Hm'. destruct (Hpos _ _ Hm') as [?|?]; done.
    + intros Hv Hlb. destruct (Py.isdigit sym) eqn:Hd; [done|].
      destruct Halloc as (Hold & _ & Hsome & _).
      assert (predefined_symbols !! sym = None) as Hpre.
      { destruct (predefined_symbols !! sym) as [v0|] eqn:Hv0; [|done].
        rewrite (Hold _ _ Hv0) in Hv. done. }
      destruct (Hsome sym) as [v Hv']; [|congruence].
      apply (variable_uses_intro _ _ _ _
               (list_elem_of_lookup_2 _ _ _ Hsrc)); done.
  - rewrite build_intermediary_body_fields in Hp by done. done.
Qed.

Lemma completed_run_lines (j : nat) (line : string) :
  program stdin !! j = Some line →
  ∃ i w,
    intermediary_code asm !! j = Some i
    ∧ machine_code asm !! j = Some w
    ∧ build_intermediary_body
        (mkAssembler (program stdin) [] [] (labels asm) (variables asm))
        h' [] line = Ok [i]
    ∧ assemble_body [] i = Ok [w].
Proof using Hrun.
  intros Hline.
  destruct (init_ok stdin initial_heap predefined_symbols h' asm eq_refl Hrun)
    as (lbls & vars & Hfl & -> & Halloc & Hasm & Hparse & Henc).
  cbv zeta in *.
  destruct (Forall2_lookup_l _ _ _ _ _ Hparse Hline) as (i & Hi & Hp).
  destruct (Forall2_lookup_l _ _ _ _ _ Henc Hi) as (w & Hw & He).
  exists i, w. rewrite Hasm. cbn [labels variables].
  by rewrite <- Hasm.
Qed.
End completed_run.

Lemma address_line_bits (n : Z) :
  0 ≤ n →
  Py.forallb_str is_bit ("0" +:+ get_binary_string n 15) = true
  ∧ (16 ≤ String.length ("0" +:+ get_binary_string n 15))%nat.
Proof.
  intros Hn. rewrite get_binary_string_nonneg by done.
  rewrite !forallb_str_app, !str_length_app, bits_zeros, bits_bin, length_zeros.
  split; [done|]. unfold Py.len. simpl String.length at 1. lia.
Qed.

(** X17.  The output follows the program line by line: in a completed run
    the [j]-th line of machine code is the encoding of the instruction
    parsed from the [j]-th line of the normalized, label-free program. *)
Theorem output_follows_the_program (stdin : list string) (h' : heap)
    (asm : Assembler) (j : nat) (line : string) :
  __init__ stdin initial_heap = (h', Ok asm) →
  program stdin !! j = Some line →
  ∃ i w,
    intermediary_code asm !! j = Some i
    ∧ machine_code asm !! j = Some w
    ∧ build_intermediary_body
        (mkAssembler (program stdin) [] [] (labels asm) (variables asm))
        h' [] line = Ok [i]
    ∧ assemble_body [] i = Ok [w].
Proof. intros Hrun. by apply completed_run_lines. Qed.

Lemma output_follows_the_program_witness :
  let stdin := ["(START)"; "  @START // entry"; ""; "0;JMP"] in
  ∃ h' asm,
    __init__ stdin initial_heap = (h', Ok asm)
    ∧ ∃ i w,
        intermediary_code asm !! 1%nat = Some i
        ∧ machine_code asm !! 1%nat = Some w
        ∧ build_intermediary_body
            (mkAssembler (program stdin) [] [] (labels asm) (variables asm))
            h' [] "0;JMP" = Ok [i]
        ∧ assemble_body [] i = Ok [w].
Proof.
  cbv zeta.
  assert ((__init__ ["(START)"; "  @START // entry"; ""; "0;JMP"]
                    initial_heap).2
          = Ok (mkAssembler ["@START"; "0;JMP"]
                  [AIns 0; CIns None "0" (Some "JMP")]
                  ["0000000000000000"; "1110101010000111"]
                  {["START" := 0]} 1)) as Hcompletes
    by (vm_compute; reflexivity).
  destruct (__init__ ["(START)"; "  @START // entry"; ""; "0;JMP"]
                     initial_heap) as [h' [asm|e]] eqn:Hrun.
  - exists h', asm. split; [reflexivity|].
    apply (output_follows_the_program _ h' asm 1 "0;JMP" Hrun). reflexivity.
  - discriminate Hcompletes.
Defined.

(** X18.  A completed run prints binary digits only: every line of
    machine code is made of the characters [0] and [1] and is at least 16
    characters long; the letter that [get_binary_string] leaves for a
    negative number never reaches the output. *)
Theorem output_is_binary (stdin : list string) (h' : heap) (asm : Assembler) :
  __init__ stdin initial_heap = (h', Ok asm) →
  Forall (λ w, Py.forallb_str is_bit w = true ∧ (16 ≤ String.length w)%nat)
         (machine_code asm).
Proof.
  intros Hrun. apply Forall_forall. intros w [j Hw]%list_elem_of_lookup.
  destruct (init_ok stdin initial_heap predefined_symbols h' asm eq_refl Hrun)
    as (_ & _ & _ & _ & _ & _ & _ & Henc).
  destruct (Forall2_lookup_r _ _ _ _ _ Henc Hw) as (i & Hi & He).
  destruct i as [n|dest comp jump].
  - pose proof (completed_run_addresses stdin h' asm Hrun j n Hi) as Hn.
    cbn [assemble_body] in He. injection He as <-.
    by apply address_line_bits.
  - apply assemble_body_compute in He as [Hlen Hbits]. split; [done | lia].
Qed.

Lemma output_is_binary_witness :
  let stdin := ["@R1"; "@40000"; "D=A"] in
  ∃ h' asm,
    __init__ stdin initial_heap = (h', Ok asm)
    ∧ Forall (λ w, Py.forallb_str is_bit w = true
                   ∧ (16 ≤ String.length w)%nat)
             (machine_code asm).
Proof.
  cbv zeta.
  assert ((__init__ ["@R1"; "@40000"; "D=A"] initial_heap).2
          = Ok (mkAssembler ["@R1"; "@40000"; "D=A"]
                  [AIns 1; AIns 40000; CIns (Some "D") "A" None]
                  ["0000000000000001"; "01001110001000000";
                   "1110110000010000"]
                  ∅ 1)) as Hcompletes
    by (vm_compute; reflexivity).
  destruct (__init__ ["@R1"; "@40000"; "D=A"] initial_heap)
    as [h' [asm|e]] eqn:Hrun.
  - exists h', asm. split; [reflexivity|].
    apply (output_is_binary _ h' asm Hrun).
  - discriminate Hcompletes.
Defined.

Lemma join_empty (l : list string) :
  Forall (λ w, w ≠ "") l → Py.join newline l = "" → l = [].
Proof.
  destruct l as [|w l]; [done|]. intros [Hw _]%Forall_cons.
  destruct l as [|w' l]; cbn [Py.join]; [done|].
  destruct w as [|c w]; [done|]. by rewrite app_cons.
Qed.

(** X19.  The output is empty exactly when the input holds no
    instruction: blank lines, comments and label declarations alone give
    the empty text, and every instruction gives a line. *)
Theorem empty_output_iff_no_instruction (stdin : list string) :
  run stdin = Ok "" ↔ program stdin = [].
Proof.
  split.
  - intros Hout. unfold run, main in Hout.
    destruct (__init__ stdin initial_heap) as [h' [asm|e]] eqn:Hrun; [|done].
    cbn [snd mbind result_bind] in Hout. injection Hout as Hout.
    destruct (init_ok stdin initial_heap predefined_symbols h' asm eq_refl
                Hrun) as (lbls & vars & _ & _ & _ & _ & Hparse & Henc).
    cbv zeta in Hparse.
    assert (machine_code asm = []) as Hnil.
    2:{ apply Forall2_length in Hparse, Henc. rewrite Hnil in Henc.
        apply nil_length_inv. simpl in Henc. congruence. }
    apply join_empty; [|done].
    apply Forall_forall. intros w [j Hw]%list_elem_of_lookup.
    destruct (Forall2_lookup_r _ _ _ _ _ Henc Hw) as (i & Hi & He).
    destruct i as [n|dest comp jump].
    + cbn [assemble_body] in He. injection He as <-. by rewrite app_cons.
    + apply assemble_body_compute in He as [Hlen _]. by destruct w.
  - intros Hnil.
    destruct (main_spec stdin initial_heap predefined_symbols eq_refl)
      as (lbls & vars & _ & _ & Hmain).
    unfold run. rewrite Hmain, Hnil. done.
Qed.
